(** * Session and process-control layer of the Flutter iOS simulator MCP server

    A shallow embedding of [session/manager.ts] (SessionManager),
    [flutter/log-buffer.ts] (LogBuffer) and [flutter/process-manager.ts]
    (FlutterProcessManager), followed by the properties of the
    specification that concern them.

    Conventions of the model.
    - A JavaScript string is the [string] of the UTF-8 bytes of its text:
      an ASCII character is one byte, any other character two to four
      bytes, none of them an ASCII byte. The characters beyond ASCII that
      the code tells apart (the line terminators of a regular expression's
      [.], the white space of [trim] and [parseInt]) are recognised by
      their bytes.
    - JavaScript numbers that count or index are [Z]; the arguments
      [fromIndex] and [limit] are integers.
    - [new Date()] is an explicit [now] argument.
    - Calls that leave the program (simulator control, process spawn, the
      file system, the logger) are answered by an environment record and
      recorded, in call order, in a trace held by the state. *)

From Stdlib Require Import ZArith Ascii String List Bool Lia Sorted.
From stdpp Require Import base tactics option list strings gmap fin_maps.

Local Open Scope Z_scope.

(** ** Results of fallible operations: a thrown error or a value *)

Inductive Res (E A : Type) : Type :=
| Throw (e : E)
| Ret (a : A).
Arguments Throw {E A} e.
Arguments Ret {E A} a.

(** State-and-exception monad: a JavaScript method that mutates [this],
    may [throw], and keeps the mutations made before the throw. *)
Definition M (S E A : Type) : Type := S -> Res E A * S.

Definition throw {S E A} (e : E) : M S E A := fun s => (Throw e, s).
Definition get {S E} : M S E S := fun s => (Ret s, s).
Definition modify {S E} (f : S -> S) : M S E unit := fun s => (Ret tt, f s).

#[global] Instance M_ret {S E} : MRet (M S E) :=
  fun A (a : A) s => (Ret a, s).
#[global] Instance M_bind {S E} : MBind (M S E) :=
  fun A B (k : A -> M S E B) (m : M S E A) s =>
    match m s with
    | (Ret a, s') => k a s'
    | (Throw e, s') => (Throw e, s')
    end.

(** [try { m } catch (e) { h e }] *)
Definition try_catch {S E A} (m : M S E A) (h : E -> M S E A) : M S E A :=
  fun s => match m s with
           | (Ret a, s') => (Ret a, s')
           | (Throw e, s') => h e s'
           end.
(** [if (c) throw e;] *)
Definition throw_if {S E} (c : bool) (e : E) : M S E unit :=
  if c then throw e else mret tt.

(** ** JavaScript string primitives *)

Module Js.

Definition LF : ascii := "010"%char.
Definition CR : ascii := "013"%char.

(** [s.startsWith(p)] *)
Definition startsWith (s p : string) : bool := String.prefix p s.

(** [s.endsWith(x)] *)
Definition endsWith (s x : string) : bool :=
  let n := String.length s in
  let k := String.length x in
  (k <=? n)%nat && String.eqb (String.substring (n - k) k s) x.

(** [s.includes(x)] *)
Definition includes (s x : string) : bool :=
  match String.index 0 x s with Some _ => true | None => false end.

(** [s.substring(n)] for [0 <= n] *)
Fixpoint substring_from (n : nat) (s : string) : string :=
  match n, s with
  | O, _ => s
  | S n', String _ s' => substring_from n' s'
  | S _, EmptyString => EmptyString
  end.

(** [s.split(sep)] for a one-character separator: never the empty list. *)
Fixpoint split (sep : ascii) (s : string) : list string :=
  match s with
  | EmptyString => [EmptyString]
  | String c s' =>
      if Ascii.eqb c sep then EmptyString :: split sep s'
      else match split sep s' with
           | [] => [String c EmptyString]
           | w :: ws => String c w :: ws
           end
  end.

(** [parts.join(sep)] *)
Fixpoint join (sep : string) (parts : list string) : string :=
  match parts with
  | [] => EmptyString
  | [p] => p
  | p :: ps => p +:+ sep +:+ join sep ps
  end.

(** The string with the given bytes. *)
Definition utf8 (bytes : list Z) : string :=
  fold_right (fun b s => String (ascii_of_N (Z.to_N b)) s) EmptyString bytes.

(** The line terminators of JavaScript: U+000A, U+000D, U+2028 and
    U+2029. *)
Definition lineTerminators : list string :=
  [utf8 [10]; utf8 [13]; utf8 [226; 128; 168]; utf8 [226; 128; 169]].

(** Its white space that ends no line: U+0009, U+000B, U+000C, U+0020,
    U+00A0, U+1680, U+2000 to U+200A, U+202F, U+205F, U+3000 and U+FEFF. *)
Definition spaces : list string :=
  [utf8 [9]; utf8 [11]; utf8 [12]; utf8 [32];
   utf8 [194; 160]; utf8 [225; 154; 128];
   utf8 [226; 128; 128]; utf8 [226; 128; 129]; utf8 [226; 128; 130];
   utf8 [226; 128; 131]; utf8 [226; 128; 132]; utf8 [226; 128; 133];
   utf8 [226; 128; 134]; utf8 [226; 128; 135]; utf8 [226; 128; 136];
   utf8 [226; 128; 137]; utf8 [226; 128; 138];
   utf8 [226; 128; 175]; utf8 [226; 129; 159]; utf8 [227; 128; 128];
   utf8 [239; 187; 191]].

(** What [trim] and [parseInt] strip. *)
Definition whiteSpace : list string := spaces ++ lineTerminators.

(** The number of bytes of the white-space character [s] begins with, 0
    when it begins with none. *)
Definition whiteSpaceLength (s : string) : nat :=
  match List.find (startsWith s) whiteSpace with
  | Some t => String.length t
  | None => O
  end.

(** Some character from here on is not white space; [skip] counts the
    bytes still to pass of a white-space character that has begun. *)
Fixpoint someNotWhite (skip : nat) (s : string) : bool :=
  match s with
  | EmptyString => false
  | String _ rest =>
      match skip with
      | S k => someNotWhite k rest
      | O =>
          match whiteSpaceLength s with
          | O => true
          | S k => someNotWhite k rest
          end
      end
  end.

(** Truthiness of [s.trim()]: some character is not white space. *)
Definition trim_nonempty (s : string) : bool := someNotWhite 0 s.

(** Truthiness of a string: it is not empty. *)
Definition truthy (s : string) : bool :=
  match s with EmptyString => false | _ => true end.

(** An optional string argument tested with [if (x)]. *)
Definition given (o : option string) : option string :=
  match o with
  | Some s => if truthy s then Some s else None
  | None => None
  end.

End Js.

(** ** Node's [path] module (POSIX flavour) *)

Module Path.

Definition isAbsolute (p : string) : bool :=
  match p with String "/" _ => true | _ => false end.

(** [normalizeString]: the segments kept so far are held in reverse. *)
Fixpoint normalizeSegments (allowAboveRoot : bool) (segs acc : list string)
  : list string :=
  match segs with
  | [] => rev acc
  | seg :: rest =>
      if String.eqb seg "" || String.eqb seg "." then
        normalizeSegments allowAboveRoot rest acc
      else if String.eqb seg ".." then
        match acc with
        | last :: acc' =>
            if String.eqb last ".." then
              normalizeSegments allowAboveRoot rest
                (if allowAboveRoot then ".." :: acc else acc)
            else normalizeSegments allowAboveRoot rest acc'
        | [] =>
            normalizeSegments allowAboveRoot rest
              (if allowAboveRoot then [".."] else [])
        end
      else normalizeSegments allowAboveRoot rest (seg :: acc)
  end.

Definition normalizeString (p : string) (allowAboveRoot : bool) : string :=
  Js.join "/" (normalizeSegments allowAboveRoot (Js.split "/" p) []).

(** The right-to-left loop of [resolve]: [paths] is given last argument
    first and ends with the working directory. *)
Fixpoint resolveLoop (paths : list string) (resolvedPath : string)
  : string * bool :=
  match paths with
  | [] => (resolvedPath, false)
  | p :: rest =>
      if Js.truthy p then
        let resolvedPath' := p +:+ "/" +:+ resolvedPath in
        if isAbsolute p then (resolvedPath', true)
        else resolveLoop rest resolvedPath'
      else resolveLoop rest resolvedPath
  end.

(** [path.resolve(...paths)] in a process whose working directory is [cwd]. *)
Definition resolve (cwd : string) (paths : list string) : string :=
  let '(resolvedPath, resolvedAbsolute) :=
    resolveLoop (rev paths ++ [cwd]) "" in
  let normalized := normalizeString resolvedPath (negb resolvedAbsolute) in
  if resolvedAbsolute then "/" +:+ normalized
  else if Js.truthy normalized then normalized else ".".

(** [path.normalize(p)] *)
Definition normalize (p : string) : string :=
  if negb (Js.truthy p) then "."
  else
    let absolute := isAbsolute p in
    let trailingSeparator := Js.endsWith p "/" in
    let q := normalizeString p (negb absolute) in
    if negb (Js.truthy q) then
      (if absolute then "/" else if trailingSeparator then "./" else ".")
    else
      let q' := if trailingSeparator then q +:+ "/" else q in
      if absolute then "/" +:+ q' else q'.

(** [path.join(...paths)] *)
Definition join (paths : list string) : string :=
  match List.filter Js.truthy paths with
  | [] => "."
  | ps => normalize (Js.join "/" ps)
  end.

End Path.

(** ** The file system as the validation code observes it *)

Inductive FileKind := RegularFile | Directory.

Definition FileSystem := string -> option FileKind.

Definition existsSync (fs : FileSystem) (p : string) : bool :=
  match fs p with Some _ => true | None => false end.

(** [statSync(p).isDirectory()] *)
Definition isDirectory (fs : FileSystem) (p : string) : bool :=
  match fs p with Some Directory => true | _ => false end.

(** ** flutter/log-buffer.ts *)

Module LogBuffer.

Record LogEntry := mkEntry {
  line : string;
  timestamp : Z;
  index : Z
}.

Record t := mk {
  logs : list LogEntry;
  currentIndex : Z;
  maxLines : Z
}.

Inductive Error :=
| FromIndexNegative (fromIndex : Z)
| LimitNotPositive (limit : Z).

(** [new LogBuffer(maxLines = 1000)] *)
Definition create (maxLines : option Z) : t :=
  mk [] 0 (default 1000 maxLines).

(** [append(line)] at time [now]: push, then drop the oldest entry when
    the length exceeds [maxLines]. *)
Definition append (now : Z) (l : string) (b : t) : t :=
  let entry := mkEntry l now (currentIndex b) in
  let pushed := logs b ++ [entry] in
  mk (if Z.of_nat (length pushed) >? maxLines b then tail pushed else pushed)
     (currentIndex b + 1)
     (maxLines b).

(** [getLogs(fromIndex?, limit = 100)] *)
Definition getLogs (fromIndex : option Z) (limit : option Z) (b : t)
  : Res Error (list LogEntry) :=
  let limit := default 100 limit in
  match fromIndex with
  | Some k =>
      if k <? 0 then Throw (FromIndexNegative k)
      else if limit <=? 0 then Throw (LimitNotPositive limit)
      else Ret (firstn (Z.to_nat limit)
                  (List.filter (fun e => index e >=? k) (logs b)))
  | None =>
      if limit <=? 0 then Throw (LimitNotPositive limit)
      else Ret (firstn (Z.to_nat limit) (logs b))
  end.

Definition getNextIndex (b : t) : Z := currentIndex b.

Definition getTotalLines (b : t) : Z := Z.of_nat (length (logs b)).

(** [clear()] *)
Definition clear (b : t) : t := mk [] 0 (maxLines b).

(** [getRecentLines(count)] *)
Definition getRecentLines (count : Z) (b : t) : list string :=
  let start := Z.max 0 (Z.of_nat (length (logs b)) - count) in
  map line (skipn (Z.to_nat start) (logs b)).

(** Appending a sequence of lines, each with its arrival time. *)
Definition appendAll (ls : list (Z * string)) (b : t) : t :=
  fold_left (fun acc '(now, l) => append now l acc) ls b.

(** The operations a client of one buffer can perform. *)
Inductive Op :=
| OpAppend (now : Z) (l : string)
| OpGetLogs (fromIndex limit : option Z)
| OpRecentLines (count : Z)
| OpClear.

Definition isClear (o : Op) : bool :=
  match o with OpClear => true | _ => false end.

(** One operation: the buffer afterwards and the index it assigned, if
    it was an append. *)
Definition step (b : t) (o : Op) : t * option Z :=
  match o with
  | OpAppend now l => (append now l b, Some (currentIndex b))
  | OpGetLogs _ _ => (b, None)
  | OpRecentLines _ => (b, None)
  | OpClear => (clear b, None)
  end.

(** A run of operations: the final buffer and the indices assigned, in
    order of assignment. *)
Fixpoint run (b : t) (ops : list Op) : t * list Z :=
  match ops with
  | [] => (b, [])
  | o :: rest =>
      let '(b', i) := step b o in
      let '(b'', ks) := run b' rest in
      (b'', match i with Some k => k :: ks | None => ks end)
  end.

End LogBuffer.

(** ** flutter/process-manager.ts *)

Module FlutterProcessManager.

Inductive Status := starting | running | hot_reloading | stopped | failed.

Record FlutterProcess := mkFlutterProcess {
  pid : Z;
  status : Status;
  startedAt : Z;
  stoppedAt : option Z;
  exitCode : option Z
}.

(** The handle [spawnStreaming] returns; [handle_pid] is the process id it
    reports, if any. *)
Record SpawnedProcess := mkSpawned {
  handle_pid : option Z
}.

Record FlutterRunOptions := mkOptions {
  worktreePath : string;
  deviceId : string;
  target : option string;
  flavor : option string;
  additionalArgs : option (list string)
}.

(** A subscriber callback: its identity in the [Set] and the lines on
    which it throws. *)
Record Subscriber := mkSubscriber {
  callback : nat;
  throwsOn : string -> bool
}.

(** Calls that leave the manager, in the order they are made. *)
Inductive Effect :=
| Spawned (command : string) (args : list string) (cwd : string)
| StdinWrite (text : string)
| StdinEnd
| Killed (signal : string)
| Delivered (callback : nat) (l : string)
| SubscriberErrorLogged (callback : nat)
| TimerScheduled (ms : Z)
| Warned (msg : string).

Inductive Error :=
| AlreadyRunning
| TargetOutsideProject (target : string)
| TargetDoesNotExist (target : string)
| TargetNotDart (target : string)
| InvalidFlavor (flavor : string)
| InvalidDartDefine (arg : string)
| InvalidFlutterArgument (arg : string)
| InvalidLogQuery (e : LogBuffer.Error)
| StdinFailure.

Record t := mk {
  process : option SpawnedProcess;
  flutterProcess : option FlutterProcess;
  logBuffer : LogBuffer.t;
  logSubscribers : list Subscriber;
  (** reload timers scheduled by [detectStatusChanges] and not yet fired *)
  pendingTimers : nat;
  effects : list Effect
}.

Definition set_process (p : option SpawnedProcess) (s : t) : t :=
  mk p (flutterProcess s) (logBuffer s) (logSubscribers s)
     (pendingTimers s) (effects s).
Definition set_flutterProcess (fp : option FlutterProcess) (s : t) : t :=
  mk (process s) fp (logBuffer s) (logSubscribers s)
     (pendingTimers s) (effects s).
Definition set_logBuffer (b : LogBuffer.t) (s : t) : t :=
  mk (process s) (flutterProcess s) b (logSubscribers s)
     (pendingTimers s) (effects s).
Definition set_logSubscribers (l : list Subscriber) (s : t) : t :=
  mk (process s) (flutterProcess s) (logBuffer s) l
     (pendingTimers s) (effects s).
Definition set_pendingTimers (n : nat) (s : t) : t :=
  mk (process s) (flutterProcess s) (logBuffer s) (logSubscribers s)
     n (effects s).
Definition emit (e : Effect) (s : t) : t :=
  mk (process s) (flutterProcess s) (logBuffer s) (logSubscribers s)
     (pendingTimers s) (effects s ++ [e]).
Definition set_status (st : Status) (fp : FlutterProcess) : FlutterProcess :=
  mkFlutterProcess (pid fp) st (startedAt fp) (stoppedAt fp) (exitCode fp).

(** [new FlutterProcessManager(maxLogLines = 1000)] *)
Definition create (maxLogLines : option Z) : t :=
  mk None None (LogBuffer.create (Some (default 1000 maxLogLines))) [] 0 [].

(** *** The regular expressions of [start] *)

Definition inRange (lo hi c : ascii) : bool :=
  (nat_of_ascii lo <=? nat_of_ascii c)%nat
  && (nat_of_ascii c <=? nat_of_ascii hi)%nat.

Definition isLetter (c : ascii) : bool :=
  inRange "A" "Z" c || inRange "a" "z" c.
Definition isDigit (c : ascii) : bool := inRange "0" "9" c.

(** [[A-Za-z_]] *)
Definition isKeyStart (c : ascii) : bool := isLetter c || Ascii.eqb c "_".
(** [[A-Za-z0-9_]] *)
Definition isKeyChar (c : ascii) : bool := isKeyStart c || isDigit c.
(** [[a-zA-Z0-9_-]] *)
Definition isFlavorChar (c : ascii) : bool :=
  isLetter c || isDigit c || Ascii.eqb c "_" || Ascii.eqb c "-".
(** What [.] refuses: a line terminator begins here. *)
Definition lineTerminatorAt (s : string) : bool :=
  existsb (Js.startsWith s) Js.lineTerminators.

(** [.*$] from the current position: without the [s] and [m] flags no
    line terminator may follow, up to the end of the input. *)
Fixpoint dotStarToEnd (s : string) : bool :=
  match s with
  | EmptyString => true
  | String _ rest => negb (lineTerminatorAt s) && dotStarToEnd rest
  end.

Fixpoint allChars (f : ascii -> bool) (s : string) : bool :=
  match s with
  | EmptyString => true
  | String c s' => f c && allChars f s'
  end.

(** [/^[a-zA-Z0-9_-]+$/.test(s)] *)
Definition flavorRegex (s : string) : bool :=
  Js.truthy s && allChars isFlavorChar s.

(** [[A-Za-z0-9_]*=.*$] from the current position: the class does not
    contain [=], so the greedy star never has to give a character back. *)
Fixpoint keyRestRegex (s : string) : bool :=
  match s with
  | EmptyString => false
  | String c s' =>
      if isKeyChar c then keyRestRegex s'
      else Ascii.eqb c "=" && dotStarToEnd s'
  end.

(** [/^[A-Za-z_][A-Za-z0-9_]*=.*$/.test(s)] *)
Definition dartDefineRegex (s : string) : bool :=
  match s with
  | EmptyString => false
  | String c s' => isKeyStart c && keyRestRegex s'
  end.

Definition ALLOWED_ARGS : list string :=
  ["--debug"; "--release"; "--profile"; "--no-sound-null-safety";
   "--enable-software-rendering"; "--verbose"; "-v"].

(** [ALLOWED_ARGS.has(arg)] *)
Definition allowed (arg : string) : bool :=
  existsb (String.eqb arg) ALLOWED_ARGS.

(** One turn of the loop over [additionalArgs]: the error thrown, if any. *)
Definition checkArg (arg : string) : option Error :=
  if allowed arg then None
  else if Js.startsWith arg "--dart-define=" then
    let defineValue :=
      Js.substring_from (String.length "--dart-define=") arg in
    if negb (dartDefineRegex defineValue) then Some (InvalidDartDefine arg)
    else None
  else Some (InvalidFlutterArgument arg).

Fixpoint checkArgs (args : list string) : option Error :=
  match args with
  | [] => None
  | arg :: rest =>
      match checkArg arg with
      | Some e => Some e
      | None => checkArgs rest
      end
  end.

(** What [start] asks of its surroundings. *)
Record StartEnv := mkStartEnv {
  cwd : string;
  fs : FileSystem;
  now : Z;
  (** the handle [spawnStreaming] will return *)
  spawned : SpawnedProcess
}.

(** The [if (options.target) { ... }] block. *)
Definition checkTarget (env : StartEnv) (options : FlutterRunOptions)
  : option Error :=
  match Js.given (target options) with
  | Some tgt =>
      let targetPath := Path.resolve (cwd env) [worktreePath options; tgt] in
      if negb (Js.startsWith targetPath
                 (Path.resolve (cwd env) [worktreePath options]))
      then Some (TargetOutsideProject tgt)
      else if negb (existsSync (fs env) targetPath)
      then Some (TargetDoesNotExist tgt)
      else if negb (Js.endsWith targetPath ".dart")
      then Some (TargetNotDart tgt)
      else None
  | None => None
  end.

(** The [if (options.flavor) { ... }] block. *)
Definition checkFlavor (options : FlutterRunOptions) : option Error :=
  match Js.given (flavor options) with
  | Some f => if negb (flavorRegex f) then Some (InvalidFlavor f) else None
  | None => None
  end.

(** The [if (options.additionalArgs) { ... }] block. *)
Definition checkAdditionalArgs (options : FlutterRunOptions) : option Error :=
  match additionalArgs options with
  | Some args => checkArgs args
  | None => None
  end.

Definition raise (o : option Error) : M t Error unit :=
  match o with Some e => throw e | None => mret tt end.

(** The argument vector handed to [spawnStreaming]. *)
Definition buildArgs (options : FlutterRunOptions) : list string :=
  ["run"; "-d"; deviceId options]
  ++ match Js.given (target options) with
     | Some tgt => ["-t"; tgt] | None => [] end
  ++ match Js.given (flavor options) with
     | Some f => ["--flavor"; f] | None => [] end
  ++ match additionalArgs options with
     | Some args => args | None => [] end.

(** [if (this.process.pid)]: a process id was reported and is not 0. *)
Definition observedPid (h : SpawnedProcess) : option Z :=
  match handle_pid h with
  | Some p => if p =? 0 then None else Some p
  | None => None
  end.

(** [start(options)] *)
Definition start (env : StartEnv) (options : FlutterRunOptions)
  : M t Error FlutterProcess :=
  s ← get;
  throw_if (bool_decide (is_Some (process s))) AlreadyRunning;;
  raise (checkTarget env options);;
  raise (checkFlavor options);;
  raise (checkAdditionalArgs options);;
  let args := buildArgs options in
  let fp := mkFlutterProcess 0 starting (now env) None None in
  modify (set_flutterProcess (Some fp));;
  modify (emit (Spawned "flutter" args (worktreePath options)));;
  modify (set_process (Some (spawned env)));;
  match observedPid (spawned env) with
  | Some p =>
      let fp' := mkFlutterProcess p running (now env) None None in
      modify (set_flutterProcess (Some fp'));;
      mret fp'
  | None => mret fp
  end.

(** [detectStatusChanges(line)] *)
Definition detectStatusChanges (l : string) (s : t) : t :=
  match flutterProcess s with
  | None => s
  | Some fp =>
      if Js.includes l "Hot reload" || Js.includes l "Reloaded" then
        emit (TimerScheduled 1000)
          (set_pendingTimers (S (pendingTimers s))
             (set_flutterProcess (Some (set_status hot_reloading fp)) s))
      else s
  end.

(** The callback given to [setTimeout] in [detectStatusChanges], when one
    of the pending timers fires. *)
Definition timerFires (s : t) : t :=
  match pendingTimers s with
  | O => s
  | S n =>
      let s' := set_pendingTimers n s in
      match flutterProcess s' with
      | Some fp => set_flutterProcess (Some (set_status running fp)) s'
      | None => s'
      end
  end.

(** [this.logSubscribers.forEach(...)] for one line: every callback is
    called; a throw is caught and logged. *)
Definition notifyAll (l : string) (s : t) : t :=
  fold_left
    (fun acc sub =>
       let acc' := emit (Delivered (callback sub) l) acc in
       if throwsOn sub l then emit (SubscriberErrorLogged (callback sub)) acc'
       else acc')
    (logSubscribers s) s.

(** The body of the loop of [handleOutput] for one element of the split. *)
Definition handleLine (now : Z) (s : t) (l : string) : t :=
  if Js.trim_nonempty l then
    let s1 := set_logBuffer (LogBuffer.append now l (logBuffer s)) s in
    let s2 := notifyAll l s1 in
    detectStatusChanges l s2
  else s.

(** [handleOutput(data)] *)
Definition handleOutput (now : Z) (data : string) (s : t) : t :=
  fold_left (handleLine now) (Js.split Js.LF data) s.

(** [handleExit(code, signal)]; [code] is [None] for JavaScript's [null]. *)
Definition handleExit (now : Z) (code : option Z) (signal : option string)
    (s : t) : t :=
  let s' :=
    match flutterProcess s with
    | Some fp =>
        set_flutterProcess
          (Some (mkFlutterProcess (pid fp)
                   (if bool_decide (code = Some 0) then stopped else failed)
                   (startedAt fp) (Some now) code)) s
    | None => s
    end in
  set_process None s'.

(** [stop()]; [stdinOk] tells whether the input stream accepts the write. *)
Definition stop (stdinOk : bool) : M t Error bool :=
  s ← get;
  match process s with
  | None => modify (emit (Warned "No Flutter process to stop"));; mret false
  | Some _ =>
      throw_if (negb stdinOk) StdinFailure;;
      modify (emit (StdinWrite ("q" +:+ String Js.LF "")));;
      modify (emit StdinEnd);;
      mret true
  end.

(** [hotReload()] *)
Definition hotReload (stdinOk : bool) : M t Error bool :=
  s ← get;
  match process s with
  | None =>
      modify (emit (Warned "No Flutter process for hot reload"));; mret false
  | Some _ =>
      throw_if (negb stdinOk) StdinFailure;;
      modify (emit (StdinWrite ("r" +:+ String Js.LF "")));;
      mret true
  end.

(** [hotRestart()] *)
Definition hotRestart (stdinOk : bool) : M t Error bool :=
  s ← get;
  match process s with
  | None =>
      modify (emit (Warned "No Flutter process for hot restart"));; mret false
  | Some _ =>
      throw_if (negb stdinOk) StdinFailure;;
      modify (emit (StdinWrite ("R" +:+ String Js.LF "")));;
      mret true
  end.

(** [kill(signal = 'SIGTERM')]; [delivered] is what the handle's [kill]
    returns. *)
Definition kill (signal : option string) (delivered : bool) : M t Error bool :=
  s ← get;
  match process s with
  | None => mret false
  | Some _ =>
      modify (emit (Killed (default "SIGTERM" signal)));;
      mret delivered
  end.

Definition getStatus (s : t) : option FlutterProcess := flutterProcess s.

Record LogsPage := mkLogsPage {
  page_logs : list LogBuffer.LogEntry;
  nextIndex : Z;
  totalLines : Z
}.

(** [getLogs(fromIndex?, limit?)] *)
Definition getLogs (fromIndex limit : option Z) : M t Error LogsPage :=
  s ← get;
  match LogBuffer.getLogs fromIndex limit (logBuffer s) with
  | Throw e => throw (InvalidLogQuery e)
  | Ret logs =>
      mret (mkLogsPage logs (LogBuffer.getNextIndex (logBuffer s))
              (LogBuffer.getTotalLines (logBuffer s)))
  end.

(** [subscribeToLogs(callback)]: [Set.add] keeps one copy of a callback. *)
Definition subscribeToLogs (sub : Subscriber) (s : t) : t :=
  if existsb (fun x => Nat.eqb (callback x) (callback sub)) (logSubscribers s)
  then s
  else set_logSubscribers (logSubscribers s ++ [sub]) s.

(** The closure [subscribeToLogs] returns. *)
Definition unsubscribe (cb : nat) (s : t) : t :=
  set_logSubscribers
    (List.filter (fun x => negb (Nat.eqb (callback x) cb)) (logSubscribers s))
    s.

(** [clearLogs()] *)
Definition clearLogs (s : t) : t :=
  set_logBuffer (LogBuffer.clear (logBuffer s)) s.

(** [cleanup()] awaits the exit of the process, so other callbacks run
    while it is suspended. It is modelled in the three pieces that run
    without interruption. *)

(** Up to the [await]: the subscribers are dropped and, when a process is
    attached, [stop()] is called. *)
Definition cleanupBegin (stdinOk : bool) : M t Error unit :=
  modify (set_logSubscribers []);;
  s ← get;
  match process s with
  | Some _ => stop stdinOk;; mret tt
  | None => mret tt
  end.

(** The 5000 ms timer of [cleanup] fires before the process has exited. *)
Definition cleanupTimeout (delivered : bool) : M t Error unit :=
  modify (emit (Warned "Flutter process did not stop gracefully, killing"));;
  kill (Some "SIGKILL") delivered;;
  mret tt.

(** After the [await]: [this.clearLogs()]. *)
Definition cleanupEnd : M t Error unit := modify clearLogs.

(** How the wait inside [cleanup] ends. *)
Inductive WaitOutcome :=
| Exited (now : Z) (code : option Z) (signal : option string)
| WaitRejected
| TimedOut (killDelivered : bool).

Record CleanupEnv := mkCleanupEnv {
  stdinOk : bool;
  waitOutcome : WaitOutcome
}.

(** A whole [cleanup()] during which nothing but the awaited event
    happens: the process exits (its exit callback runs), the wait is
    rejected, or the timer fires. *)
Definition cleanup (env : CleanupEnv) : M t Error unit :=
  s ← get;
  cleanupBegin (stdinOk env);;
  match process s with
  | Some _ =>
      match waitOutcome env with
      | Exited now code signal => modify (handleExit now code signal)
      | WaitRejected => modify (emit (Warned "Error waiting for process"))
      | TimedOut delivered => cleanupTimeout delivered
      end
  | None => mret tt
  end;;
  cleanupEnd.

(** *** The manager as a reactive system *)

(** Everything that can happen to one manager: calls of its public
    methods and the callbacks of the spawned process and of the timer. *)
Inductive Action :=
| Start (env : StartEnv) (options : FlutterRunOptions)
| Output (now : Z) (data : string)
| Exit (now : Z) (code : option Z) (signal : option string)
| TimerFires
| Stop (stdinOk : bool)
| HotReload (stdinOk : bool)
| HotRestart (stdinOk : bool)
| Kill (signal : option string) (delivered : bool)
| GetLogs (fromIndex limit : option Z)
| Subscribe (sub : Subscriber)
| Unsubscribe (cb : nat)
| ClearLogs
| CleanupBegin (stdinOk : bool)
| CleanupTimeout (delivered : bool)
| CleanupEnd.

(** The state after an action and the error it threw, if any. *)
Definition outcome {A} (r : Res Error A * t) : option Error * t :=
  match r with
  | (Throw e, s) => (Some e, s)
  | (Ret _, s) => (None, s)
  end.

Definition step (s : t) (a : Action) : option Error * t :=
  match a with
  | Start env options => outcome (start env options s)
  | Output now data => (None, handleOutput now data s)
  | Exit now code signal => (None, handleExit now code signal s)
  | TimerFires => (None, timerFires s)
  | Stop ok => outcome (stop ok s)
  | HotReload ok => outcome (hotReload ok s)
  | HotRestart ok => outcome (hotRestart ok s)
  | Kill signal delivered => outcome (kill signal delivered s)
  | GetLogs fromIndex limit => outcome (getLogs fromIndex limit s)
  | Subscribe sub => (None, subscribeToLogs sub s)
  | Unsubscribe cb => (None, unsubscribe cb s)
  | ClearLogs => (None, clearLogs s)
  | CleanupBegin ok => outcome (cleanupBegin ok s)
  | CleanupTimeout delivered => outcome (cleanupTimeout delivered s)
  | CleanupEnd => outcome (cleanupEnd s)
  end.

Definition run (s : t) (acts : list Action) : t :=
  fold_left (fun acc a => snd (step acc a)) acts s.

End FlutterProcessManager.

(** ** session/manager.ts *)

Module SessionManager.

Record Session := mkSession {
  id : string;
  worktreePath : string;
  simulatorUdid : string;
  deviceType : string;
  createdAt : Z;
  flutterProcessManager : option FlutterProcessManager.t
}.

Record SessionInfo := mkInfo {
  info_id : string;
  info_worktreePath : string;
  info_simulatorUdid : string;
  info_deviceType : string;
  info_createdAt : Z
}.

Record CreateSessionParams := mkParams {
  param_worktreePath : string;
  param_deviceType : option string
}.

Inductive Error :=
| AccessDenied (allowedPathPrefix resolvedPath : string)
| DirectoryDoesNotExist (worktreePath : string)
| NotADirectory (worktreePath : string)
| MissingPubspec (resolvedPath : string)
| SessionNotFound (sessionId : string)
| SimulatorFailure (reason : string).

(** Calls to [simulator/simctl.ts] and to the logger, in call order. *)
Inductive Event :=
| CreateSimulatorCalled (deviceType : string)
| BootSimulatorCalled (udid : string)
| ProcessCleanupCalled (sessionId : string)
| ShutdownSimulatorCalled (udid : string)
| DeleteSimulatorCalled (udid : string)
| WarnLogged (what : string) (subject : string)
| ErrorLogged (what : string) (subject : string).

(** The answers of the surroundings. A simulator call either resolves
    ([Ret]) or rejects with a reason ([Throw]). *)
Record Env := mkEnv {
  cwd : string;
  fs : FileSystem;
  uuidv4 : string;
  now : Z;
  createSimulator : string -> Res string string;
  bootSimulator : string -> Res string unit;
  shutdownSimulator : string -> Res string unit;
  deleteSimulator : string -> Res string unit;
  processCleanup : string -> FlutterProcessManager.CleanupEnv
}.

(** The manager's field [allowedPathPrefix], the module-level
    [sessionState] and the trace of outside calls. *)
Record t := mk {
  allowedPathPrefix : string;
  sessionState : gmap string Session;
  trace : list Event
}.

Definition emit (e : Event) (w : t) : t :=
  mk (allowedPathPrefix w) (sessionState w) (trace w ++ [e]).

Definition toInfo (s : Session) : SessionInfo :=
  mkInfo (id s) (worktreePath s) (simulatorUdid s) (deviceType s)
    (createdAt s).

(** Modelled from the spec: [session/state.ts] is not among the sources;
    the registry "is a single shared mapping" from session ids to
    sessions, with [set], [get], [delete] and [list]. *)
Definition state_set (k : string) (s : Session) (w : t) : t :=
  mk (allowedPathPrefix w) (<[k := s]> (sessionState w)) (trace w).
Definition state_get (k : string) (w : t) : option Session :=
  sessionState w !! k.
Definition state_delete (k : string) (w : t) : t :=
  mk (allowedPathPrefix w) (delete k (sessionState w)) (trace w).
Definition state_list (w : t) : list SessionInfo :=
  map (fun kv => toInfo (snd kv)) (map_to_list (sessionState w)).

(** [new SessionManager(allowedPathPrefix = '/Users/')] over an empty
    registry *)
Definition create (allowedPathPrefix : option string) : t :=
  mk (default "/Users/" allowedPathPrefix) ∅ [].

(** [configure(allowedPathPrefix)] *)
Definition configure (allowedPathPrefix : string) (w : t) : t :=
  mk allowedPathPrefix (sessionState w) (trace w).

(** An awaited simulator call: record it, then resolve or reject. *)
Definition call {A} (e : Event) (r : Res string A) : M t Error A :=
  modify (emit e);;
  match r with
  | Ret a => mret a
  | Throw reason => throw (SimulatorFailure reason)
  end.

(** [createSession(params)] *)
Definition createSession (env : Env) (params : CreateSessionParams)
  : M t Error SessionInfo :=
  let worktreePath := param_worktreePath params in
  let deviceType := default "iPhone 16 Pro" (param_deviceType params) in
  let resolvedPath := Path.resolve (cwd env) [worktreePath] in
  w ← get;
  throw_if (negb (Js.startsWith resolvedPath (allowedPathPrefix w)))
    (AccessDenied (allowedPathPrefix w) resolvedPath);;
  throw_if (negb (existsSync (fs env) resolvedPath))
    (DirectoryDoesNotExist worktreePath);;
  throw_if (negb (isDirectory (fs env) resolvedPath))
    (NotADirectory worktreePath);;
  let pubspecPath := Path.join [resolvedPath; "pubspec.yaml"] in
  throw_if (negb (existsSync (fs env) pubspecPath))
    (MissingPubspec resolvedPath);;
  let sessionId := uuidv4 env in
  simulatorUdid ← call (CreateSimulatorCalled deviceType)
                    (createSimulator env deviceType);
  call (BootSimulatorCalled simulatorUdid) (bootSimulator env simulatorUdid);;
  let session :=
    mkSession sessionId worktreePath simulatorUdid deviceType (now env) None in
  modify (state_set sessionId session);;
  mret (toInfo session).

(** A teardown step inside [try { await ... } catch { logger.warn(...) }]. *)
Definition bestEffort (e : Event) (r : Res string unit) (what subject : string)
  : M t Error unit :=
  try_catch (call e r) (fun _ => modify (emit (WarnLogged what subject))).

(** The outcome of [session.flutterProcessManager.cleanup()]. *)
Definition processCleanupResult (env : Env) (s : Session) : Res string unit :=
  match flutterProcessManager s with
  | Some pm =>
      match FlutterProcessManager.cleanup (processCleanup env (id s)) pm with
      | (Ret _, _) => Ret tt
      | (Throw _, _) => Throw "cleanup failed"
      end
  | None => Ret tt
  end.

(** [endSession(sessionId)] *)
Definition endSession (env : Env) (sessionId : string) : M t Error unit :=
  w ← get;
  match state_get sessionId w with
  | None => throw (SessionNotFound sessionId)
  | Some session =>
      match flutterProcessManager session with
      | Some _ =>
          bestEffort (ProcessCleanupCalled sessionId)
            (processCleanupResult env session)
            "Failed to cleanup Flutter process" sessionId
      | None => mret tt
      end;;
      bestEffort (ShutdownSimulatorCalled (simulatorUdid session))
        (shutdownSimulator env (simulatorUdid session))
        "Failed to shutdown simulator" (simulatorUdid session);;
      bestEffort (DeleteSimulatorCalled (simulatorUdid session))
        (deleteSimulator env (simulatorUdid session))
        "Failed to delete simulator" (simulatorUdid session);;
      modify (state_delete sessionId)
  end.

(** [listSessions()] *)
Definition listSessions (w : t) : list SessionInfo := state_list w.

(** [getSession(sessionId)] *)
Definition getSession (sessionId : string) (w : t) : option Session :=
  state_get sessionId w.

(** The loop of [cleanup] over the listed sessions. *)
Fixpoint cleanupLoop (env : Env) (sessions : list SessionInfo)
  : M t Error unit :=
  match sessions with
  | [] => mret tt
  | session :: rest =>
      try_catch (endSession env (info_id session))
        (fun _ => modify (emit (ErrorLogged
                    "Failed to end session during cleanup"
                    (info_id session))));;
      cleanupLoop env rest
  end.

(** [cleanup()] *)
Definition cleanup (env : Env) : M t Error unit :=
  w ← get;
  cleanupLoop env (state_list w).

(** A session as [createSession] stores it is registered under its own
    id: the invariant of the registry. *)
Definition keyed (w : t) : Prop :=
  forall k s, sessionState w !! k = Some s -> id s = k.

End SessionManager.

(** ** index.ts *)

Module Cli.

(** The parsed command line; [port] is [None] for JavaScript's [NaN]. *)
Record CliArgs := mkCliArgs {
  port : option Z;
  host : string;
  help : bool;
  allowOnly : string
}.

(** The variables of [process.env] that [parseArgs] reads. *)
Record ProcessEnv := mkProcessEnv {
  PORT : option string;
  HOST : option string;
  ALLOW_ONLY : option string
}.

(** The ways [parseArgs] ends the process with [process.exit(1)], after
    printing the matching message. *)
Inductive ExitError :=
| PortRequiresNumber
| HostRequiresValue
| AllowOnlyRequiresPath
| UnknownArgument (arg : string).

Definition digitValue (c : ascii) : option Z :=
  if FlutterProcessManager.isDigit c
  then Some (Z.of_nat (nat_of_ascii c) - 48)
  else None.

(** The string from its first character that is not white space on;
    [skip] counts the bytes still to pass of a white-space character that
    has begun. *)
Fixpoint skipSpaceFrom (skip : nat) (s : string) : string :=
  match s with
  | String _ rest =>
      match skip with
      | S k => skipSpaceFrom k rest
      | O =>
          match Js.whiteSpaceLength s with
          | O => s
          | S k => skipSpaceFrom k rest
          end
      end
  | EmptyString => s
  end.

Definition skipSpace (s : string) : string := skipSpaceFrom 0 s.

(** The value of the longest prefix of decimal digits, if there is one. *)
Fixpoint digitsPrefix (s : string) (acc : option Z) : option Z :=
  match s with
  | String c rest =>
      match digitValue c with
      | Some d => digitsPrefix rest (Some (10 * default 0 acc + d))
      | None => acc
      end
  | EmptyString => acc
  end.

(** [parseInt(s, 10)]: leading white space, an optional sign, then the
    longest run of decimal digits; [None] ([NaN]) when there is no digit.
    The value is exact, as JavaScript's is below 2^53. *)
Definition parseInt10 (s : string) : option Z :=
  match skipSpace s with
  | String "-" rest => Z.opp <$> digitsPrefix rest None
  | String "+" rest => digitsPrefix rest None
  | t => digitsPrefix t None
  end.

(** [isNaN(x)] *)
Definition isNaN (x : option Z) : bool :=
  match x with Some _ => false | None => true end.

(** [process.env.X || fallback] *)
Definition envOr (x : option string) (fallback : string) : string :=
  default fallback (Js.given x).

(** The values of [port], [host], [help] and [allowOnly] before the loop. *)
Definition initial (env : ProcessEnv) : CliArgs :=
  mkCliArgs (parseInt10 (envOr (PORT env) "3000"))
    (envOr (HOST env) "127.0.0.1") false (envOr (ALLOW_ONLY env) "/Users/").

Definition set_port (p : option Z) (a : CliArgs) : CliArgs :=
  mkCliArgs p (host a) (help a) (allowOnly a).
Definition set_host (h : string) (a : CliArgs) : CliArgs :=
  mkCliArgs (port a) h (help a) (allowOnly a).
Definition set_help (a : CliArgs) : CliArgs :=
  mkCliArgs (port a) (host a) true (allowOnly a).
Definition set_allowOnly (p : string) (a : CliArgs) : CliArgs :=
  mkCliArgs (port a) (host a) (help a) p.

(** The loop of [parseArgs] from position [i]: [args] is what is left of
    the arguments from there on. *)
Fixpoint parseLoop (args : list string) (acc : CliArgs)
  : Res ExitError CliArgs :=
  match args with
  | [] => Ret acc
  | arg :: rest =>
      if String.eqb arg "--help" || String.eqb arg "-h" then
        parseLoop rest (set_help acc)
      else if String.eqb arg "--port" || String.eqb arg "-p" then
        match rest with
        | portValue :: rest' =>
            if negb (Js.truthy portValue) || isNaN (parseInt10 portValue)
            then Throw PortRequiresNumber
            else parseLoop rest' (set_port (parseInt10 portValue) acc)
        | [] => Throw PortRequiresNumber
        end
      else if String.eqb arg "--host" then
        match rest with
        | hostValue :: rest' =>
            if negb (Js.truthy hostValue) then Throw HostRequiresValue
            else parseLoop rest' (set_host hostValue acc)
        | [] => Throw HostRequiresValue
        end
      else if String.eqb arg "--allow-only" then
        match rest with
        | pathValue :: rest' =>
            if negb (Js.truthy pathValue) then Throw AllowOnlyRequiresPath
            else parseLoop rest' (set_allowOnly pathValue acc)
        | [] => Throw AllowOnlyRequiresPath
        end
      else Throw (UnknownArgument arg)
  end.

(** [parseArgs()], with [process.env] and [process.argv.slice(2)] as
    arguments. *)
Definition parseArgs (env : ProcessEnv) (argv : list string)
  : Res ExitError CliArgs :=
  parseLoop argv (initial env).

(** How [main] goes on after parsing. *)
Inductive Startup :=
| ExitWithError (e : ExitError)
| ShowHelpAndExit
| Serve (cli : CliArgs) (sessionManager : SessionManager.t).

(** [main()] up to [sessionManager.configure(allowOnly)]. *)
Definition main (env : ProcessEnv) (argv : list string)
    (sessionManager : SessionManager.t) : Startup :=
  match parseArgs env argv with
  | Throw e => ExitWithError e
  | Ret cli =>
      if help cli then ShowHelpAndExit
      else Serve cli (SessionManager.configure (allowOnly cli) sessionManager)
  end.

End Cli.

(** * Vocabulary of the specification *)

(** The entries that a run of appends creates: the [j]-th line appended
    gets index [i + j]. *)
Fixpoint numbered (i : Z) (ls : list (Z * string)) : list LogBuffer.LogEntry :=
  match ls with
  | [] => []
  | (now, l) :: rest => LogBuffer.mkEntry l now i :: numbered (i + 1) rest
  end.

(** Every index is strictly greater than all indices before it. *)
Definition strictly_increasing (ks : list Z) : Prop := StronglySorted Z.lt ks.

(** The claim C6 as the specification words it: whatever the operations,
    the indices handed out by one buffer are strictly increasing. *)
Definition index_never_reused : Prop :=
  forall b ops, strictly_increasing (snd (LogBuffer.run b ops)).

(** The elements of a chunk that [handleOutput] acts on: those with a
    character that is not white space. *)
Definition nonBlankLines (data : string) : list string :=
  List.filter Js.trim_nonempty (Js.split Js.LF data).

(** A line carries a reload marker. *)
Definition isReloadMarker (l : string) : bool :=
  Js.includes l "Hot reload" || Js.includes l "Reloaded".

(** A manager has a [flutterProcess] record, that is, [start] got as far
    as spawning at least once. *)
Definition tracked (s : FlutterProcessManager.t) : bool :=
  match FlutterProcessManager.flutterProcess s with
  | Some _ => true
  | None => false
  end.

(** What the fan-out of one line does: every subscriber, in registration
    order, is called with the line, and a throw is logged before the next
    subscriber is called. *)
Definition deliveries (subs : list FlutterProcessManager.Subscriber)
    (l : string) : list FlutterProcessManager.Effect :=
  flat_map
    (fun sub =>
       FlutterProcessManager.Delivered (FlutterProcessManager.callback sub) l
       :: (if FlutterProcessManager.throwsOn sub l
           then [FlutterProcessManager.SubscriberErrorLogged
                   (FlutterProcessManager.callback sub)]
           else []))
    subs.

(** The outside calls caused by one processed line: the fan-out, then the
    reload timer when the line carries a marker. *)
Definition lineEffects (subs : list FlutterProcessManager.Subscriber)
    (isTracked : bool) (l : string) : list FlutterProcessManager.Effect :=
  deliveries subs l
  ++ (if isTracked && isReloadMarker l
      then [FlutterProcessManager.TimerScheduled 1000] else []).

(** The claim C7 as the specification words it: every line of a chunk
    ends up in the log buffer. *)
Definition every_line_logged : Prop :=
  forall now data s l,
    l ∈ Js.split Js.LF data ->
    l ∈ map LogBuffer.line
          (LogBuffer.logs
             (FlutterProcessManager.logBuffer
                (FlutterProcessManager.handleOutput now data s))).

(** Whether a subprocess handle is attached after a history, told from
    the history alone: a [Start] that did not throw attaches one, the exit
    callback releases it, nothing else matters. *)
Fixpoint handleAttached (s : FlutterProcessManager.t) (attached : bool)
    (acts : list FlutterProcessManager.Action) : bool :=
  match acts with
  | [] => attached
  | a :: rest =>
      let '(err, s') := FlutterProcessManager.step s a in
      let attached' :=
        match a, err with
        | FlutterProcessManager.Start _ _, None => true
        | FlutterProcessManager.Start _ _, Some _ => attached
        | FlutterProcessManager.Exit _ _ _, _ => false
        | _, _ => attached
        end in
      handleAttached s' attached' rest
  end.

(** The [flutterProcess] record a successful [start] leaves and returns. *)
Definition startedProcess (env : FlutterProcessManager.StartEnv)
  : FlutterProcessManager.FlutterProcess :=
  match FlutterProcessManager.observedPid (FlutterProcessManager.spawned env) with
  | Some p =>
      FlutterProcessManager.mkFlutterProcess p FlutterProcessManager.running
        (FlutterProcessManager.now env) None None
  | None =>
      FlutterProcessManager.mkFlutterProcess 0 FlutterProcessManager.starting
        (FlutterProcessManager.now env) None None
  end.

(** [KEY] matches [[A-Za-z_][A-Za-z0-9_]*]. *)
Definition isIdentifier (key : string) : Prop :=
  match key with
  | EmptyString => False
  | String c rest =>
      FlutterProcessManager.isKeyStart c = true
      /\ FlutterProcessManager.allChars FlutterProcessManager.isKeyChar rest
         = true
  end.

(** [VALUE] holds no line terminator: none of U+000A, U+000D, U+2028 and
    U+2029 occurs in it. *)
Definition singleLine (value : string) : Prop :=
  forall before t after,
    In t Js.lineTerminators -> value <> before +:+ t +:+ after.

(** The claim C3 as the specification words it: an allow-listed flag, or
    [--dart-define=KEY=VALUE] with an identifier for [KEY]. *)
Definition acceptableAsClaimed (arg : string) : Prop :=
  In arg FlutterProcessManager.ALLOWED_ARGS
  \/ exists key value,
       arg = "--dart-define=" +:+ key +:+ "=" +:+ value /\ isIdentifier key.

(** The arguments the code lets through: as claimed, with a [VALUE] that
    stays on one line. *)
Definition acceptable (arg : string) : Prop :=
  In arg FlutterProcessManager.ALLOWED_ARGS
  \/ exists key value,
       arg = "--dart-define=" +:+ key +:+ "=" +:+ value
       /\ isIdentifier key /\ singleLine value.

(** A path lies inside a directory: it is the directory or continues it
    after a separator. *)
Definition withinDirectory (dir p : string) : Prop :=
  p = dir \/ exists rest, p = dir +:+ "/" +:+ rest.

(** The errors of [createSession] that come from validating the path. *)
Definition isValidationError (e : SessionManager.Error) : Prop :=
  match e with
  | SessionManager.AccessDenied _ _
  | SessionManager.DirectoryDoesNotExist _
  | SessionManager.NotADirectory _
  | SessionManager.MissingPubspec _ => True
  | _ => False
  end.

(** One best-effort teardown step in the trace: the call, then a warning
    when it failed. *)
Definition attempt (e : SessionManager.Event) (r : Res string unit)
    (what subject : string) : list SessionManager.Event :=
  e :: match r with
       | Throw _ => [SessionManager.WarnLogged what subject]
       | Ret _ => []
       end.

(** The trace of a whole teardown of one session. *)
Definition teardownEvents (env : SessionManager.Env) (sessionId : string)
    (session : SessionManager.Session) : list SessionManager.Event :=
  let udid := SessionManager.simulatorUdid session in
  match SessionManager.flutterProcessManager session with
  | Some _ =>
      attempt (SessionManager.ProcessCleanupCalled sessionId)
        (SessionManager.processCleanupResult env session)
        "Failed to cleanup Flutter process" sessionId
  | None => []
  end
  ++ attempt (SessionManager.ShutdownSimulatorCalled udid)
       (SessionManager.shutdownSimulator env udid)
       "Failed to shutdown simulator" udid
  ++ attempt (SessionManager.DeleteSimulatorCalled udid)
       (SessionManager.deleteSimulator env udid)
       "Failed to delete simulator" udid.

(** Every teardown step of a session was attempted in a trace. *)
Definition tornDown (sessionId : string) (session : SessionManager.Session)
    (tr : list SessionManager.Event) : Prop :=
  In (SessionManager.ShutdownSimulatorCalled
        (SessionManager.simulatorUdid session)) tr
  /\ In (SessionManager.DeleteSimulatorCalled
           (SessionManager.simulatorUdid session)) tr
  /\ (is_Some (SessionManager.flutterProcessManager session) ->
      In (SessionManager.ProcessCleanupCalled sessionId) tr).

(** The claim C5 as the specification words it: for a valid project path
    (and a simulator that can be created and booted) the session's path is
    the resolved form of the input. *)
Definition returnsResolvedPath : Prop :=
  forall env params w udid,
    let resolvedPath :=
      Path.resolve (SessionManager.cwd env)
        [SessionManager.param_worktreePath params] in
    let deviceType :=
      default "iPhone 16 Pro" (SessionManager.param_deviceType params) in
    Path.isAbsolute (SessionManager.param_worktreePath params) = true ->
    Js.startsWith resolvedPath (SessionManager.allowedPathPrefix w) = true ->
    isDirectory (SessionManager.fs env) resolvedPath = true ->
    existsSync (SessionManager.fs env)
      (Path.join [resolvedPath; "pubspec.yaml"]) = true ->
    SessionManager.createSimulator env deviceType = Ret udid ->
    SessionManager.bootSimulator env udid = Ret tt ->
    exists info w',
      SessionManager.createSession env params w = (Ret info, w')
      /\ SessionManager.info_worktreePath info = resolvedPath.

(** What every buffer made by the constructor with a capacity that is not
    negative satisfies, whatever happened to it since: it holds at most
    [maxLines] entries and their indices are the consecutive integers that
    end just below the counter. *)
Definition bufferInv (b : LogBuffer.t) : Prop :=
  let n := Z.of_nat (length (LogBuffer.logs b)) in
  0 <= LogBuffer.maxLines b
  /\ n <= LogBuffer.maxLines b
  /\ n <= LogBuffer.currentIndex b
  /\ map LogBuffer.index (LogBuffer.logs b)
     = seqZ (LogBuffer.currentIndex b - n) n.

(** The four commands a client can send to the running process. *)
Definition isCommand (a : FlutterProcessManager.Action) : bool :=
  match a with
  | FlutterProcessManager.Stop _
  | FlutterProcessManager.HotReload _
  | FlutterProcessManager.HotRestart _
  | FlutterProcessManager.Kill _ _ => true
  | _ => false
  end.

(** A status record of a process that has not exited. *)
Definition alive (fp : FlutterProcessManager.FlutterProcess) : Prop :=
  FlutterProcessManager.status fp <> FlutterProcessManager.stopped
  /\ FlutterProcessManager.status fp <> FlutterProcessManager.failed
  /\ FlutterProcessManager.stoppedAt fp = None
  /\ FlutterProcessManager.exitCode fp = None.

(** The characters of a string. *)
Fixpoint chars (s : string) : list ascii :=
  match s with
  | EmptyString => []
  | String c rest => c :: chars rest
  end.

(** A recorded call of the subscriber [cb]. *)
Definition isDeliveryTo (cb : nat) (e : FlutterProcessManager.Effect) : bool :=
  match e with
  | FlutterProcessManager.Delivered cb' _ => Nat.eqb cb' cb
  | _ => false
  end.

(** The status record the exit callback leaves. *)
Definition exitedProcess (now : Z) (code : option Z)
    (fp : FlutterProcessManager.FlutterProcess)
  : FlutterProcessManager.FlutterProcess :=
  FlutterProcessManager.mkFlutterProcess (FlutterProcessManager.pid fp)
    (if bool_decide (code = Some 0) then FlutterProcessManager.stopped
     else FlutterProcessManager.failed)
    (FlutterProcessManager.startedAt fp) (Some now) code.

(** While a handle is attached, the status record exists and describes a
    process that has not exited. *)
Definition attachedIsAlive (s : FlutterProcessManager.t) : Prop :=
  is_Some (FlutterProcessManager.process s) ->
  exists fp, FlutterProcessManager.flutterProcess s = Some fp /\ alive fp.

(** The calls a client can make on the session manager. *)
Inductive ManagerCall :=
| CallConfigure (allowedPathPrefix : string)
| CallCreateSession (env : SessionManager.Env)
    (params : SessionManager.CreateSessionParams)
| CallEndSession (env : SessionManager.Env) (sessionId : string)
| CallCleanup (env : SessionManager.Env).

(** The manager after one call, whether it threw or not. *)
Definition managerStep (w : SessionManager.t) (c : ManagerCall)
  : SessionManager.t :=
  match c with
  | CallConfigure prefix => SessionManager.configure prefix w
  | CallCreateSession env params =>
      snd (SessionManager.createSession env params w)
  | CallEndSession env sessionId =>
      snd (SessionManager.endSession env sessionId w)
  | CallCleanup env => snd (SessionManager.cleanup env w)
  end.

Definition managerRun (w : SessionManager.t) (calls : list ManagerCall)
  : SessionManager.t :=
  fold_left managerStep calls w.

(** One option of the command line, with the spelling used. *)
Inductive CliOption :=
| OptHelp (short : bool)
| OptPort (short : bool) (value : string)
| OptHost (value : string)
| OptAllowOnly (value : string).

(** The arguments that spell an option. *)
Definition renderOption (o : CliOption) : list string :=
  match o with
  | OptHelp short => [if short then "-h" else "--help"]
  | OptPort short value => [if short then "-p" else "--port"; value]
  | OptHost value => ["--host"; value]
  | OptAllowOnly value => ["--allow-only"; value]
  end.

Definition renderOptions (opts : list CliOption) : list string :=
  flat_map renderOption opts.

(** An option whose value is usable: not empty, and for the port
    beginning with a decimal number. *)
Definition wellFormedOption (o : CliOption) : Prop :=
  match o with
  | OptHelp _ => True
  | OptPort _ value => value <> "" /\ is_Some (Cli.parseInt10 value)
  | OptHost value | OptAllowOnly value => value <> ""
  end.

(** What an option sets. *)
Definition applyOption (acc : Cli.CliArgs) (o : CliOption) : Cli.CliArgs :=
  match o with
  | OptHelp _ => Cli.set_help acc
  | OptPort _ value => Cli.set_port (Cli.parseInt10 value) acc
  | OptHost value => Cli.set_host value acc
  | OptAllowOnly value => Cli.set_allowOnly value acc
  end.

(** The flags [parseArgs] knows. *)
Definition knownFlags : list string :=
  ["--help"; "-h"; "--port"; "-p"; "--host"; "--allow-only"].

(** * Properties *)

(** Unfolds the monad operations, leaving plain state passing. *)
Ltac unfold_monad :=
  unfold mbind, M_bind, mret, M_ret, get, modify, throw_if, throw, try_catch;
  cbn.

(** ** Strings *)

Lemma startsWith_iff (s p : string) :
  Js.startsWith s p = true <-> exists rest, s = p +:+ rest.
Proof.
  unfold Js.startsWith. revert s.
  induction p as [|c p IH]; intros s; simpl.
  - split; [intros _; exists s; reflexivity | by destruct s].
  - destruct s as [|d s]; simpl.
    + split; [discriminate | intros [rest H]; discriminate].
    + destruct (ascii_dec c d) as [->|Hne].
      * rewrite IH. split; intros [rest H]; exists rest.
        -- change (String d s = String d (p +:+ rest)). by rewrite H.
        -- change (String d s = String d (p +:+ rest)) in H. by injection H.
      * split; [discriminate | intros [rest H]].
        change (String d s = String c (p +:+ rest)) in H. congruence.
Qed.

(** ** LogBuffer *)

Section LogBufferFacts.
Import LogBuffer.

Lemma appendAll_snoc ls now l b :
  appendAll (ls ++ [(now, l)]) b = append now l (appendAll ls b).
Proof. unfold appendAll. by rewrite fold_left_app. Qed.

Lemma numbered_app i ls1 ls2 :
  numbered i (ls1 ++ ls2)
  = numbered i ls1 ++ numbered (i + Z.of_nat (length ls1)) ls2.
Proof.
  revert i. induction ls1 as [|[now l] ls1 IH]; intros i; simpl.
  - f_equal. lia.
  - rewrite IH. do 3 f_equal. lia.
Qed.

Lemma numbered_length i ls : length (numbered i ls) = length ls.
Proof.
  revert i. induction ls as [|[now l] ls IH]; intros i; simpl; [done|].
  by rewrite IH.
Qed.

Lemma drop_numbered d i ls :
  drop d (numbered i ls) = numbered (i + Z.of_nat d) (drop d ls).
Proof.
  revert i ls. induction d as [|d IH]; intros i ls.
  - rewrite !drop_0. f_equal. lia.
  - destruct ls as [|[now l] ls]; simpl; [done|].
    rewrite IH. f_equal. lia.
Qed.

Lemma filter_numbered k i ls :
  List.filter (fun e => index e >=? k) (numbered i ls)
  = numbered (Z.max i k) (drop (Z.to_nat (k - i)) ls).
Proof.
  revert i. induction ls as [|[now l] ls IH]; intros i.
  - by rewrite drop_nil.
  - simpl. destruct (Z.geb_spec i k) as [Hge|Hlt].
    + replace (Z.to_nat (k - i)) with O by lia. rewrite drop_0. simpl.
      replace (Z.max i k) with i by lia. f_equal.
      rewrite IH. replace (Z.to_nat (k - (i + 1))) with O by lia.
      rewrite drop_0. f_equal. lia.
    + replace (Z.to_nat (k - i)) with (S (Z.to_nat (k - (i + 1)))) by lia.
      simpl. rewrite IH. f_equal. lia.
Qed.

(** [shift()] after [push(e)] on the retained suffix of a history. *)
Lemma tail_drop_snoc {A} d (l : list A) e :
  (d <= length l)%nat -> tail (drop d l ++ [e]) = drop (S d) (l ++ [e]).
Proof.
  revert l. induction d as [|d IH]; intros [|x l] Hd; simpl in *;
    try done; try lia.
  apply IH. lia.
Qed.

(** The state of a buffer of capacity [C] after the appends [ls]. *)
Lemma appendAll_fresh C ls :
  0 <= C ->
  let b := appendAll ls (create (Some C)) in
  currentIndex b = Z.of_nat (length ls)
  /\ maxLines b = C
  /\ logs b = drop (length ls - Z.to_nat C) (numbered 0 ls).
Proof.
  intros HC. induction ls as [|[now l] ls IH] using rev_ind; [done|].
  rewrite appendAll_snoc. cbv zeta in IH. destruct IH as (Hi & Hm & Hl).
  unfold append. cbn [currentIndex maxLines logs].
  rewrite Hi, Hm, Hl. rewrite length_app. cbn [length].
  split; [lia|]. split; [done|].
  rewrite numbered_app. cbn [numbered]. rewrite Z.add_0_l.
  rewrite !length_app, length_drop, numbered_length. cbn [length].
  set (e := mkEntry l now (Z.of_nat (length ls))).
  destruct (Z.gtb_spec (Z.of_nat (length ls - (length ls - Z.to_nat C) + 1)) C)
    as [Hgt|Hle].
  - replace (length ls + 1 - Z.to_nat C)%nat
      with (S (length ls - Z.to_nat C))%nat by lia.
    apply tail_drop_snoc. rewrite numbered_length. lia.
  - replace (length ls + 1 - Z.to_nat C)%nat with O by lia.
    replace (length ls - Z.to_nat C)%nat with O by lia.
    by rewrite !drop_0.
Qed.

Lemma getLogs_throws_iff fromIndex limit b :
  (exists e, getLogs fromIndex (Some limit) b = Throw e)
  <-> (exists k, fromIndex = Some k /\ k < 0) \/ limit <= 0.
Proof.
  unfold getLogs. change (default 100 (Some limit)) with limit.
  destruct fromIndex as [k|].
  - destruct (Z.ltb_spec k 0).
    { split; [intros _; left; exists k; by split | intros _; eexists; reflexivity]. }
    destruct (Z.leb_spec limit 0).
    { split; [intros _; by right | intros _; eexists; reflexivity]. }
    split; [intros [e He]; done|].
    intros [(k' & [= <-] & ?)|?]; lia.
  - destruct (Z.leb_spec limit 0).
    { split; [intros _; by right | intros _; eexists; reflexivity]. }
    split; [intros [e He]; done|].
    intros [(k' & ? & ?)|?]; [done|lia].
Qed.

End LogBufferFacts.

Section LogBufferClaims.
Import LogBuffer.

Lemma map_index_numbered i ls :
  map index (numbered i ls) = seqZ i (Z.of_nat (length ls)).
Proof.
  revert i. induction ls as [|[now l] ls IH]; intros i; [done|].
  cbn [numbered map length index]. rewrite seqZ_cons by lia.
  rewrite IH. do 2 f_equal; lia.
Qed.

Lemma seqZ_strictly_increasing i (n : nat) :
  strictly_increasing (seqZ i (Z.of_nat n)).
Proof.
  revert i. induction n as [|n IH]; intros i.
  - rewrite seqZ_nil by lia. constructor.
  - rewrite seqZ_cons by lia. constructor.
    + replace (Z.pred (Z.of_nat (S n))) with (Z.of_nat n) by lia. apply IH.
    + apply Forall_seqZ. intros k Hk. lia.
Qed.

(** Without a [clear], a run of operations hands out consecutive
    indices starting at the buffer's counter. *)
Lemma run_without_clear b ops :
  forallb (fun o => negb (isClear o)) ops = true ->
  snd (run b ops)
  = seqZ (currentIndex b) (Z.of_nat (length (snd (run b ops))))
  /\ currentIndex (fst (run b ops))
     = currentIndex b + Z.of_nat (length (snd (run b ops))).
Proof.
  revert b. induction ops as [|o ops IH]; intros b Hops.
  - split; [done | cbn; lia].
  - cbn [forallb] in Hops. apply andb_prop in Hops as [Ho Hops].
    cbn [run]. destruct (step b o) as [b' i] eqn:Hstep.
    specialize (IH b' Hops).
    destruct (run b' ops) as [b'' ks]. cbn [fst snd] in *.
    destruct IH as [IH1 IH2].
    destruct o; try discriminate; cbn in Hstep;
      injection Hstep as <- <-; cbn [currentIndex append] in *.
    + cbn [length]. rewrite seqZ_cons by lia. split; [|lia].
      f_equal. rewrite IH1 at 1. f_equal; lia.
    + done.
    + done.
Qed.

(** C8: a buffer of capacity [C] that received [N > C] lines holds [C]
    entries, its next index is [N], the entries are the most recent [C]
    with the consecutive indices [N-C .. N-1]; [getLogs] from [k] with
    limit [L] returns the retained entries of index at least [k], oldest
    first, cut to the first [L], and throws exactly when [fromIndex] is
    negative or [limit] is not positive. *)
Theorem C8_bounded_buffer (C : Z) (ls : list (Z * string)) :
  0 <= C ->
  C < Z.of_nat (length ls) ->
  let N := Z.of_nat (length ls) in
  let b := appendAll ls (create (Some C)) in
  getTotalLines b = C
  /\ getNextIndex b = N
  /\ logs b = numbered (N - C) (drop (Z.to_nat (N - C)) ls)
  /\ map index (logs b) = seqZ (N - C) C
  /\ (forall k L, 0 <= k -> 0 < L ->
        getLogs (Some k) (Some L) b
        = Ret (take (Z.to_nat L)
                 (List.filter (fun e => index e >=? k) (logs b)))
        /\ List.filter (fun e => index e >=? k) (logs b)
           = numbered (Z.max k (N - C))
               (drop (Z.to_nat (Z.max k (N - C))) ls))
  /\ (forall fromIndex L,
        (exists e, getLogs fromIndex (Some L) b = Throw e)
        <-> (exists k, fromIndex = Some k /\ k < 0) \/ L <= 0).
Proof.
  intros HC HN N b.
  destruct (appendAll_fresh C ls HC) as (Hi & Hm & Hl). fold b in Hi, Hm, Hl.
  assert (Hlogs : logs b = numbered (N - C) (drop (Z.to_nat (N - C)) ls)).
  { rewrite Hl, drop_numbered. unfold N.
    replace (Z.to_nat (Z.of_nat (length ls) - C))
      with (length ls - Z.to_nat C)%nat by lia.
    f_equal. lia. }
  split.
  { unfold getTotalLines. rewrite Hlogs, numbered_length, length_drop.
    unfold N. lia. }
  split; [exact Hi|]. split; [exact Hlogs|]. split.
  { rewrite Hlogs, map_index_numbered, length_drop. f_equal. unfold N. lia. }
  split.
  - intros k L Hk HL. split.
    + unfold getLogs. change (default 100 (Some L)) with L.
      destruct (Z.ltb_spec k 0); [lia|].
      destruct (Z.leb_spec L 0); [lia|]. done.
    + rewrite Hlogs, filter_numbered, drop_drop.
      f_equal; [lia|]. f_equal. lia.
  - intros fromIndex L. apply getLogs_throws_iff.
Qed.

Lemma C8_bounded_buffer_witness :
  let ls := [(10, "a"); (11, "b"); (12, "c")] in
  let b := appendAll ls (create (Some 2)) in
  getTotalLines b = 2 /\ getNextIndex b = 3
  /\ logs b = [mkEntry "b" 11 1; mkEntry "c" 12 2].
Proof.
  pose proof (C8_bounded_buffer 2 [(10, "a"); (11, "b"); (12, "c")]
                ltac:(lia) ltac:(simpl; lia)) as H.
  cbv zeta in H. destruct H as (H1 & H2 & H3 & _).
  cbv zeta. split; [exact H1|]. split; [exact H2|]. exact H3.
Defined.

(** Counterexample to C6: [clear()] resets the counter, so the append
    after it is given index 0 again. *)
Lemma C6_counterexample :
  snd (run (create None) [OpAppend 1 "a"; OpClear; OpAppend 2 "b"]) = [0; 0]
  /\ ~ index_never_reused.
Proof.
  split; [reflexivity|].
  intros H.
  specialize (H (create None) [OpAppend 1 "a"; OpClear; OpAppend 2 "b"]).
  cbn in H. inversion H as [|? ? _ Hall]; subst.
  inversion Hall as [|? ? Hlt _]; subst. lia.
Qed.

(** C6 (amended): between two [clear()]s of one buffer the index counter
    is neither reset nor reused: every append gets the next consecutive
    index, strictly greater than all indices handed out since the last
    [clear()], whatever reads are interleaved; [clear()] sets the counter
    back to 0. *)
Theorem C6_indices_increase_between_clears (b : t) (ops : list Op) :
  forallb (fun o => negb (isClear o)) ops = true ->
  let assigned := snd (run b ops) in
  assigned = seqZ (getNextIndex b) (Z.of_nat (length assigned))
  /\ strictly_increasing assigned
  /\ NoDup assigned
  /\ getNextIndex (fst (run b ops))
     = getNextIndex b + Z.of_nat (length assigned)
  /\ getNextIndex (clear (fst (run b ops))) = 0.
Proof.
  intros Hops assigned.
  destruct (run_without_clear b ops Hops) as [H1 H2]. fold assigned in H1, H2.
  unfold getNextIndex. split; [exact H1|]. split.
  { rewrite H1. apply seqZ_strictly_increasing. }
  split; [rewrite H1; apply NoDup_seqZ|]. split; [exact H2 | reflexivity].
Qed.

Lemma C6_indices_increase_between_clears_witness :
  snd (run (create (Some 2))
         [OpAppend 1 "a"; OpGetLogs None None; OpAppend 2 "b";
          OpRecentLines 5; OpAppend 3 "c"]) = [0; 1; 2].
Proof.
  pose proof (C6_indices_increase_between_clears (create (Some 2))
         [OpAppend 1 "a"; OpGetLogs None None; OpAppend 2 "b";
          OpRecentLines 5; OpAppend 3 "c"] eq_refl) as H.
  cbv zeta in H. destruct H as (H1 & _). rewrite H1. reflexivity.
Defined.

End LogBufferClaims.

(** ** FlutterProcessManager: output handling *)

Section OutputFacts.
Import FlutterProcessManager.

Lemma notify_fold l subs acc :
  fold_left
    (fun acc sub =>
       let acc' := emit (Delivered (callback sub) l) acc in
       if throwsOn sub l then emit (SubscriberErrorLogged (callback sub)) acc'
       else acc')
    subs acc
  = mk (process acc) (flutterProcess acc) (logBuffer acc)
       (logSubscribers acc) (pendingTimers acc)
       (effects acc ++ deliveries subs l).
Proof.
  revert acc. induction subs as [|sub subs IH]; intros acc.
  - destruct acc. cbn. by rewrite app_nil_r.
  - cbn [fold_left]. rewrite IH. cbv zeta.
    destruct (throwsOn sub l) eqn:Hthrows; cbn [deliveries flat_map];
      rewrite Hthrows; cbn; f_equal; rewrite <- ?app_assoc; reflexivity.
Qed.

Lemma notifyAll_eq l s :
  notifyAll l s
  = mk (process s) (flutterProcess s) (logBuffer s) (logSubscribers s)
       (pendingTimers s) (effects s ++ deliveries (logSubscribers s) l).
Proof. apply notify_fold. Qed.

(** One processed line. *)
Lemma handleLine_nonblank now s l :
  Js.trim_nonempty l = true ->
  let marked := tracked s && isReloadMarker l in
  handleLine now s l
  = mk (process s)
       (if marked then set_status hot_reloading <$> flutterProcess s
        else flutterProcess s)
       (LogBuffer.append now l (logBuffer s))
       (logSubscribers s)
       (if marked then S (pendingTimers s) else pendingTimers s)
       (effects s ++ lineEffects (logSubscribers s) (tracked s) l).
Proof.
  intros Hl. unfold handleLine. rewrite Hl. cbv zeta.
  rewrite notifyAll_eq. unfold detectStatusChanges, tracked, lineEffects,
    isReloadMarker.
  destruct s as [p fp b subs n es]. cbn.
  destruct fp as [fp|]; cbn.
  - destruct (Js.includes l "Hot reload" || Js.includes l "Reloaded"); cbn.
    + unfold emit, set_pendingTimers, set_flutterProcess. cbn.
      by rewrite <- app_assoc.
    + by rewrite app_nil_r.
  - by rewrite app_nil_r.
Qed.

Lemma handleLine_blank now s l :
  Js.trim_nonempty l = false -> handleLine now s l = s.
Proof. intros Hl. unfold handleLine. by rewrite Hl. Qed.

(** The loop of [handleOutput] over any list of pieces. *)
Lemma handleLines_spec now lines s :
  let ls := List.filter Js.trim_nonempty lines in
  let s' := fold_left (handleLine now) lines s in
  logBuffer s' = LogBuffer.appendAll (map (fun l => (now, l)) ls) (logBuffer s)
  /\ effects s'
     = effects s ++ flat_map (lineEffects (logSubscribers s) (tracked s)) ls
  /\ logSubscribers s' = logSubscribers s
  /\ process s' = process s
  /\ flutterProcess s'
     = (if existsb isReloadMarker ls
        then set_status hot_reloading <$> flutterProcess s
        else flutterProcess s)
  /\ pendingTimers s'
     = (pendingTimers s
        + (if tracked s then length (List.filter isReloadMarker ls) else 0))%nat.
Proof.
  revert s. induction lines as [|l lines IH]; intros s.
  - cbn. rewrite app_nil_r. repeat split; try done.
    destruct (tracked s); lia.
  - cbn [fold_left List.filter].
    destruct (Js.trim_nonempty l) eqn:Hl.
    + specialize (IH (handleLine now s l)).
      rewrite (handleLine_nonblank now s l Hl) in IH |- *.
      cbv zeta in IH |- *. cbn [logBuffer effects logSubscribers process
        flutterProcess pendingTimers] in IH.
      destruct IH as (Hb & He & Hs & Hp & Hf & Ht).
      assert (Htr : forall m,
        tracked (mk (process s)
          (if tracked s && isReloadMarker l
           then set_status hot_reloading <$> flutterProcess s
           else flutterProcess s)
          (LogBuffer.append now l (logBuffer s)) (logSubscribers s) m
          (effects s ++ lineEffects (logSubscribers s) (tracked s) l))
        = tracked s).
      { intros m. unfold tracked. cbn [flutterProcess].
        destruct (flutterProcess s); cbn; [|done].
        by destruct (isReloadMarker l). }
      rewrite Htr in He, Ht.
      split; [exact Hb|]. split.
      { rewrite He. cbn [map flat_map]. by rewrite <- app_assoc. }
      split; [exact Hs|]. split; [exact Hp|]. split.
      * rewrite Hf. cbn [map existsb].
        unfold tracked. destruct (flutterProcess s) as [fp|]; cbn.
        -- destruct (isReloadMarker l); cbn; [|done].
           by destruct (existsb isReloadMarker
                          (List.filter Js.trim_nonempty lines)).
        -- by destruct (isReloadMarker l || _), (existsb _ _).
      * rewrite Ht. cbn [List.filter].
        destruct (tracked s), (isReloadMarker l); cbn [andb length]; lia.
    + rewrite (handleLine_blank now s l Hl). apply IH.
Qed.

End OutputFacts.

(** ** FlutterProcessManager: [start] *)

Section StartFacts.
Import FlutterProcessManager.

(** [start] in one piece: the first failing check throws and leaves the
    manager as it was; otherwise the process is spawned and attached. *)
Lemma start_eq env options s :
  start env options s
  = if bool_decide (is_Some (process s)) then (Throw AlreadyRunning, s)
    else match checkTarget env options with
         | Some e => (Throw e, s)
         | None =>
         match checkFlavor options with
         | Some e => (Throw e, s)
         | None =>
         match checkAdditionalArgs options with
         | Some e => (Throw e, s)
         | None =>
             (Ret (startedProcess env),
              mk (Some (spawned env)) (Some (startedProcess env))
                 (logBuffer s) (logSubscribers s) (pendingTimers s)
                 (effects s
                  ++ [Spawned "flutter" (buildArgs options)
                        (worktreePath options)]))
         end end end.
Proof.
  unfold start, startedProcess, raise. unfold_monad.
  destruct (bool_decide (is_Some (process s))); [done|]. cbn.
  destruct (checkTarget env options); [done|]. cbn.
  destruct (checkFlavor options); [done|]. cbn.
  destruct (checkAdditionalArgs options); [done|]. cbn.
  destruct (observedPid (spawned env)); reflexivity.
Qed.

Lemma checkTarget_error env options e :
  checkTarget env options = Some e ->
  exists tgt, Js.given (target options) = Some tgt
    /\ (e = TargetOutsideProject tgt \/ e = TargetDoesNotExist tgt
        \/ e = TargetNotDart tgt).
Proof.
  unfold checkTarget. destruct (Js.given (target options)) as [tgt|]; [|done].
  intros H. exists tgt. split; [done|].
  repeat match type of H with
         | (if ?c then _ else _) = _ => destruct c
         end; try discriminate; injection H as <-; auto.
Qed.

Lemma checkFlavor_error options e :
  checkFlavor options = Some e -> exists f, e = InvalidFlavor f.
Proof.
  unfold checkFlavor. destruct (Js.given (flavor options)) as [f|]; [|done].
  destruct (negb (flavorRegex f)); [|done]. intros [= <-]. by exists f.
Qed.

Lemma checkArg_error arg e :
  checkArg arg = Some e ->
  e = InvalidDartDefine arg \/ e = InvalidFlutterArgument arg.
Proof.
  unfold checkArg. destruct (allowed arg); [done|].
  destruct (Js.startsWith arg "--dart-define=").
  - destruct (negb _); [|done]. intros [= <-]. by left.
  - intros [= <-]. by right.
Qed.

(** The loop over [additionalArgs] throws for its first refused
    argument. *)
Lemma checkArgs_error args e :
  checkArgs args = Some e <->
  exists pre arg post,
    args = pre ++ arg :: post
    /\ Forall (fun a => checkArg a = None) pre
    /\ checkArg arg = Some e.
Proof.
  induction args as [|a args IH]; cbn [checkArgs].
  - split; [done|]. intros (pre & arg & post & H & _). by destruct pre.
  - destruct (checkArg a) as [e'|] eqn:Ha.
    + split.
      * intros [= <-]. exists [], a, args. by repeat split.
      * intros (pre & arg & post & H & Hpre & Harg).
        destruct pre as [|a' pre]; cbn in H; injection H as ? ?; subst.
        -- congruence.
        -- inversion Hpre; congruence.
    + rewrite IH. split.
      * intros (pre & arg & post & Hargs & Hpre & Harg). subst args.
        exists (a :: pre), arg, post. repeat split; [by constructor|done].
      * intros (pre & arg & post & H & Hpre & Harg).
        destruct pre as [|a' pre]; cbn in H; injection H as ? ?; subst.
        -- congruence.
        -- exists pre, arg, post. inversion Hpre. by repeat split.
Qed.

Lemma checkArgs_none args :
  checkArgs args = None <-> Forall (fun a => checkArg a = None) args.
Proof.
  induction args as [|a args IH]; cbn [checkArgs].
  - split; [constructor|done].
  - destruct (checkArg a) eqn:Ha.
    + split; [done|]. intros H. inversion H; congruence.
    + rewrite IH. split; [by constructor|]. intros H. by inversion H.
Qed.

(** Only the first check of [start] reports [AlreadyRunning]. *)
Lemma start_already_running_iff env options s :
  fst (start env options s) = Throw AlreadyRunning <-> is_Some (process s).
Proof.
  rewrite start_eq. case_bool_decide as Hp; [done|].
  split; [|done]. intros H. exfalso.
  destruct (checkTarget env options) as [e|] eqn:Ht.
  { apply checkTarget_error in Ht as (tgt & _ & [->| [->| ->]]);
      discriminate. }
  destruct (checkFlavor options) as [e|] eqn:Hf.
  { apply checkFlavor_error in Hf as (f & ->). discriminate. }
  destruct (checkAdditionalArgs options) as [e|] eqn:Ha; [|discriminate].
  unfold checkAdditionalArgs in Ha. destruct (additionalArgs options); [|done].
  apply checkArgs_error in Ha as (pre & arg & post & _ & _ & Harg).
  apply checkArg_error in Harg as [->| ->]; discriminate.
Qed.

End StartFacts.

(** ** FlutterProcessManager: the handle and the status *)

Section LifecycleFacts.
Import FlutterProcessManager.

Lemma handleOutput_process now data s :
  process (handleOutput now data s) = process s.
Proof.
  unfold handleOutput.
  by destruct (handleLines_spec now (Js.split Js.LF data) s)
    as (_ & _ & _ & Hp & _).
Qed.

(** What each action does to the handle. *)
Lemma step_process s a :
  process (snd (step s a))
  = match a with
    | Start env _ =>
        match fst (step s a) with
        | None => Some (spawned env)
        | Some _ => process s
        end
    | Exit _ _ _ => None
    | _ => process s
    end.
Proof.
  destruct a; cbn [step snd fst outcome].
  - rewrite start_eq. case_bool_decide; [done|].
    destruct (checkTarget env options); [done|].
    destruct (checkFlavor options); [done|].
    by destruct (checkAdditionalArgs options).
  - apply handleOutput_process.
  - unfold handleExit. by destruct (flutterProcess s).
  - unfold timerFires. destruct (pendingTimers s); [done|].
    by destruct (flutterProcess (set_pendingTimers n s)).
  - unfold stop. unfold_monad. destruct (process s) eqn:Hp; [|done].
    by destruct stdinOk0.
  - unfold hotReload. unfold_monad. destruct (process s) eqn:Hp; [|done].
    by destruct stdinOk0.
  - unfold hotRestart. unfold_monad. destruct (process s) eqn:Hp; [|done].
    by destruct stdinOk0.
  - unfold kill. unfold_monad. by destruct (process s) eqn:Hp.
  - unfold getLogs. unfold_monad.
    by destruct (LogBuffer.getLogs fromIndex limit (logBuffer s)).
  - unfold subscribeToLogs. by destruct (existsb _ _).
  - done.
  - done.
  - unfold cleanupBegin, stop. unfold_monad.
    destruct (process s) eqn:Hp; [|done].
    unfold set_logSubscribers at 1. cbn [process]. rewrite Hp.
    by destruct stdinOk0.
  - unfold cleanupTimeout, kill. unfold_monad.
    unfold emit at 1. cbn [process]. by destruct (process s) eqn:Hp.
  - done.
Qed.

Lemma handleAttached_sound acts : forall s flag,
  (is_Some (process s) <-> flag = true) ->
  (is_Some (process (run s acts)) <-> handleAttached s flag acts = true).
Proof.
  induction acts as [|a acts IH]; intros s flag Hflag; [done|].
  cbn [run fold_left handleAttached].
  pose proof (step_process s a) as Hstep.
  destruct (step s a) as [err s'] eqn:Hsa. cbn [fst snd] in *.
  apply IH. rewrite Hstep.
  destruct a; try exact Hflag.
  - destruct err; [exact Hflag|]. split; [done|]. intros _. by eexists.
  - split; [intros [? ?]; done | done].
Qed.

(** C9: [start] throws the already-running error exactly when a handle
    is attached, and a handle is attached exactly when an earlier [start]
    went through and the exit callback has not run since; the exit
    callback releases the handle. *)
Theorem C9_already_running_iff_attached :
  (forall env options s,
      fst (start env options s) = Throw AlreadyRunning
      <-> is_Some (process s))
  /\ (forall maxLogLines acts,
        is_Some (process (run (create maxLogLines) acts))
        <-> handleAttached (create maxLogLines) false acts = true)
  /\ (forall env options s r s',
        start env options s = (Ret r, s') -> is_Some (process s'))
  /\ (forall now code signal env options s,
        process (handleExit now code signal s) = None
        /\ fst (start env options (handleExit now code signal s))
           <> Throw AlreadyRunning).
Proof.
  split; [apply start_already_running_iff|]. split.
  { intros cap acts. apply handleAttached_sound. split; [|done].
    intros [? ?]; done. }
  split.
  { intros env options s r s'. rewrite start_eq. case_bool_decide; [done|].
    destruct (checkTarget env options); [done|].
    destruct (checkFlavor options); [done|].
    destruct (checkAdditionalArgs options); [done|].
    intros [= <- <-]. by eexists. }
  intros now code signal env options s.
  assert (Hp : process (handleExit now code signal s) = None).
  { unfold handleExit. by destruct (flutterProcess s). }
  split; [exact Hp|].
  rewrite start_already_running_iff, Hp. by intros [? ?].
Qed.

Lemma C9_already_running_iff_attached_witness :
  let env := mkStartEnv "/" (fun _ => None) 0 (mkSpawned (Some 4242)) in
  let options := mkOptions "/Users/alice/app" "UDID" None None None in
  let s1 := run (create None) [Start env options] in
  is_Some (process s1)
  /\ fst (start env options s1) = Throw AlreadyRunning
  /\ fst (start env options (handleExit 5 (Some 0) None s1))
     <> Throw AlreadyRunning.
Proof.
  cbv zeta.
  destruct C9_already_running_iff_attached as (H1 & H2 & H3 & H4).
  split; [by eexists|]. split.
  - apply H1. by eexists.
  - apply H4.
Defined.

(** The exit callback alone: [stopped] exactly for exit code 0. *)
Lemma handleExit_status now code signal s fp :
  flutterProcess s = Some fp ->
  status <$> flutterProcess (handleExit now code signal s)
  = Some (if bool_decide (code = Some 0) then stopped else failed).
Proof. intros Hfp. unfold handleExit. by rewrite Hfp. Qed.

(** C4, at the failing history: a reload marker is printed, the process
    exits with code 0 within the second, and the reload timer then fires.
    The exit callback leaves status [stopped] and no handle; the timer
    callback, never cancelled and guarded only by the presence of the
    [flutterProcess] record, overwrites the status with [running]. *)
Lemma C4_stale_timer_overwrites_terminal_status :
  let env := mkStartEnv "/" (fun _ => None) 0 (mkSpawned (Some 4242)) in
  let options := mkOptions "/Users/alice/app" "UDID" None None None in
  let exited :=
    run (create None)
      [Start env options;
       Output 1 "Reloaded 1 of 512 libraries in 300ms.";
       Exit 2 (Some 0) None] in
  status <$> getStatus exited = Some stopped
  /\ process exited = None
  /\ pendingTimers exited = 1%nat
  /\ status <$> getStatus (run exited [TimerFires]) = Some running
  /\ process (run exited [TimerFires]) = None.
Proof. vm_compute. repeat split. Qed.

(** C7 (amended): [handleOutput] splits the chunk at line feeds and
    processes, in order, the pieces that hold a character other than
    white space (blank pieces are skipped): each is appended to the log
    buffer, then handed to every registered subscriber in registration
    order, a throwing subscriber being logged without stopping the
    fan-out or touching the buffer, and then inspected for the reload
    markers. *)
Theorem C7_output_fanout now data s :
  let ls := nonBlankLines data in
  let s' := handleOutput now data s in
  logBuffer s'
  = LogBuffer.appendAll (map (fun l => (now, l)) ls) (logBuffer s)
  /\ effects s'
     = effects s ++ flat_map (lineEffects (logSubscribers s) (tracked s)) ls
  /\ (forall l sub,
        In l ls -> In sub (logSubscribers s) ->
        In (Delivered (callback sub) l) (effects s'))
  /\ logSubscribers s' = logSubscribers s
  /\ flutterProcess s'
     = (if existsb isReloadMarker ls
        then set_status hot_reloading <$> flutterProcess s
        else flutterProcess s).
Proof.
  intros ls s'.
  destruct (handleLines_spec now (Js.split Js.LF data) s)
    as (Hb & He & Hs & _ & Hf & _).
  split; [exact Hb|]. split; [exact He|]. split; [|by split].
  intros l sub Hl Hsub. unfold s', handleOutput. rewrite He.
  apply in_or_app. right. apply in_flat_map. exists l. split; [exact Hl|].
  unfold lineEffects. apply in_or_app. left.
  unfold deliveries. apply in_flat_map. exists sub. split; [exact Hsub|].
  by left.
Qed.

Lemma C7_output_fanout_witness :
  let bad := mkSubscriber 1 (fun _ => true) in
  let good := mkSubscriber 2 (fun _ => false) in
  let s := subscribeToLogs good (subscribeToLogs bad (create None)) in
  let data := "one" +:+ String Js.LF "two" in
  In (Delivered 2 "one") (effects (handleOutput 7 data s))
  /\ In (Delivered 2 "two") (effects (handleOutput 7 data s))
  /\ map LogBuffer.line (LogBuffer.logs (logBuffer (handleOutput 7 data s)))
     = ["one"; "two"].
Proof.
  cbv zeta.
  pose proof (C7_output_fanout 7 ("one" +:+ String Js.LF "two")
    (subscribeToLogs (mkSubscriber 2 (fun _ => false))
       (subscribeToLogs (mkSubscriber 1 (fun _ => true)) (create None))))
    as H.
  cbv zeta in H. destruct H as (Hb & _ & Hd & _).
  split; [|split].
  - apply (Hd "one" (mkSubscriber 2 (fun _ => false)));
      vm_compute; auto.
  - apply (Hd "two" (mkSubscriber 2 (fun _ => false)));
      vm_compute; auto.
  - rewrite Hb. reflexivity.
Defined.

(** Counterexample to C7: a chunk of three lines whose middle line is a
    single space. The blank line is neither logged nor delivered. *)
Lemma C7_counterexample :
  let s := subscribeToLogs (mkSubscriber 1 (fun _ => false)) (create None) in
  let data := "a" +:+ String Js.LF (" " +:+ String Js.LF "b") in
  Js.split Js.LF data = ["a"; " "; "b"]
  /\ map LogBuffer.line (LogBuffer.logs (logBuffer (handleOutput 0 data s)))
     = ["a"; "b"]
  /\ effects (handleOutput 0 data s) = [Delivered 1 "a"; Delivered 1 "b"]
  /\ ~ every_line_logged.
Proof.
  cbv zeta. split; [reflexivity|]. split; [reflexivity|].
  split; [reflexivity|].
  intros H.
  specialize (H 0 ("a" +:+ String Js.LF (" " +:+ String Js.LF "b"))
                (create None) " ").
  assert (Hin : " " ∈ Js.split Js.LF
                  ("a" +:+ String Js.LF (" " +:+ String Js.LF "b"))).
  { vm_compute. apply list_elem_of_In. simpl. auto. }
  specialize (H Hin). apply list_elem_of_In in H. vm_compute in H.
  destruct H as [H|[H|[]]]; discriminate.
Qed.

End LifecycleFacts.

(** ** FlutterProcessManager: validation of the launch arguments *)

Section ValidationFacts.
Import FlutterProcessManager.

Lemma app_String c s t : String c s +:+ t = String c (s +:+ t).
Proof. reflexivity. Qed.

Lemma substring_from_app p rest :
  Js.substring_from (String.length p) (p +:+ rest) = rest.
Proof. induction p as [|c p IH]; [by destruct rest | exact IH]. Qed.

Lemma allowed_iff arg : allowed arg = true <-> In arg ALLOWED_ARGS.
Proof.
  unfold allowed. rewrite existsb_exists. split.
  - intros (x & Hx & Heq). apply String.eqb_eq in Heq. by subst.
  - intros H. exists arg. split; [done|]. apply String.eqb_refl.
Qed.

Lemma lineTerminatorAt_iff s :
  lineTerminatorAt s = true
  <-> exists t rest, In t Js.lineTerminators /\ s = t +:+ rest.
Proof.
  unfold lineTerminatorAt. rewrite existsb_exists. split.
  - intros (t & Ht & Hs). apply startsWith_iff in Hs as [rest ->].
    by exists t, rest.
  - intros (t & rest & Ht & ->). exists t. split; [done|].
    apply startsWith_iff. by exists rest.
Qed.

Lemma lineTerminator_nonempty t :
  In t Js.lineTerminators -> exists c t', t = String c t'.
Proof.
  cbn. intros [<-|[<-|[<-|[<-|[]]]]]; by eexists _, _.
Qed.

(** The matcher of [.*$] accepts exactly the texts without a line
    terminator. *)
Lemma dotStarToEnd_iff v : dotStarToEnd v = true <-> singleLine v.
Proof.
  induction v as [|c v IH].
  - split; [|done]. intros _ before t after Ht H.
    destruct (lineTerminator_nonempty t Ht) as (d & t' & ->).
    destruct before as [|b before].
    + change ("" = String d (t' +:+ after)) in H. discriminate.
    + rewrite app_String in H. discriminate.
  - cbn [dotStarToEnd]. rewrite andb_true_iff, negb_true_iff, IH. split.
    + intros [Hat Hrest] before t after Ht H.
      destruct before as [|b before].
      * assert (lineTerminatorAt (String c v) = true) as Hat'.
        { apply lineTerminatorAt_iff. by exists t, after. }
        congruence.
      * rewrite app_String in H. injection H as -> H.
        by apply (Hrest before t after).
    + intros Hs. split.
      * destruct (lineTerminatorAt (String c v)) eqn:Hat; [|done].
        apply lineTerminatorAt_iff in Hat as (t & rest & Ht & H).
        exfalso. by apply (Hs "" t rest Ht).
      * intros before t after Ht H.
        apply (Hs (String c before) t after Ht).
        rewrite app_String. by rewrite H.
Qed.

Lemma keyRestRegex_iff s :
  keyRestRegex s = true <->
  exists key value,
    s = key +:+ "=" +:+ value
    /\ allChars isKeyChar key = true /\ singleLine value.
Proof.
  induction s as [|c s IH]; cbn [keyRestRegex].
  - split; [done|]. intros (key & value & H & _). by destruct key.
  - destruct (isKeyChar c) eqn:Hc.
    + rewrite IH. split.
      * intros (key & value & -> & Hk & Hv).
        exists (String c key), value. cbn [allChars]. by rewrite Hc.
      * intros (key & value & H & Hk & Hv).
        destruct key as [|d key].
        -- change (String c s = String "=" value) in H.
           injection H as -> _. discriminate.
        -- rewrite app_String in H. injection H as <- ->.
           cbn [allChars] in Hk. apply andb_prop in Hk as [_ Hk].
           by exists key, value.
    + rewrite andb_true_iff, Ascii.eqb_eq, dotStarToEnd_iff. split.
      * intros [-> Hv]. by exists "", s.
      * intros (key & value & H & Hk & Hv).
        destruct key as [|d key].
        -- change (String c s = String "=" value) in H.
           by injection H as -> ->.
        -- rewrite app_String in H. injection H as <- ->.
           cbn [allChars] in Hk. rewrite Hc in Hk. discriminate.
Qed.

Lemma dartDefineRegex_iff s :
  dartDefineRegex s = true <->
  exists key value,
    s = key +:+ "=" +:+ value /\ isIdentifier key /\ singleLine value.
Proof.
  destruct s as [|c s]; cbn [dartDefineRegex].
  - split; [done|]. intros (key & value & H & Hk & _). by destruct key.
  - rewrite andb_true_iff, keyRestRegex_iff. split.
    + intros (Hc & key & value & -> & Hk & Hv).
      by exists (String c key), value.
    + intros (key & value & H & Hk & Hv).
      destruct key as [|d key]; [done|].
      rewrite app_String in H. injection H as <- ->.
      destruct Hk as [Hd Hk]. split; [done|]. by exists key, value.
Qed.

(** One argument passes the loop exactly when it is acceptable. *)
Lemma checkArg_none_iff arg : checkArg arg = None <-> acceptable arg.
Proof.
  unfold checkArg, acceptable.
  destruct (allowed arg) eqn:Ha.
  { apply allowed_iff in Ha. split; [by left | done]. }
  assert (Hnot : ~ In arg ALLOWED_ARGS).
  { intros H. apply allowed_iff in H. congruence. }
  destruct (Js.startsWith arg "--dart-define=") eqn:Hp.
  - apply startsWith_iff in Hp as [rest ->].
    rewrite substring_from_app.
    destruct (dartDefineRegex rest) eqn:Hr; cbn [negb].
    + apply dartDefineRegex_iff in Hr as (key & value & -> & Hk & Hv).
      split; [|done]. intros _. right. by exists key, value.
    + split; [done|]. intros [H|(key & value & H & Hk & Hv)]; [done|].
      apply (inj (String.app "--dart-define=")) in H. subst rest.
      assert (dartDefineRegex (key +:+ "=" +:+ value) = true) as Hr'.
      { apply dartDefineRegex_iff. by exists key, value. }
      congruence.
  - split; [done|]. intros [H|(key & value & H & Hk & Hv)]; [done|].
    assert (Js.startsWith arg "--dart-define=" = true) as Hp'.
    { apply startsWith_iff. by eexists. }
    congruence.
Qed.

End ValidationFacts.

Section ValidationClaims.
Import FlutterProcessManager.

(** C3 (amended): with no process attached and the target and flavor
    checks passed, [start] goes through exactly when every additional
    argument is an allow-listed flag or [--dart-define=KEY=VALUE] with an
    identifier [KEY] and a [VALUE] free of line terminators (U+000A,
    U+000D, U+2028 and U+2029, the characters the [.] of the regular
    expression refuses); otherwise it throws an invalid-argument error
    that names the first refused argument, and nothing is spawned. *)
Theorem C3_additional_args_allow_list :
  (forall arg, checkArg arg = None <-> acceptable arg)
  /\ (forall env options s args,
        process s = None ->
        checkTarget env options = None ->
        checkFlavor options = None ->
        additionalArgs options = Some args ->
        (Forall acceptable args ->
           exists r s', start env options s = (Ret r, s'))
        /\ (~ Forall acceptable args ->
              exists pre arg post,
                args = pre ++ arg :: post
                /\ Forall acceptable pre
                /\ ~ acceptable arg
                /\ (start env options s = (Throw (InvalidDartDefine arg), s)
                    \/ start env options s
                       = (Throw (InvalidFlutterArgument arg), s))))
  /\ checkArg "--dart-define=FOO=bar" = None
  /\ checkArg "--dart-define=1FOO=bar"
     = Some (InvalidDartDefine "--dart-define=1FOO=bar")
  /\ checkArg "--dangerous=$(rm -rf /)"
     = Some (InvalidFlutterArgument "--dangerous=$(rm -rf /)")
  /\ (forall t, In t Js.lineTerminators ->
        checkArg ("--dart-define=FOO=a" +:+ t +:+ "b")
        = Some (InvalidDartDefine ("--dart-define=FOO=a" +:+ t +:+ "b"))).
Proof.
  split; [exact checkArg_none_iff|]. split.
  2:{ repeat split. cbn. by intros t [<-|[<-|[<-|[<-|[]]]]]. }
  intros env options s args Hp Ht Hf Ha.
  assert (Hstart : start env options s
    = match checkArgs args with
      | Some e => (Throw e, s)
      | None =>
          (Ret (startedProcess env),
           mk (Some (spawned env)) (Some (startedProcess env))
              (logBuffer s) (logSubscribers s) (pendingTimers s)
              (effects s
               ++ [Spawned "flutter" (buildArgs options)
                     (worktreePath options)]))
      end).
  { rewrite start_eq, Hp, Ht, Hf. unfold checkAdditionalArgs. rewrite Ha.
    rewrite bool_decide_false; [done|]. by intros [? ?]. }
  assert (Hall : forall l,
    Forall (fun a => checkArg a = None) l <-> Forall acceptable l).
  { intros l. apply Forall_iff. intros a. apply checkArg_none_iff. }
  split.
  - intros Hacc. apply Hall, checkArgs_none in Hacc.
    rewrite Hstart, Hacc. by eexists _, _.
  - intros Hnacc. destruct (checkArgs args) as [e|] eqn:He.
    + apply checkArgs_error in He as (pre & arg & post & -> & Hpre & Harg).
      exists pre, arg, post. split; [done|]. split; [by apply Hall|].
      split.
      * rewrite <- checkArg_none_iff. congruence.
      * apply checkArg_error in Harg as [-> | ->]; auto.
    + apply checkArgs_none, Hall in He. done.
Qed.

Lemma C3_additional_args_allow_list_witness :
  let env := mkStartEnv "/" (fun _ => None) 0 (mkSpawned (Some 4242)) in
  let options :=
    mkOptions "/Users/alice/app" "UDID" None None
      (Some ["--release"; "--dart-define=FOO=bar"]) in
  exists r s', start env options (create None) = (Ret r, s').
Proof.
  cbv zeta.
  destruct C3_additional_args_allow_list as (Hiff & Hstart & _).
  refine (proj1 (Hstart
    (mkStartEnv "/" (fun _ => None) 0 (mkSpawned (Some 4242)))
    (mkOptions "/Users/alice/app" "UDID" None None
       (Some ["--release"; "--dart-define=FOO=bar"]))
    (create None) ["--release"; "--dart-define=FOO=bar"]
    eq_refl eq_refl eq_refl eq_refl) _).
  constructor; [apply Hiff; reflexivity|].
  constructor; [apply Hiff; reflexivity|].
  constructor.
Defined.

(** Counterexample to C3: an argument of the form
    [--dart-define=KEY=VALUE] with the identifier [FOO] for [KEY] whose
    [VALUE] contains a line feed is refused (as it is with any of the
    other three line terminators in its place). *)
Lemma C3_counterexample :
  let arg := "--dart-define=FOO=a" +:+ String Js.LF "b" in
  acceptableAsClaimed arg
  /\ checkArg arg = Some (InvalidDartDefine arg)
  /\ ~ (checkArg arg = None <-> acceptableAsClaimed arg).
Proof.
  cbv zeta.
  assert (H : acceptableAsClaimed ("--dart-define=FOO=a" +:+ String Js.LF "b")).
  { right. exists "FOO", ("a" +:+ String Js.LF "b"). by split. }
  split; [exact H|]. split; [reflexivity|].
  intros [_ Hback]. specialize (Hback H). vm_compute in Hback. discriminate.
Qed.

(** C2, at the failing input: the project is [/Users/alice/app] and the
    target [../app-evil/main.dart] names an existing file of the sibling
    directory [/Users/alice/app-evil]. The resolved target is outside the
    project directory, yet it begins with the characters of the project
    path, so the check lets it through and the process is spawned with
    that target. A target that leaves through another name, such as
    [../../etc/passwd], is refused. *)
Lemma C2_sibling_directory_target_accepted :
  let fs := fun p : string =>
    if String.eqb p "/Users/alice/app-evil/main.dart"
    then Some RegularFile else None in
  let env := mkStartEnv "/" fs 0 (mkSpawned (Some 4242)) in
  let options tgt := mkOptions "/Users/alice/app" "UDID" (Some tgt) None None in
  Path.resolve "/" ["/Users/alice/app"; "../app-evil/main.dart"]
  = "/Users/alice/app-evil/main.dart"
  /\ ~ withinDirectory (Path.resolve "/" ["/Users/alice/app"])
         "/Users/alice/app-evil/main.dart"
  /\ fst (start env (options "../app-evil/main.dart") (create None))
     = Ret (mkFlutterProcess 4242 running 0 None None)
  /\ effects (snd (start env (options "../app-evil/main.dart") (create None)))
     = [Spawned "flutter" ["run"; "-d"; "UDID"; "-t"; "../app-evil/main.dart"]
          "/Users/alice/app"]
  /\ start env (options "../../etc/passwd") (create None)
     = (Throw (TargetOutsideProject "../../etc/passwd"), create None).
Proof.
  cbv zeta. split; [reflexivity|]. split.
  { intros [H|[rest H]]; vm_compute in H; discriminate. }
  split; [reflexivity|]. split; reflexivity.
Qed.

End ValidationClaims.

(** ** SessionManager *)

Section SessionFacts.
Import SessionManager.

(** [createSession] in one piece. *)
Lemma createSession_eq env params w :
  let worktreePath := param_worktreePath params in
  let deviceType := default "iPhone 16 Pro" (param_deviceType params) in
  let resolvedPath := Path.resolve (cwd env) [worktreePath] in
  createSession env params w
  = if negb (Js.startsWith resolvedPath (allowedPathPrefix w))
    then (Throw (AccessDenied (allowedPathPrefix w) resolvedPath), w)
    else if negb (existsSync (fs env) resolvedPath)
    then (Throw (DirectoryDoesNotExist worktreePath), w)
    else if negb (isDirectory (fs env) resolvedPath)
    then (Throw (NotADirectory worktreePath), w)
    else if negb (existsSync (fs env)
                    (Path.join [resolvedPath; "pubspec.yaml"]))
    then (Throw (MissingPubspec resolvedPath), w)
    else
      let w1 := emit (CreateSimulatorCalled deviceType) w in
      match createSimulator env deviceType with
      | Throw reason => (Throw (SimulatorFailure reason), w1)
      | Ret udid =>
          let w2 := emit (BootSimulatorCalled udid) w1 in
          match bootSimulator env udid with
          | Throw reason => (Throw (SimulatorFailure reason), w2)
          | Ret _ =>
              let session :=
                mkSession (uuidv4 env) worktreePath udid deviceType
                  (now env) None in
              (Ret (toInfo session), state_set (uuidv4 env) session w2)
          end
      end.
Proof.
  cbv zeta. unfold createSession, call. unfold_monad.
  destruct (negb (Js.startsWith _ _)); [done|]. cbn.
  destruct (negb (existsSync _ _)); [done|]. cbn.
  destruct (negb (isDirectory _ _)); [done|]. cbn.
  destruct (negb (existsSync _ _)); [done|]. cbn.
  destruct (createSimulator env _) as [reason|udid]; [done|]. cbn.
  destruct (bootSimulator env udid) as [reason|[]]; done.
Qed.

Lemma bestEffort_eq e r what subject w :
  bestEffort e r what subject w
  = (Ret tt,
     mk (allowedPathPrefix w) (sessionState w)
        (trace w ++ attempt e r what subject)).
Proof.
  unfold bestEffort, call, attempt. unfold_monad. unfold emit.
  destruct r as [reason|[]]; cbn; by rewrite <- ?app_assoc.
Qed.

(** [endSession] of a registered session. *)
Lemma endSession_registered env sessionId session w :
  sessionState w !! sessionId = Some session ->
  endSession env sessionId w
  = (Ret tt,
     mk (allowedPathPrefix w) (delete sessionId (sessionState w))
        (trace w ++ teardownEvents env sessionId session)).
Proof.
  intros Hs. unfold endSession, state_get, teardownEvents.
  unfold mbind at 1, M_bind at 1, get. cbn beta iota. rewrite Hs.
  unfold mbind, M_bind, mret, M_ret, modify, state_delete.
  destruct (flutterProcessManager session) as [pm|]; cbn beta iota;
    repeat (rewrite bestEffort_eq;
            cbn [trace allowedPathPrefix sessionState]; cbn beta iota);
    by rewrite <- ?app_assoc.
Qed.

Lemma endSession_unknown env sessionId w :
  sessionState w !! sessionId = None ->
  endSession env sessionId w = (Throw (SessionNotFound sessionId), w).
Proof.
  intros Hs. unfold endSession, state_get.
  unfold mbind at 1, M_bind at 1, get. cbn beta iota. by rewrite Hs.
Qed.

Lemma teardownEvents_tornDown env sessionId session tr :
  tornDown sessionId session (tr ++ teardownEvents env sessionId session).
Proof.
  unfold tornDown, teardownEvents, attempt. cbv zeta.
  split; [|split].
  - apply in_or_app. right. apply in_or_app. right.
    apply in_or_app. left. by left.
  - apply in_or_app. right. apply in_or_app. right.
    apply in_or_app. right. by left.
  - intros [pm Hpm]. rewrite Hpm.
    apply in_or_app. right. apply in_or_app. left. by left.
Qed.

Lemma tornDown_extend sessionId session tr more :
  tornDown sessionId session tr -> tornDown sessionId session (tr ++ more).
Proof.
  intros (H1 & H2 & H3). unfold tornDown.
  split; [|split]; try intros Hpm; apply in_or_app; left; auto.
Qed.

End SessionFacts.

Section SessionClaims.
Import SessionManager.

(** The registry invariant holds at creation and is kept by every
    operation of the manager. *)
Lemma keyed_create prefix : keyed (create prefix).
Proof. intros k s H. cbn in H. by rewrite lookup_empty in H. Qed.

Lemma keyed_createSession env params w :
  keyed w -> keyed (snd (createSession env params w)).
Proof.
  intros Hk. rewrite createSession_eq. cbv zeta.
  repeat match goal with
         | |- context [if ?c then _ else _] => destruct c; [exact Hk|]
         end.
  destruct (createSimulator env _) as [reason|udid]; [exact Hk|].
  destruct (bootSimulator env udid) as [reason|[]]; [exact Hk|].
  intros k s. cbn. rewrite lookup_insert. case_decide as Hd.
  - intros [= <-]. by subst k.
  - apply Hk.
Qed.

Lemma keyed_endSession env sessionId w :
  keyed w -> keyed (snd (endSession env sessionId w)).
Proof.
  intros Hk. destruct (sessionState w !! sessionId) as [session|] eqn:Hs.
  - rewrite (endSession_registered _ _ _ _ Hs). intros k s. cbn.
    rewrite lookup_delete. case_decide; [done|]. apply Hk.
  - by rewrite (endSession_unknown _ _ _ Hs).
Qed.

(** The loop of [cleanup] over any list of sessions: it does not throw,
    unregisters every listed id, keeps the others, and attempts the whole
    teardown of every listed session that was registered. *)
Lemma cleanupLoop_spec env infos : forall w,
  exists w',
    cleanupLoop env infos w = (Ret tt, w')
    /\ (forall k, In k (map info_id infos) -> sessionState w' !! k = None)
    /\ (forall k, ~ In k (map info_id infos) ->
          sessionState w' !! k = sessionState w !! k)
    /\ (exists more, trace w' = trace w ++ more)
    /\ (forall i session,
          In i infos -> sessionState w !! info_id i = Some session ->
          tornDown (info_id i) session (trace w')).
Proof.
  induction infos as [|i infos IH]; intros w.
  - exists w. split; [done|]. split; [by intros k []|]. split; [done|].
    split; [exists []; by rewrite app_nil_r | by intros i session []].
  - cbn [cleanupLoop]. unfold mbind, M_bind, try_catch.
    destruct (sessionState w !! info_id i) as [s0|] eqn:Hs0.
    + rewrite (endSession_registered _ _ _ _ Hs0).
      set (w1 := mk _ _ _).
      destruct (IH w1) as (w' & Hrun & Hin & Hout & [more Htr] & Htd).
      exists w'. split; [exact Hrun|].
      assert (Htr' : trace w' = trace w
                ++ (teardownEvents env (info_id i) s0 ++ more)).
      { rewrite Htr. unfold w1. cbn [trace]. by rewrite <- app_assoc. }
      split; [|split; [|split]].
      * intros k [Heq|Hk]; [subst k|by apply Hin].
        destruct (in_dec string_dec (info_id i) (map info_id infos))
          as [Hi|Hi]; [by apply Hin|].
        rewrite (Hout _ Hi). unfold w1. cbn. apply lookup_delete_eq.
      * intros k Hk. rewrite Hout by (intros H; apply Hk; by right).
        unfold w1. cbn. apply lookup_delete_ne. intros Heq. apply Hk. by left.
      * by eexists.
      * intros i' s' [<-|Hi'] Hs'.
        -- replace s' with s0 by congruence. rewrite Htr.
           apply tornDown_extend. unfold w1. cbn [trace].
           apply teardownEvents_tornDown.
        -- destruct (string_dec (info_id i') (info_id i)) as [Heq|Hne].
           ++ rewrite Heq in Hs' |- *. replace s' with s0 by congruence.
              rewrite Htr. apply tornDown_extend. unfold w1. cbn [trace].
              apply teardownEvents_tornDown.
           ++ apply Htd; [exact Hi'|]. unfold w1. cbn.
              by rewrite lookup_delete_ne.
    + rewrite (endSession_unknown _ _ _ Hs0). unfold modify.
      set (w1 := emit _ w).
      destruct (IH w1) as (w' & Hrun & Hin & Hout & [more Htr] & Htd).
      exists w'. split; [exact Hrun|].
      split; [|split; [|split]].
      * intros k [Heq|Hk]; [subst k|by apply Hin].
        destruct (in_dec string_dec (info_id i) (map info_id infos))
          as [Hi|Hi]; [by apply Hin|].
        by rewrite (Hout _ Hi).
      * intros k Hk. by rewrite Hout by (intros H; apply Hk; by right).
      * rewrite Htr. unfold w1. cbn [trace emit]. rewrite <- app_assoc.
        by eexists.
      * intros i' s' [<-|Hi'] Hs'; [congruence|].
        by apply Htd.
Qed.

(** C10: [endSession] of a registered id never throws, removes the
    session from the registry and attempts the process cleanup (when a
    process manager is attached), the simulator shutdown and the
    simulator deletion, a failure of any of them being logged while the
    remaining steps go on; it throws only session-not-found, for an
    unknown id; [cleanup] ends every registered session, whatever fails
    on the way. *)
Theorem C10_teardown_is_best_effort :
  (forall env w sessionId session,
      sessionState w !! sessionId = Some session ->
      exists w',
        endSession env sessionId w = (Ret tt, w')
        /\ sessionState w' = delete sessionId (sessionState w)
        /\ trace w' = trace w ++ teardownEvents env sessionId session
        /\ tornDown sessionId session (trace w'))
  /\ (forall env w sessionId,
        sessionState w !! sessionId = None ->
        endSession env sessionId w = (Throw (SessionNotFound sessionId), w))
  /\ (forall env w,
        keyed w ->
        exists w',
          cleanup env w = (Ret tt, w')
          /\ sessionState w' = ∅
          /\ (forall k session,
                sessionState w !! k = Some session ->
                tornDown k session (trace w'))).
Proof.
  split; [|split].
  - intros env w sessionId session Hs.
    eexists. split; [by apply endSession_registered|].
    cbn [sessionState trace]. split; [done|]. split; [done|].
    apply teardownEvents_tornDown.
  - intros env w sessionId Hs. by apply endSession_unknown.
  - intros env w Hk. unfold cleanup, mbind, M_bind, get.
    destruct (cleanupLoop_spec env (state_list w) w)
      as (w' & Hrun & Hin & Hout & _ & Htd).
    exists w'. split; [exact Hrun|].
    assert (Hlisted : forall k session,
      sessionState w !! k = Some session ->
      In (toInfo session) (state_list w) /\ info_id (toInfo session) = k).
    { intros k session Hs. split; [|by apply Hk].
      unfold state_list. apply in_map_iff. exists (k, session).
      split; [done|]. apply list_elem_of_In. by apply elem_of_map_to_list. }
    split.
    + apply map_eq. intros k. rewrite lookup_empty.
      destruct (sessionState w !! k) as [session|] eqn:Hs.
      * destruct (Hlisted k session Hs) as [Hi Hid].
        apply Hin. apply in_map_iff. by exists (toInfo session).
      * destruct (in_dec string_dec k (map info_id (state_list w)))
          as [Hi|Hi]; [by apply Hin|].
        by rewrite (Hout _ Hi).
    + intros k session Hs. destruct (Hlisted k session Hs) as [Hi Hid].
      rewrite <- Hid. apply Htd; [exact Hi|]. by rewrite Hid.
Qed.

Lemma C10_teardown_is_best_effort_witness :
  let failing := fun udid : string =>
    if String.eqb udid "U2" then Throw "simctl failed" else Ret tt in
  let env :=
    mkEnv "/" (fun _ => None) "fresh" 0 (fun _ => Ret "U9") (fun _ => Ret tt)
      failing failing
      (fun _ => FlutterProcessManager.mkCleanupEnv true
                  FlutterProcessManager.WaitRejected) in
  let w :=
    state_set "s2" (mkSession "s2" "/Users/a/two" "U2" "iPhone 16 Pro" 2 None)
      (state_set "s1"
         (mkSession "s1" "/Users/a/one" "U1" "iPhone 16 Pro" 1
            (Some (FlutterProcessManager.create None)))
         (create None)) in
  exists w', cleanup env w = (Ret tt, w') /\ sessionState w' = ∅.
Proof.
  cbv zeta.
  destruct C10_teardown_is_best_effort as (_ & _ & Hcleanup).
  edestruct Hcleanup as (w' & Hrun & Hempty & _);
    [|exists w'; split; [exact Hrun | exact Hempty]].
  intros k s. cbn. rewrite lookup_insert. case_decide as H2.
  - intros [= <-]. by subst k.
  - rewrite lookup_insert. case_decide as H1.
    + intros [= <-]. by subst k.
    + by rewrite lookup_empty.
Defined.

(** C1: [createSession] throws the access-denied error exactly when the
    resolved path does not begin with the characters of the allowed
    prefix; a path that leaves the prefix through [..] is therefore
    refused, and a sibling such as [/Users/alice-evil] passes under the
    prefix [/Users/alice]. When a validation check throws, the manager is
    left as it was: no simulator call was made and no session stored. *)
Theorem C1_access_check env params w :
  let resolvedPath := Path.resolve (cwd env) [param_worktreePath params] in
  ((exists a r, fst (createSession env params w) = Throw (AccessDenied a r))
   <-> ~ (exists rest, resolvedPath = allowedPathPrefix w +:+ rest))
  /\ (forall e,
        fst (createSession env params w) = Throw e ->
        isValidationError e ->
        snd (createSession env params w) = w)
  /\ Js.startsWith (Path.resolve "/" ["/Users/alice/../../etc"])
       "/Users/alice" = false
  /\ Js.startsWith (Path.resolve "/" ["/Users/alice-evil"])
       "/Users/alice" = true.
Proof.
  intros resolvedPath. split; [|split; [|by split]].
  - rewrite <- startsWith_iff, createSession_eq. cbv zeta.
    fold resolvedPath.
    destruct (Js.startsWith resolvedPath (allowedPathPrefix w)); cbn [negb].
    + split; [|done]. intros (a & r & H). exfalso.
      repeat match type of H with
             | context [if ?c then _ else _] => destruct c; [discriminate|]
             end.
      destruct (createSimulator env _) as [reason|udid]; [discriminate|].
      by destruct (bootSimulator env udid) as [reason|[]].
    + split; [done|]. intros _. by eexists _, _.
  - intros e. rewrite createSession_eq. cbv zeta.
    repeat match goal with
           | |- context [if ?c then _ else _] => destruct c; [done|]
           end.
    destruct (createSimulator env _) as [reason|udid].
    { by intros [= <-] []. }
    destruct (bootSimulator env udid) as [reason|[]]; [|done].
    by intros [= <-] [].
Qed.

Lemma C1_access_check_witness :
  let env :=
    mkEnv "/" (fun _ => None) "fresh" 0 (fun _ => Ret "U9") (fun _ => Ret tt)
      (fun _ => Ret tt) (fun _ => Ret tt)
      (fun _ => FlutterProcessManager.mkCleanupEnv true
                  FlutterProcessManager.WaitRejected) in
  let params := mkParams "/Users/alice/../../etc" None in
  createSession env params (create None)
  = (Throw (AccessDenied "/Users/" "/etc"), create None).
Proof.
  cbv zeta.
  pose proof (C1_access_check
    (mkEnv "/" (fun _ => None) "fresh" 0 (fun _ => Ret "U9")
       (fun _ => Ret tt) (fun _ => Ret tt) (fun _ => Ret tt)
       (fun _ => FlutterProcessManager.mkCleanupEnv true
                   FlutterProcessManager.WaitRejected))
    (mkParams "/Users/alice/../../etc" None) (create None)) as H.
  cbv zeta in H. destruct H as (_ & Hsame & _).
  specialize (Hsame (AccessDenied "/Users/" "/etc") eq_refl I).
  rewrite <- Hsame at 2. reflexivity.
Defined.

(** Counterexample to C5: the input [/Users/alice/app/] (with a trailing
    separator) resolves to [/Users/alice/app], a project under the
    prefix; the session is created and its path is the input as given. *)
Lemma C5_counterexample :
  let fs := fun p : string =>
    if String.eqb p "/Users/alice/app" then Some Directory
    else if String.eqb p "/Users/alice/app/pubspec.yaml"
         then Some RegularFile else None in
  let env :=
    mkEnv "/" fs "id-1" 0 (fun _ => Ret "UDID-1") (fun _ => Ret tt)
      (fun _ => Ret tt) (fun _ => Ret tt)
      (fun _ => FlutterProcessManager.mkCleanupEnv true
                  FlutterProcessManager.WaitRejected) in
  let params := mkParams "/Users/alice/app/" None in
  Path.resolve "/" ["/Users/alice/app/"] = "/Users/alice/app"
  /\ fst (createSession env params (create None))
     = Ret (mkInfo "id-1" "/Users/alice/app/" "UDID-1" "iPhone 16 Pro" 0)
  /\ ~ returnsResolvedPath.
Proof.
  cbv zeta. split; [reflexivity|]. split; [reflexivity|].
  intros H.
  specialize (H
    (mkEnv "/"
       (fun p : string =>
          if String.eqb p "/Users/alice/app" then Some Directory
          else if String.eqb p "/Users/alice/app/pubspec.yaml"
               then Some RegularFile else None)
       "id-1" 0 (fun _ => Ret "UDID-1") (fun _ => Ret tt)
       (fun _ => Ret tt) (fun _ => Ret tt)
       (fun _ => FlutterProcessManager.mkCleanupEnv true
                   FlutterProcessManager.WaitRejected))
    (mkParams "/Users/alice/app/" None) (create None) "UDID-1"
    eq_refl eq_refl eq_refl eq_refl eq_refl eq_refl).
  destruct H as (info & w' & Hrun & Hpath).
  vm_compute in Hrun. injection Hrun as <- _. vm_compute in Hpath.
  discriminate.
Qed.

(** C5 (amended): for every path whose resolved form begins with the
    allowed prefix, is a directory and holds [pubspec.yaml], and for
    which the simulator is created and booted, [createSession] succeeds
    and the path in the returned info and in the stored session is the
    input path as it was given; it is the resolved form when the input
    already is. *)
Theorem C5_session_keeps_given_path env params w udid :
  let resolvedPath := Path.resolve (cwd env) [param_worktreePath params] in
  let deviceType := default "iPhone 16 Pro" (param_deviceType params) in
  Js.startsWith resolvedPath (allowedPathPrefix w) = true ->
  isDirectory (fs env) resolvedPath = true ->
  existsSync (fs env) (Path.join [resolvedPath; "pubspec.yaml"]) = true ->
  createSimulator env deviceType = Ret udid ->
  bootSimulator env udid = Ret tt ->
  exists info w' session,
    createSession env params w = (Ret info, w')
    /\ info_worktreePath info = param_worktreePath params
    /\ sessionState w' !! info_id info = Some session
    /\ worktreePath session = param_worktreePath params
    /\ info = toInfo session
    /\ (param_worktreePath params = resolvedPath ->
        info_worktreePath info = resolvedPath).
Proof.
  intros resolvedPath deviceType Hprefix Hdir Hpub Hcreate Hboot.
  rewrite createSession_eq. cbv zeta. fold resolvedPath deviceType.
  assert (Hex : existsSync (fs env) resolvedPath = true).
  { unfold existsSync, isDirectory in *. by destruct (fs env resolvedPath). }
  rewrite Hprefix, Hex, Hdir, Hpub, Hcreate, Hboot. cbn [negb].
  eexists _, _, _. split; [reflexivity|]. cbn.
  split; [done|]. split; [apply lookup_insert_eq|]. by repeat split.
Qed.

Lemma C5_session_keeps_given_path_witness :
  let fs := fun p : string =>
    if String.eqb p "/Users/alice/app" then Some Directory
    else if String.eqb p "/Users/alice/app/pubspec.yaml"
         then Some RegularFile else None in
  let env :=
    mkEnv "/" fs "id-1" 0 (fun _ => Ret "UDID-1") (fun _ => Ret tt)
      (fun _ => Ret tt) (fun _ => Ret tt)
      (fun _ => FlutterProcessManager.mkCleanupEnv true
                  FlutterProcessManager.WaitRejected) in
  let params := mkParams "/Users/alice/app" None in
  exists info w' session,
    createSession env params (create None) = (Ret info, w')
    /\ info_worktreePath info = "/Users/alice/app"
    /\ sessionState w' !! info_id info = Some session
    /\ worktreePath session = "/Users/alice/app"
    /\ info = toInfo session
    /\ ("/Users/alice/app" = "/Users/alice/app" ->
        info_worktreePath info = "/Users/alice/app").
Proof.
  cbv zeta.
  exact (C5_session_keeps_given_path
    (mkEnv "/"
       (fun p : string =>
          if String.eqb p "/Users/alice/app" then Some Directory
          else if String.eqb p "/Users/alice/app/pubspec.yaml"
               then Some RegularFile else None)
       "id-1" 0 (fun _ => Ret "UDID-1") (fun _ => Ret tt)
       (fun _ => Ret tt) (fun _ => Ret tt)
       (fun _ => FlutterProcessManager.mkCleanupEnv true
                   FlutterProcessManager.WaitRejected))
    (mkParams "/Users/alice/app" None) (create None) "UDID-1"
    eq_refl eq_refl eq_refl eq_refl eq_refl).
Defined.

End SessionClaims.

(** * Further properties of the code *)

(** ** LogBuffer *)

Section LogBufferMore.
Import LogBuffer.

Lemma bufferInv_create C : 0 <= C -> bufferInv (create (Some C)).
Proof. intros HC. unfold bufferInv. cbn. repeat split; lia. Qed.

Lemma tail_seqZ a (n : nat) :
  tail (seqZ a (Z.of_nat (S n))) = seqZ (a + 1) (Z.of_nat n).
Proof.
  rewrite seqZ_cons by lia. cbn [tail]. f_equal; lia.
Qed.

Lemma map_tail {A B} (f : A -> B) (l : list A) :
  map f (tail l) = tail (map f l).
Proof. by destruct l. Qed.

Lemma bufferInv_append now l b : bufferInv b -> bufferInv (append now l b).
Proof.
  unfold bufferInv. cbv zeta. intros (HC & Hlen & Hci & Hidx).
  unfold append. cbn [logs currentIndex maxLines].
  set (e := mkEntry l now (currentIndex b)).
  assert (Hpushed : map index (logs b ++ [e])
    = seqZ (currentIndex b - Z.of_nat (length (logs b)))
        (Z.of_nat (S (length (logs b))))).
  { rewrite map_app, Hidx, seqZ_S. cbn. do 2 f_equal. lia. }
  rewrite length_app. cbn [length].
  destruct (Z.gtb_spec (Z.of_nat (length (logs b) + 1)) (maxLines b)) as [Hgt|Hle].
  - assert (Hl : length (tail (logs b ++ [e])) = length (logs b)).
    { destruct (logs b); cbn; [done|]. rewrite length_app. cbn. lia. }
    rewrite Hl. split; [done|]. split; [done|]. split; [lia|].
    rewrite map_tail, Hpushed, tail_seqZ. f_equal. lia.
  - rewrite length_app. cbn [length]. split; [done|]. split; [lia|].
    split; [lia|]. rewrite Hpushed. f_equal; lia.
Qed.

Lemma bufferInv_clear b : bufferInv b -> bufferInv (clear b).
Proof.
  unfold bufferInv. cbv zeta. intros (HC & _). cbn. repeat split; lia.
Qed.

Lemma bufferInv_run ops : forall b, bufferInv b -> bufferInv (fst (run b ops)).
Proof.
  induction ops as [|o ops IH]; intros b Hb; [done|].
  cbn [run]. destruct (step b o) as [b' i] eqn:Hstep.
  assert (Hb' : bufferInv b').
  { destruct o; cbn in Hstep; injection Hstep as <- _;
      auto using bufferInv_append, bufferInv_clear. }
  specialize (IH b' Hb'). by destruct (run b' ops).
Qed.

Lemma run_maxLines ops : forall b, maxLines (fst (run b ops)) = maxLines b.
Proof.
  induction ops as [|o ops IH]; intros b; [done|].
  cbn [run]. destruct (step b o) as [b' i] eqn:Hstep.
  specialize (IH b'). destruct (run b' ops) as [b'' ks]. cbn [fst] in *.
  rewrite IH. by destruct o; cbn in Hstep; injection Hstep as <- _.
Qed.

(** X1: a buffer built with capacity [C >= 0] never holds more than [C]
    entries, whatever appends, reads and clears are applied to it, and
    the entries it holds always carry the consecutive indices that end
    just below the next index. *)
Theorem X1_buffer_bounded_and_consecutive (C : Z) (ops : list Op) :
  0 <= C ->
  let b := fst (run (create (Some C)) ops) in
  getTotalLines b <= C
  /\ getTotalLines b <= getNextIndex b
  /\ map index (logs b)
     = seqZ (getNextIndex b - getTotalLines b) (getTotalLines b).
Proof.
  intros HC b.
  pose proof (bufferInv_run ops _ (bufferInv_create C HC)) as Hinv.
  pose proof (run_maxLines ops (create (Some C))) as Hmax.
  fold b in Hinv, Hmax. unfold bufferInv in Hinv. cbv zeta in Hinv.
  destruct Hinv as (_ & Hlen & Hci & Hidx).
  unfold getTotalLines, getNextIndex. rewrite Hmax in Hlen. by repeat split.
Qed.

Lemma X1_buffer_bounded_and_consecutive_witness :
  let b := fst (run (create (Some 2))
                  [OpAppend 1 "a"; OpAppend 2 "b"; OpClear; OpAppend 3 "c";
                   OpAppend 4 "d"; OpAppend 5 "e"]) in
  getTotalLines b <= 2 /\ map index (logs b) = [1; 2].
Proof.
  cbv zeta.
  destruct (X1_buffer_bounded_and_consecutive 2
              [OpAppend 1 "a"; OpAppend 2 "b"; OpClear; OpAppend 3 "c";
               OpAppend 4 "d"; OpAppend 5 "e"] ltac:(lia)) as (H1 & _ & H3).
  split; [exact H1|]. rewrite H3. reflexivity.
Defined.

(** X2: however many lines are appended to a new buffer of capacity
    [C >= 0], it holds the last [min N C] of them and the next index is
    [N]; in particular nothing is evicted while [N <= C]. *)
Theorem X2_buffer_keeps_latest (C : Z) (ls : list (Z * string)) :
  0 <= C ->
  let N := Z.of_nat (length ls) in
  let b := appendAll ls (create (Some C)) in
  getTotalLines b = Z.min N C
  /\ getNextIndex b = N
  /\ logs b = numbered (Z.max 0 (N - C)) (drop (Z.to_nat (N - C)) ls)
  /\ (N <= C -> logs b = numbered 0 ls).
Proof.
  intros HC N b.
  destruct (appendAll_fresh C ls HC) as (Hi & Hm & Hl). fold b in Hi, Hm, Hl.
  assert (Hlogs : logs b
    = numbered (Z.max 0 (N - C)) (drop (Z.to_nat (N - C)) ls)).
  { rewrite Hl, drop_numbered. unfold N.
    replace (Z.to_nat (Z.of_nat (length ls) - C))
      with (length ls - Z.to_nat C)%nat by lia.
    f_equal. lia. }
  split.
  { unfold getTotalLines. rewrite Hlogs, numbered_length, length_drop.
    unfold N. lia. }
  split; [exact Hi|]. split; [exact Hlogs|].
  intros HN. rewrite Hlogs.
  replace (Z.to_nat (N - C)) with O by lia. rewrite drop_0. f_equal. lia.
Qed.

Lemma X2_buffer_keeps_latest_witness :
  logs (appendAll [(1, "a"); (2, "b")] (create (Some 5)))
  = [mkEntry "a" 1 0; mkEntry "b" 2 1].
Proof.
  destruct (X2_buffer_keeps_latest 5 [(1, "a"); (2, "b")] ltac:(lia))
    as (_ & _ & _ & H).
  rewrite H by (simpl; lia). reflexivity.
Defined.

(** X3: [getRecentLines(count)] returns the text of the last [count]
    entries in their order, all of them when the buffer holds fewer, and
    nothing when [count] is zero or negative. *)
Theorem X3_recent_lines (count : Z) (b : t) :
  let all := map line (logs b) in
  let recent := getRecentLines count b in
  Z.of_nat (length recent) = Z.min (Z.max 0 count) (getTotalLines b)
  /\ (exists older, all = older ++ recent)
  /\ (count <= 0 -> recent = [])
  /\ (getTotalLines b <= count -> recent = all).
Proof.
  cbv zeta. unfold getRecentLines, getTotalLines.
  set (n := length (logs b)).
  set (start := Z.to_nat (Z.max 0 (Z.of_nat n - count))).
  split; [|split; [|split]].
  - rewrite length_map, length_drop. fold n. lia.
  - exists (map line (take start (logs b))).
    by rewrite <- map_app, take_drop.
  - intros Hc. rewrite drop_ge; [done|]. fold n. lia.
  - intros Hc. replace start with O by lia. by rewrite drop_0.
Qed.

Lemma X3_recent_lines_witness :
  getRecentLines 5 (appendAll [(1, "a"); (2, "b")] (create None))
  = ["a"; "b"].
Proof.
  destruct (X3_recent_lines 5
              (appendAll [(1, "a"); (2, "b")] (create None)))
    as (_ & _ & _ & H).
  rewrite H by (vm_compute; discriminate). reflexivity.
Defined.

(** The state of any well-formed buffer after more appends. *)
Lemma appendAll_inv b ls :
  bufferInv b ->
  currentIndex (appendAll ls b) = currentIndex b + Z.of_nat (length ls)
  /\ maxLines (appendAll ls b) = maxLines b
  /\ logs (appendAll ls b)
     = drop (length (logs b) + length ls - Z.to_nat (maxLines b))
         (logs b ++ numbered (currentIndex b) ls).
Proof.
  intros (HC & Hlen & _ & _).
  induction ls as [|[now l] ls IH] using rev_ind.
  - cbn. split; [lia|]. split; [done|].
    replace (length (logs b) + 0 - Z.to_nat (maxLines b))%nat with O by lia.
    by rewrite drop_0, app_nil_r.
  - rewrite appendAll_snoc. destruct IH as (Hi & Hm & Hl).
    unfold append. cbn [currentIndex maxLines logs].
    rewrite Hi, Hm, Hl. rewrite length_app. cbn [length].
    split; [lia|]. split; [done|].
    rewrite numbered_app. cbn [numbered].
    set (e := mkEntry l now (currentIndex b + Z.of_nat (length ls))).
    rewrite app_assoc.
    set (full := logs b ++ numbered (currentIndex b) ls).
    assert (Hfull : length full = (length (logs b) + length ls)%nat).
    { unfold full. by rewrite length_app, numbered_length. }
    rewrite length_app, length_drop, Hfull. cbn [length].
    set (d := (length (logs b) + length ls - Z.to_nat (maxLines b))%nat).
    destruct (Z.gtb_spec
                (Z.of_nat (length (logs b) + length ls - d + 1)) (maxLines b))
      as [Hgt|Hle].
    + replace (length (logs b) + (length ls + 1) - Z.to_nat (maxLines b))%nat
        with (S d) by lia.
      apply tail_drop_snoc. lia.
    + replace (length (logs b) + (length ls + 1) - Z.to_nat (maxLines b))%nat
        with O by lia.
      replace d with O by lia. by rewrite !drop_0.
Qed.

Lemma filter_below k (l : list LogEntry) :
  Forall (fun e => index e < k) l ->
  List.filter (fun e => index e >=? k) l = [].
Proof.
  induction 1 as [|e l He _ IH]; [done|].
  cbn. destruct (Z.geb_spec (index e) k); [lia | exact IH].
Qed.

Lemma bufferInv_below b :
  bufferInv b -> Forall (fun e => index e < currentIndex b) (logs b).
Proof.
  intros (_ & _ & _ & Hidx).
  assert (H : Forall (fun k => k < currentIndex b) (map index (logs b))).
  { rewrite Hidx. apply Forall_seqZ. intros k Hk. lia. }
  by apply Forall_map in H.
Qed.

(** X4: reading in steps. A reader that remembers the next index of a
    buffer and later asks for the entries from that index on gets exactly
    the lines appended in between, with consecutive indices starting at
    the remembered one, provided no more lines arrived than the capacity
    and the limit allow. *)
Theorem X4_read_from_remembered_index (b : t) (ls : list (Z * string))
    (limit : option Z) :
  bufferInv b ->
  Z.of_nat (length ls) <= maxLines b ->
  Z.of_nat (length ls) <= default 100 limit ->
  0 < default 100 limit ->
  getLogs (Some (getNextIndex b)) limit (appendAll ls b)
  = Ret (numbered (getNextIndex b) ls).
Proof.
  intros Hinv Hcap Hlim Hpos.
  destruct (appendAll_inv b ls Hinv) as (_ & _ & Hl).
  pose proof (bufferInv_below b Hinv) as Hbelow.
  destruct Hinv as (HC & Hlen & Hci & _).
  unfold getLogs, getNextIndex.
  destruct (Z.ltb_spec (currentIndex b) 0); [lia|].
  destruct (Z.leb_spec (default 100 limit) 0); [lia|].
  f_equal. rewrite Hl.
  rewrite drop_app_le by lia.
  rewrite List.filter_app, filter_below, filter_numbered.
  - cbn [app]. replace (Z.to_nat (currentIndex b - currentIndex b)) with O by lia.
    rewrite drop_0. replace (Z.max (currentIndex b) (currentIndex b))
      with (currentIndex b) by lia.
    apply firstn_all2. rewrite numbered_length. lia.
  - apply Forall_drop. exact Hbelow.
Qed.

Lemma X4_read_from_remembered_index_witness :
  let b := appendAll [(1, "a"); (2, "b"); (3, "c")] (create (Some 2)) in
  getLogs (Some 3) None (appendAll [(4, "d"); (5, "e")] b)
  = Ret [mkEntry "d" 4 3; mkEntry "e" 5 4].
Proof.
  cbv zeta.
  apply (X4_read_from_remembered_index
           (appendAll [(1, "a"); (2, "b"); (3, "c")] (create (Some 2)))
           [(4, "d"); (5, "e")] None).
  - apply (bufferInv_run
             [OpAppend 1 "a"; OpAppend 2 "b"; OpAppend 3 "c"]
             (create (Some 2))).
    apply bufferInv_create. lia.
  - vm_compute. discriminate.
  - vm_compute. discriminate.
  - reflexivity.
Defined.

End LogBufferMore.

(** ** FlutterProcessManager: commands *)

Section CommandFacts.
Import FlutterProcessManager.

Lemma stop_eq ok s :
  stop ok s
  = match process s with
    | None => (Ret false, emit (Warned "No Flutter process to stop") s)
    | Some _ =>
        if ok
        then (Ret true,
              emit StdinEnd (emit (StdinWrite ("q" +:+ String Js.LF "")) s))
        else (Throw StdinFailure, s)
    end.
Proof.
  unfold stop. unfold_monad. destruct (process s); [|done]. by destruct ok.
Qed.

Lemma hotReload_eq ok s :
  hotReload ok s
  = match process s with
    | None => (Ret false, emit (Warned "No Flutter process for hot reload") s)
    | Some _ =>
        if ok
        then (Ret true, emit (StdinWrite ("r" +:+ String Js.LF "")) s)
        else (Throw StdinFailure, s)
    end.
Proof.
  unfold hotReload. unfold_monad. destruct (process s); [|done]. by destruct ok.
Qed.

Lemma hotRestart_eq ok s :
  hotRestart ok s
  = match process s with
    | None => (Ret false, emit (Warned "No Flutter process for hot restart") s)
    | Some _ =>
        if ok
        then (Ret true, emit (StdinWrite ("R" +:+ String Js.LF "")) s)
        else (Throw StdinFailure, s)
    end.
Proof.
  unfold hotRestart. unfold_monad. destruct (process s); [|done].
  by destruct ok.
Qed.

Lemma kill_eq signal delivered s :
  kill signal delivered s
  = match process s with
    | None => (Ret false, s)
    | Some _ => (Ret delivered, emit (Killed (default "SIGTERM" signal)) s)
    end.
Proof. unfold kill. unfold_monad. by destruct (process s). Qed.

(** X5: a manager whose process was never started, or has exited since
    the last start, answers [stop], [hotReload], [hotRestart] and [kill]
    with [false]: none of them throws, writes to an input stream or sends
    a signal. *)
Theorem X5_commands_without_process maxLogLines acts ok signal delivered :
  handleAttached (create maxLogLines) false acts = false ->
  let s := run (create maxLogLines) acts in
  stop ok s = (Ret false, emit (Warned "No Flutter process to stop") s)
  /\ hotReload ok s
     = (Ret false, emit (Warned "No Flutter process for hot reload") s)
  /\ hotRestart ok s
     = (Ret false, emit (Warned "No Flutter process for hot restart") s)
  /\ kill signal delivered s = (Ret false, s).
Proof.
  intros Hnot s.
  assert (Hp : process s = None).
  { destruct (process s) as [h|] eqn:Hp; [|done]. exfalso.
    assert (Hsome : is_Some (process (run (create maxLogLines) acts)))
      by (by eexists).
    apply (handleAttached_sound acts (create maxLogLines) false) in Hsome.
    - congruence.
    - split; [intros [? ?]; done | done]. }
  rewrite stop_eq, hotReload_eq, hotRestart_eq, kill_eq, Hp. by repeat split.
Qed.

Lemma X5_commands_without_process_witness :
  let env := mkStartEnv "/" (fun _ => None) 0 (mkSpawned (Some 4242)) in
  let options := mkOptions "/Users/alice/app" "UDID" None None None in
  let s := run (create None)
             [Start env options; Output 1 "Syncing files"; Exit 2 (Some 1) None] in
  fst (stop true s) = Ret false /\ fst (kill None true s) = Ret false.
Proof.
  cbv zeta.
  destruct (X5_commands_without_process None
    [Start (mkStartEnv "/" (fun _ => None) 0 (mkSpawned (Some 4242)))
       (mkOptions "/Users/alice/app" "UDID" None None None);
     Output 1 "Syncing files"; Exit 2 (Some 1) None]
    true None true eq_refl) as (H1 & _ & _ & H4).
  cbv zeta in H1, H4. rewrite H1, H4. by split.
Defined.

(** X6: [stop], [hotReload], [hotRestart] and [kill] leave the handle, the
    status record, the log and the subscribers as they are, whatever their
    outcome: only the exit callback ends a run. On an attached process
    they write [q] and close the input, write [r], write [R], and send the
    signal ([SIGTERM] unless another is named). *)
Theorem X6_commands_change_nothing_but_io s a :
  isCommand a = true ->
  let s' := snd (step s a) in
  (process s' = process s
   /\ flutterProcess s' = flutterProcess s
   /\ logBuffer s' = logBuffer s
   /\ logSubscribers s' = logSubscribers s)
  /\ (is_Some (process s) ->
      forall signal delivered,
        effects (snd (stop true s))
        = effects s ++ [StdinWrite ("q" +:+ String Js.LF ""); StdinEnd]
        /\ effects (snd (hotReload true s))
           = effects s ++ [StdinWrite ("r" +:+ String Js.LF "")]
        /\ effects (snd (hotRestart true s))
           = effects s ++ [StdinWrite ("R" +:+ String Js.LF "")]
        /\ kill signal delivered s
           = (Ret delivered, emit (Killed (default "SIGTERM" signal)) s)).
Proof.
  intros Ha. cbv zeta. split.
  - destruct a; try discriminate; cbn [step];
      rewrite ?stop_eq, ?hotReload_eq, ?hotRestart_eq, ?kill_eq;
      destruct (process s) eqn:Hp; try destruct stdinOk0; cbn;
      by rewrite ?Hp.
  - intros [h Hh] signal delivered.
    rewrite stop_eq, hotReload_eq, hotRestart_eq, kill_eq, Hh. cbn.
    by rewrite <- app_assoc.
Qed.

Lemma X6_commands_change_nothing_but_io_witness :
  let env := mkStartEnv "/" (fun _ => None) 0 (mkSpawned (Some 4242)) in
  let options := mkOptions "/Users/alice/app" "UDID" None None None in
  let s := run (create None) [Start env options] in
  status <$> flutterProcess (snd (step s (Stop true))) = Some running
  /\ is_Some (process (snd (step s (Stop true)))).
Proof.
  cbv zeta.
  destruct (X6_commands_change_nothing_but_io
    (run (create None)
       [Start (mkStartEnv "/" (fun _ => None) 0 (mkSpawned (Some 4242)))
          (mkOptions "/Users/alice/app" "UDID" None None None)])
    (Stop true) eq_refl) as ((Hp & Hf & _) & _).
  cbv zeta in Hp, Hf. rewrite Hp, Hf. split; [reflexivity | by eexists].
Defined.

End CommandFacts.

(** ** FlutterProcessManager: what [start] guarantees *)

Section StartMore.
Import FlutterProcessManager.

Lemma allChars_forall f str :
  allChars f str = true <-> forall c, In c (chars str) -> f c = true.
Proof.
  induction str as [|c str IH]; cbn [allChars chars].
  - split; [by intros _ c [] | done].
  - rewrite andb_true_iff, IH. split.
    + intros [Hc Hall] d [<-|Hd]; auto.
    + intros H. split; [apply H; by left|]. intros d Hd. apply H. by right.
Qed.

(** X7: whenever [start] throws, whatever the error, the manager is left
    exactly as it was: nothing was spawned, no status record was created,
    the log and the subscribers are untouched. *)
Theorem X7_start_failure_changes_nothing env options s e :
  fst (start env options s) = Throw e ->
  snd (start env options s) = s.
Proof.
  rewrite start_eq. case_bool_decide; [done|].
  destruct (checkTarget env options); [done|].
  destruct (checkFlavor options); [done|].
  by destruct (checkAdditionalArgs options).
Qed.

Lemma X7_start_failure_changes_nothing_witness :
  let env := mkStartEnv "/" (fun _ => None) 0 (mkSpawned (Some 4242)) in
  let options :=
    mkOptions "/Users/alice/app" "UDID" None (Some "dev;reboot") None in
  snd (start env options (create None)) = create None.
Proof.
  cbv zeta.
  exact (X7_start_failure_changes_nothing
    (mkStartEnv "/" (fun _ => None) 0 (mkSpawned (Some 4242)))
    (mkOptions "/Users/alice/app" "UDID" None (Some "dev;reboot") None)
    (create None) (InvalidFlavor "dev;reboot") eq_refl).
Defined.

(** X8: when [start] returns, no handle was attached before; exactly one
    process was spawned, the command [flutter] run in the project
    directory with the arguments [run -d <deviceId>], then [-t <target>],
    [--flavor <flavor>] and the additional arguments where given; every
    one of these inputs passed its check; the new handle is attached; the
    returned record is the stored one, [running] with the reported process
    id when there is one and [starting] with id 0 otherwise; the log and
    the subscribers of earlier runs are kept. *)
Theorem X8_start_success env options s fp s' :
  start env options s = (Ret fp, s') ->
  process s = None
  /\ process s' = Some (spawned env)
  /\ flutterProcess s' = Some fp
  /\ effects s'
     = effects s
       ++ [Spawned "flutter"
             (["run"; "-d"; deviceId options]
              ++ match Js.given (target options) with
                 | Some tgt => ["-t"; tgt] | None => [] end
              ++ match Js.given (flavor options) with
                 | Some f => ["--flavor"; f] | None => [] end
              ++ default [] (additionalArgs options))
             (worktreePath options)]
  /\ logBuffer s' = logBuffer s
  /\ logSubscribers s' = logSubscribers s
  /\ fp = match handle_pid (spawned env) with
          | Some p =>
              if p =? 0 then mkFlutterProcess 0 starting (now env) None None
              else mkFlutterProcess p running (now env) None None
          | None => mkFlutterProcess 0 starting (now env) None None
          end
  /\ (forall tgt, Js.given (target options) = Some tgt ->
        let targetPath := Path.resolve (cwd env) [worktreePath options; tgt] in
        Js.startsWith targetPath (Path.resolve (cwd env) [worktreePath options])
        = true
        /\ existsSync (fs env) targetPath = true
        /\ Js.endsWith targetPath ".dart" = true)
  /\ (forall f, Js.given (flavor options) = Some f ->
        f <> "" /\ forall c, In c (chars f) -> isFlavorChar c = true)
  /\ (forall args, additionalArgs options = Some args ->
        Forall acceptable args).
Proof.
  rewrite start_eq. case_bool_decide as Hp; [done|].
  destruct (checkTarget env options) eqn:Ht; [done|].
  destruct (checkFlavor options) eqn:Hf; [done|].
  destruct (checkAdditionalArgs options) eqn:Ha; [done|].
  intros [= <- <-]. cbn [process flutterProcess effects logBuffer logSubscribers].
  split. { destruct (process s); [|done]. exfalso. apply Hp. by eexists. }
  split; [done|]. split; [done|]. split.
  { unfold buildArgs. by destruct (additionalArgs options). }
  split; [done|]. split; [done|]. split.
  { unfold startedProcess, observedPid.
    destruct (handle_pid (spawned env)) as [p|]; [|done].
    by destruct (p =? 0). }
  split; [|split].
  - intros tgt Htgt. cbv zeta. unfold checkTarget in Ht. rewrite Htgt in Ht.
    destruct (Js.startsWith _ _); [|done]. cbn [negb] in Ht.
    destruct (existsSync _ _); [|done]. cbn [negb] in Ht.
    by destruct (Js.endsWith _ _).
  - intros f Hfl. unfold checkFlavor in Hf. rewrite Hfl in Hf.
    destruct (flavorRegex f) eqn:Hre; [|done].
    unfold flavorRegex in Hre. apply andb_prop in Hre as [Hne Hall].
    split; [by destruct f|]. by apply allChars_forall.
  - intros args Hargs. unfold checkAdditionalArgs in Ha. rewrite Hargs in Ha.
    apply checkArgs_none in Ha. eapply Forall_impl; [exact Ha|].
    intros a. apply checkArg_none_iff.
Qed.

Lemma X8_start_success_witness :
  let fs := fun p : string =>
    if String.eqb p "/Users/alice/app/lib/main.dart"
    then Some RegularFile else None in
  let env := mkStartEnv "/" fs 7 (mkSpawned (Some 4242)) in
  let options :=
    mkOptions "/Users/alice/app" "UDID" (Some "lib/main.dart") (Some "dev")
      (Some ["--release"]) in
  effects (snd (start env options (create None)))
  = [Spawned "flutter"
       ["run"; "-d"; "UDID"; "-t"; "lib/main.dart"; "--flavor"; "dev";
        "--release"]
       "/Users/alice/app"].
Proof.
  cbv zeta.
  match goal with
  | |- effects (snd (start ?env ?options ?s)) = _ =>
      assert (Hrun : start env options s
                = (Ret (mkFlutterProcess 4242 running 7 None None),
                   snd (start env options s)))
        by (vm_compute; reflexivity);
      destruct (X8_start_success env options s _ _ Hrun)
        as (_ & _ & _ & He & _)
  end.
  rewrite He. reflexivity.
Defined.

End StartMore.

(** ** FlutterProcessManager: flavor, target and empty options *)

Section StartChecks.
Import FlutterProcessManager.

Lemma allChars_false f str :
  allChars f str = false -> exists c, In c (chars str) /\ f c = false.
Proof.
  induction str as [|c str IH]; cbn [allChars chars]; [done|].
  destruct (f c) eqn:Hc; cbn [andb].
  - intros H. destruct (IH H) as (d & Hd & Hf). exists d. split; [by right|done].
  - intros _. exists c. split; [by left|done].
Qed.

Lemma start_not_flavor_error env options s f :
  checkFlavor options = None ->
  start env options s <> (Throw (InvalidFlavor f), s).
Proof.
  intros Hf. rewrite start_eq. case_bool_decide; [done|].
  destruct (checkTarget env options) as [e|] eqn:Ht.
  { apply checkTarget_error in Ht as (tgt & _ & [->| [->| ->]]); congruence. }
  rewrite Hf.
  destruct (checkAdditionalArgs options) as [e|] eqn:Ha; [|done].
  unfold checkAdditionalArgs in Ha. destruct (additionalArgs options); [|done].
  apply checkArgs_error in Ha as (pre & arg & post & _ & _ & Harg).
  apply checkArg_error in Harg as [->| ->]; congruence.
Qed.

(** X9: with no process attached and the target accepted, a flavor that
    is not empty makes [start] throw the invalid-flavor error, before
    anything is spawned, exactly when it holds a character other than a
    letter, a digit, [_] or [-]. *)
Theorem X9_flavor_check env options s f :
  process s = None ->
  checkTarget env options = None ->
  flavor options = Some f ->
  f <> "" ->
  start env options s = (Throw (InvalidFlavor f), s)
  <-> exists c, In c (chars f) /\ isFlavorChar c = false.
Proof.
  intros Hp Ht Hf Hne.
  assert (Hgiven : Js.given (flavor options) = Some f).
  { rewrite Hf. by destruct f. }
  destruct (allChars isFlavorChar f) eqn:Hall.
  - split.
    + intros H. exfalso. revert H. apply start_not_flavor_error.
      unfold checkFlavor, flavorRegex. rewrite Hgiven, Hall. by destruct f.
    + intros (c & Hc & Hbad).
      pose proof (proj1 (allChars_forall isFlavorChar f) Hall c Hc). congruence.
  - split; [intros _; by apply allChars_false|]. intros _.
    rewrite start_eq, Hp, Ht. unfold checkFlavor, flavorRegex.
    rewrite Hgiven, Hall, andb_false_r. cbn [negb].
    rewrite bool_decide_false; [done|]. by intros [? ?].
Qed.

Lemma X9_flavor_check_witness :
  let env := mkStartEnv "/" (fun _ => None) 0 (mkSpawned (Some 4242)) in
  let options :=
    mkOptions "/Users/alice/app" "UDID" None (Some "dev;reboot") None in
  start env options (create None)
  = (Throw (InvalidFlavor "dev;reboot"), create None).
Proof.
  cbv zeta.
  apply (X9_flavor_check
    (mkStartEnv "/" (fun _ => None) 0 (mkSpawned (Some 4242)))
    (mkOptions "/Users/alice/app" "UDID" None (Some "dev;reboot") None)
    (create None) "dev;reboot" eq_refl eq_refl eq_refl ltac:(discriminate)).
  exists ";"%char. split; [vm_compute; tauto | reflexivity].
Defined.

(** X10: with no process attached, a target that is not empty is judged
    on its resolved path, in this order: it must begin with the characters
    of the resolved project path (else the outside-project error), exist
    (else the does-not-exist error) and end in [.dart] (else the not-Dart
    error); each error names the target as given and leaves the manager
    untouched. A target inside the project directory that exists and ends
    in [.dart] passes. *)
Theorem X10_target_checks env options s tgt :
  process s = None ->
  target options = Some tgt ->
  tgt <> "" ->
  let project := Path.resolve (cwd env) [worktreePath options] in
  let targetPath := Path.resolve (cwd env) [worktreePath options; tgt] in
  (Js.startsWith targetPath project = false ->
     start env options s = (Throw (TargetOutsideProject tgt), s))
  /\ (Js.startsWith targetPath project = true ->
      existsSync (fs env) targetPath = false ->
      start env options s = (Throw (TargetDoesNotExist tgt), s))
  /\ (Js.startsWith targetPath project = true ->
      existsSync (fs env) targetPath = true ->
      Js.endsWith targetPath ".dart" = false ->
      start env options s = (Throw (TargetNotDart tgt), s))
  /\ (withinDirectory project targetPath ->
      existsSync (fs env) targetPath = true ->
      Js.endsWith targetPath ".dart" = true ->
      checkTarget env options = None).
Proof.
  intros Hp Htgt Hne project targetPath.
  assert (Hgiven : Js.given (target options) = Some tgt).
  { rewrite Htgt. by destruct tgt. }
  assert (Hno : bool_decide (is_Some (process s)) = false).
  { rewrite Hp. apply bool_decide_false. by intros [? ?]. }
  split; [|split; [|split]].
  - intros H1. rewrite start_eq, Hno. unfold checkTarget. rewrite Hgiven.
    fold project targetPath. by rewrite H1.
  - intros H1 H2. rewrite start_eq, Hno. unfold checkTarget. rewrite Hgiven.
    fold project targetPath. by rewrite H1, H2.
  - intros H1 H2 H3. rewrite start_eq, Hno. unfold checkTarget.
    rewrite Hgiven. fold project targetPath. by rewrite H1, H2, H3.
  - intros Hin H2 H3. unfold checkTarget. rewrite Hgiven.
    fold project targetPath.
    assert (H1 : Js.startsWith targetPath project = true).
    { apply startsWith_iff. destruct Hin as [->|[rest ->]].
      - exists "". clear. induction project as [|c p IH]; [done|].
        change (String c p = String c (p +:+ "")). by rewrite <- IH.
      - eexists. reflexivity. }
    by rewrite H1, H2, H3.
Qed.

Lemma X10_target_checks_witness :
  let fs := fun p : string =>
    if String.eqb p "/Users/alice/app/README.md"
    then Some RegularFile else None in
  let env := mkStartEnv "/" fs 0 (mkSpawned (Some 4242)) in
  let options :=
    mkOptions "/Users/alice/app" "UDID" (Some "README.md") None None in
  start env options (create None)
  = (Throw (TargetNotDart "README.md"), create None).
Proof.
  cbv zeta.
  refine (proj1 (proj2 (proj2 (X10_target_checks
    (mkStartEnv "/"
       (fun p : string =>
          if String.eqb p "/Users/alice/app/README.md"
          then Some RegularFile else None) 0 (mkSpawned (Some 4242)))
    (mkOptions "/Users/alice/app" "UDID" (Some "README.md") None None)
    (create None) "README.md" eq_refl eq_refl ltac:(discriminate))))
    eq_refl eq_refl eq_refl).
Defined.

(** X11: an empty string given as target or as flavor counts as not
    given: it is not checked and adds no argument, so [start] behaves as
    it does without it. *)
Theorem X11_empty_target_and_flavor_ignored env s wt dev tgt fl args :
  start env (mkOptions wt dev (Some "") fl args) s
  = start env (mkOptions wt dev None fl args) s
  /\ start env (mkOptions wt dev tgt (Some "") args) s
     = start env (mkOptions wt dev tgt None args) s.
Proof. by rewrite !start_eq. Qed.

End StartChecks.

(** ** FlutterProcessManager: subscribers *)

Section SubscriberFacts.
Import FlutterProcessManager.

Lemma deliveries_to_absent cb subs l :
  Forall (fun sub => callback sub <> cb) subs ->
  List.filter (isDeliveryTo cb) (deliveries subs l) = [].
Proof.
  induction 1 as [|sub subs Hsub _ IH]; [done|].
  cbn [deliveries flat_map]. rewrite List.filter_app. fold (deliveries subs l).
  rewrite IH, app_nil_r.
  assert (Hneq : Nat.eqb (callback sub) cb = false) by by apply Nat.eqb_neq.
  destruct (throwsOn sub l); cbn; by rewrite Hneq.
Qed.

Lemma lineEffects_to_absent cb subs isTracked ls :
  Forall (fun sub => callback sub <> cb) subs ->
  List.filter (isDeliveryTo cb) (flat_map (lineEffects subs isTracked) ls) = [].
Proof.
  intros Hsubs. induction ls as [|l ls IH]; [done|].
  cbn [flat_map]. rewrite List.filter_app, IH, app_nil_r.
  unfold lineEffects. rewrite List.filter_app, deliveries_to_absent by done.
  by destruct (isTracked && isReloadMarker l).
Qed.

(** X12: once a callback is unsubscribed it is called for no further
    line, while every other subscriber still receives every non-blank
    line; subscribing a callback that is already subscribed changes
    nothing, so a line is never delivered to it twice. *)
Theorem X12_unsubscribe_stops_delivery now data s cb :
  let s' := handleOutput now data (unsubscribe cb s) in
  List.filter (isDeliveryTo cb) (effects s')
  = List.filter (isDeliveryTo cb) (effects s)
  /\ (forall sub l,
        In sub (logSubscribers s) -> callback sub <> cb ->
        In l (nonBlankLines data) ->
        In (Delivered (callback sub) l) (effects s'))
  /\ (forall sub,
        subscribeToLogs sub (subscribeToLogs sub s) = subscribeToLogs sub s).
Proof.
  cbv zeta.
  destruct (handleLines_spec now (Js.split Js.LF data) (unsubscribe cb s))
    as (_ & He & _). fold (handleOutput now data (unsubscribe cb s)) in He.
  fold (nonBlankLines data) in He. cbn [unsubscribe logSubscribers effects
    set_logSubscribers] in He.
  split; [|split].
  - rewrite He, List.filter_app, lineEffects_to_absent; [by rewrite app_nil_r|].
    apply Forall_forall. intros sub Hsub. apply list_elem_of_In in Hsub.
    apply filter_In in Hsub as [_ Hne].
    apply negb_true_iff, Nat.eqb_neq in Hne. exact Hne.
  - intros sub l Hsub Hne Hl. rewrite He. apply in_or_app. right.
    apply in_flat_map. exists l. split; [exact Hl|].
    unfold lineEffects. apply in_or_app. left.
    unfold deliveries. apply in_flat_map. exists sub. split; [|by left].
    apply filter_In. split; [exact Hsub|].
    by apply negb_true_iff, Nat.eqb_neq.
  - intros sub. unfold subscribeToLogs at 1.
    destruct (existsb _ (logSubscribers (subscribeToLogs sub s))) eqn:Hex;
      [done|]. exfalso.
    apply not_true_iff_false in Hex. apply Hex. apply existsb_exists.
    unfold subscribeToLogs.
    destruct (existsb _ (logSubscribers s)) eqn:Hex'.
    + by apply existsb_exists in Hex'.
    + exists sub. cbn. split; [apply in_or_app; right; by left|].
      apply Nat.eqb_refl.
Qed.

Lemma X12_unsubscribe_stops_delivery_witness :
  let a := mkSubscriber 1 (fun _ => false) in
  let b := mkSubscriber 2 (fun _ => false) in
  let s := subscribeToLogs b (subscribeToLogs a (create None)) in
  In (Delivered 2 "hello") (effects (handleOutput 0 "hello" (unsubscribe 1 s))).
Proof.
  cbv zeta.
  destruct (X12_unsubscribe_stops_delivery 0 "hello"
    (subscribeToLogs (mkSubscriber 2 (fun _ => false))
       (subscribeToLogs (mkSubscriber 1 (fun _ => false)) (create None))) 1)
    as (_ & H & _).
  cbv zeta in H.
  apply (H (mkSubscriber 2 (fun _ => false)) "hello").
  - vm_compute. auto.
  - discriminate.
  - vm_compute. auto.
Defined.

End SubscriberFacts.

(** ** FlutterProcessManager: the status over whole histories *)

Section StatusFacts.
Import FlutterProcessManager.

(** What each action does to the status record. *)
Lemma step_flutterProcess s a :
  flutterProcess (snd (step s a))
  = match a with
    | Start env _ =>
        match fst (step s a) with
        | None => Some (startedProcess env)
        | Some _ => flutterProcess s
        end
    | Output _ data =>
        if existsb isReloadMarker (nonBlankLines data)
        then set_status hot_reloading <$> flutterProcess s
        else flutterProcess s
    | Exit now code _ => exitedProcess now code <$> flutterProcess s
    | TimerFires =>
        match pendingTimers s with
        | O => flutterProcess s
        | S _ => set_status running <$> flutterProcess s
        end
    | _ => flutterProcess s
    end.
Proof.
  destruct a; cbn [step snd fst outcome].
  - rewrite start_eq. case_bool_decide; [done|].
    destruct (checkTarget env options); [done|].
    destruct (checkFlavor options); [done|].
    by destruct (checkAdditionalArgs options).
  - unfold handleOutput, nonBlankLines.
    by destruct (handleLines_spec now0 (Js.split Js.LF data) s)
      as (_ & _ & _ & _ & Hf & _).
  - unfold handleExit. destruct (flutterProcess s) eqn:Hfp; [done|].
    cbn. by rewrite Hfp.
  - unfold timerFires. destruct (pendingTimers s); [done|].
    cbn. destruct (flutterProcess s) eqn:Hfp; [done|]. cbn. by rewrite Hfp.
  - rewrite stop_eq. destruct (process s); [|done]. by destruct stdinOk0.
  - rewrite hotReload_eq. destruct (process s); [|done]. by destruct stdinOk0.
  - rewrite hotRestart_eq. destruct (process s); [|done]. by destruct stdinOk0.
  - rewrite kill_eq. by destruct (process s).
  - unfold getLogs. unfold_monad.
    by destruct (LogBuffer.getLogs fromIndex limit (logBuffer s)).
  - unfold subscribeToLogs. by destruct (existsb _ _).
  - done.
  - done.
  - unfold cleanupBegin. unfold_monad.
    destruct (process s) eqn:Hp; [|done].
    rewrite stop_eq. cbn [process set_logSubscribers]. rewrite Hp.
    by destruct stdinOk0.
  - unfold cleanupTimeout. unfold_monad. rewrite kill_eq.
    cbn [process emit]. by destruct (process s).
  - done.
Qed.

Lemma alive_set_status st fp :
  st <> stopped -> st <> failed -> alive fp -> alive (set_status st fp).
Proof. intros H1 H2 (_ & _ & H3 & H4). by repeat split. Qed.

Lemma alive_started env : alive (startedProcess env).
Proof.
  unfold startedProcess. by destruct (observedPid (spawned env)).
Qed.

Lemma attachedIsAlive_step s a :
  attachedIsAlive s -> attachedIsAlive (snd (step s a)).
Proof.
  unfold attachedIsAlive. intros Hs.
  rewrite step_process, step_flutterProcess.
  destruct a; try exact Hs.
  - destruct (fst (step s (Start env options))); [exact Hs|].
    intros _. exists (startedProcess env). split; [done|].
    apply alive_started.
  - intros Hp. destruct (Hs Hp) as (fp & Hfp & Hal). rewrite Hfp.
    destruct (existsb isReloadMarker (nonBlankLines data)); [|by exists fp].
    eexists. split; [reflexivity|]. by apply alive_set_status.
  - by intros [? ?].
  - intros Hp. destruct (Hs Hp) as (fp & Hfp & Hal). rewrite Hfp.
    destruct (pendingTimers s); [by exists fp|].
    eexists. split; [reflexivity|]. by apply alive_set_status.
Qed.

Lemma attachedIsAlive_run acts : forall s,
  attachedIsAlive s -> attachedIsAlive (run s acts).
Proof.
  induction acts as [|a acts IH]; intros s Hs; [done|].
  cbn [run fold_left]. apply IH. by apply attachedIsAlive_step.
Qed.

(** X13: over every history of calls and callbacks of a manager, as long
    as a process handle is attached the status record exists, its status
    is [starting], [running] or [hot-reloading], and it carries neither a
    stop time nor an exit code. *)
Theorem X13_attached_process_is_never_terminal maxLogLines acts :
  let s := run (create maxLogLines) acts in
  is_Some (process s) ->
  exists fp,
    getStatus s = Some fp
    /\ (status fp = starting \/ status fp = running
        \/ status fp = hot_reloading)
    /\ stoppedAt fp = None
    /\ exitCode fp = None.
Proof.
  intros s Hp.
  destruct (attachedIsAlive_run acts (create maxLogLines)) as (fp & Hfp & Hal);
    [by intros [? ?] | exact Hp |].
  exists fp. split; [exact Hfp|]. destruct Hal as (H1 & H2 & H3 & H4).
  split; [|by split]. destruct (status fp); auto; done.
Qed.

Lemma X13_attached_process_is_never_terminal_witness :
  let env := mkStartEnv "/" (fun _ => None) 0 (mkSpawned None) in
  let options := mkOptions "/Users/alice/app" "UDID" None None None in
  let s := run (create None)
             [Start env options; Output 1 "Performing Hot reload..."] in
  exists fp, getStatus s = Some fp /\ exitCode fp = None.
Proof.
  cbv zeta.
  destruct (X13_attached_process_is_never_terminal None
    [Start (mkStartEnv "/" (fun _ => None) 0 (mkSpawned None))
       (mkOptions "/Users/alice/app" "UDID" None None None);
     Output 1 "Performing Hot reload..."]) as (fp & Hfp & _ & _ & Hc).
  - vm_compute. by eexists.
  - exists fp. by split.
Defined.

(** X14: when the exit callback runs on a manager with an attached
    process, whatever its history, the status becomes [stopped] if the
    exit code is 0 and [failed] otherwise (also when the code is missing
    because a signal ended the process); the stop time and the code are
    recorded, the process id and the start time stay, the handle is
    released, and the log and the subscribers are kept. *)
Theorem X14_exit_callback maxLogLines acts now code signal :
  let s := run (create maxLogLines) acts in
  let s' := handleExit now code signal s in
  is_Some (process s) ->
  exists fp,
    getStatus s = Some fp
    /\ getStatus s'
       = Some (mkFlutterProcess (pid fp)
                 (if bool_decide (code = Some 0) then stopped else failed)
                 (startedAt fp) (Some now) code)
    /\ process s' = None
    /\ logBuffer s' = logBuffer s
    /\ logSubscribers s' = logSubscribers s
    /\ effects s' = effects s.
Proof.
  intros s s' Hp.
  destruct (attachedIsAlive_run acts (create maxLogLines)) as (fp & Hfp & _);
    [by intros [? ?] | exact Hp |].
  fold s in Hfp. exists fp. split; [exact Hfp|].
  unfold s', handleExit, getStatus. by rewrite Hfp.
Qed.

Lemma X14_exit_callback_witness :
  let env := mkStartEnv "/" (fun _ => None) 3 (mkSpawned (Some 4242)) in
  let options := mkOptions "/Users/alice/app" "UDID" None None None in
  getStatus (handleExit 9 None (Some "SIGKILL")
               (run (create None) [Start env options]))
  = Some (mkFlutterProcess 4242 failed 3 (Some 9) None).
Proof.
  cbv zeta.
  destruct (X14_exit_callback None
    [Start (mkStartEnv "/" (fun _ => None) 3 (mkSpawned (Some 4242)))
       (mkOptions "/Users/alice/app" "UDID" None None None)]
    9 None (Some "SIGKILL")) as (fp & Hfp & Hexit & _).
  - vm_compute. by eexists.
  - rewrite Hexit. vm_compute in Hfp. injection Hfp as <-. reflexivity.
Defined.

End StatusFacts.

(** ** FlutterProcessManager: cleanup and the log of a manager *)

Section CleanupFacts.
Import FlutterProcessManager.

(** X15: [cleanup()] on a manager whose input stream accepts the write
    returns normally; afterwards no subscriber is registered and the log
    is empty with its next index back at 0. Without a process nothing is
    written, signalled or logged. With one, [q] is written and the input
    closed, and then: if the process exits its exit callback has released
    the handle; if the wait is rejected a warning is logged; if the five
    seconds elapse a warning is logged and [SIGKILL] is sent. *)
Theorem X15_cleanup env s :
  stdinOk env = true ->
  exists s',
    cleanup env s = (Ret tt, s')
    /\ logSubscribers s' = []
    /\ LogBuffer.getTotalLines (logBuffer s') = 0
    /\ LogBuffer.getNextIndex (logBuffer s') = 0
    /\ LogBuffer.maxLines (logBuffer s') = LogBuffer.maxLines (logBuffer s)
    /\ (process s = None ->
        process s' = None /\ effects s' = effects s
        /\ flutterProcess s' = flutterProcess s)
    /\ (is_Some (process s) ->
        effects s'
        = effects s
          ++ [StdinWrite ("q" +:+ String Js.LF ""); StdinEnd]
          ++ match waitOutcome env with
             | Exited _ _ _ => []
             | WaitRejected => [Warned "Error waiting for process"]
             | TimedOut _ =>
                 [Warned "Flutter process did not stop gracefully, killing";
                  Killed "SIGKILL"]
             end
        /\ match waitOutcome env with
           | Exited now code _ =>
               process s' = None
               /\ flutterProcess s' = exitedProcess now code <$> flutterProcess s
           | _ => process s' = process s /\ flutterProcess s' = flutterProcess s
           end).
Proof.
  intros Hok. unfold cleanup, cleanupBegin, cleanupTimeout, cleanupEnd.
  unfold_monad. rewrite Hok.
  destruct (process s) as [h|] eqn:Hp.
  - rewrite stop_eq. cbn [process set_logSubscribers]. rewrite Hp. cbn.
    destruct (waitOutcome env) as [now code signal| |delivered]; cbn.
    + eexists. split; [reflexivity|]. cbn. unfold handleExit. cbn.
      destruct (flutterProcess s) eqn:Hfp; cbn;
        repeat split; try done; by rewrite <- ?app_assoc.
    + eexists. split; [reflexivity|]. cbn.
      repeat split; try done; by rewrite <- ?app_assoc.
    + rewrite kill_eq. cbn. rewrite Hp. cbn.
      eexists. split; [reflexivity|]. cbn.
      repeat split; try done; by rewrite <- ?app_assoc.
  - cbn. eexists. split; [reflexivity|]. cbn. repeat split; try done.
    all: by intros [? ?].
Qed.

Lemma X15_cleanup_witness :
  let env0 := mkStartEnv "/" (fun _ => None) 0 (mkSpawned (Some 4242)) in
  let options := mkOptions "/Users/alice/app" "UDID" None None None in
  let s := run (create None)
             [Subscribe (mkSubscriber 1 (fun _ => false));
              Start env0 options; Output 1 "Launching lib/main.dart"] in
  exists s',
    cleanup (mkCleanupEnv true (TimedOut true)) s = (Ret tt, s')
    /\ logSubscribers s' = []
    /\ LogBuffer.getTotalLines (logBuffer s') = 0.
Proof.
  cbv zeta.
  destruct (X15_cleanup (mkCleanupEnv true (TimedOut true))
    (run (create None)
       [Subscribe (mkSubscriber 1 (fun _ => false));
        Start (mkStartEnv "/" (fun _ => None) 0 (mkSpawned (Some 4242)))
          (mkOptions "/Users/alice/app" "UDID" None None None);
        Output 1 "Launching lib/main.dart"]) eq_refl)
    as (s' & Hrun & Hsubs & Hlines & _).
  exists s'. by repeat split.
Defined.

Lemma bufferInv_appendAll ls : forall b,
  bufferInv b ->
  bufferInv (LogBuffer.appendAll ls b)
  /\ LogBuffer.maxLines (LogBuffer.appendAll ls b) = LogBuffer.maxLines b.
Proof.
  induction ls as [|[now l] ls IH]; intros b Hb; [done|].
  change (LogBuffer.appendAll ((now, l) :: ls) b)
    with (LogBuffer.appendAll ls (LogBuffer.append now l b)).
  destruct (IH (LogBuffer.append now l b)) as [H1 H2];
    [by apply bufferInv_append|]. by split.
Qed.

(** What each action does to the log. *)
Lemma step_logBuffer s a :
  logBuffer (snd (step s a))
  = match a with
    | Output now data =>
        LogBuffer.appendAll (map (fun l => (now, l)) (nonBlankLines data))
          (logBuffer s)
    | ClearLogs | CleanupEnd => LogBuffer.clear (logBuffer s)
    | _ => logBuffer s
    end.
Proof.
  destruct a; cbn [step snd fst outcome]; try done.
  - rewrite start_eq. case_bool_decide; [done|].
    destruct (checkTarget env options); [done|].
    destruct (checkFlavor options); [done|].
    by destruct (checkAdditionalArgs options).
  - unfold handleOutput, nonBlankLines.
    by destruct (handleLines_spec now0 (Js.split Js.LF data) s) as (Hb & _).
  - unfold handleExit. by destruct (flutterProcess s).
  - unfold timerFires. destruct (pendingTimers s); [done|].
    cbn. by destruct (flutterProcess s).
  - rewrite stop_eq. destruct (process s); [|done]. by destruct stdinOk0.
  - rewrite hotReload_eq. destruct (process s); [|done]. by destruct stdinOk0.
  - rewrite hotRestart_eq. destruct (process s); [|done]. by destruct stdinOk0.
  - rewrite kill_eq. by destruct (process s).
  - unfold getLogs. unfold_monad.
    by destruct (LogBuffer.getLogs fromIndex limit (logBuffer s)).
  - unfold subscribeToLogs. by destruct (existsb _ _).
  - unfold cleanupBegin. unfold_monad.
    destruct (process s) eqn:Hp; [|done].
    rewrite stop_eq. cbn [process set_logSubscribers]. rewrite Hp.
    by destruct stdinOk0.
  - unfold cleanupTimeout. unfold_monad. rewrite kill_eq.
    cbn [process emit]. by destruct (process s).
Qed.

Lemma logInv_run C acts : forall s,
  bufferInv (logBuffer s) /\ LogBuffer.maxLines (logBuffer s) = C ->
  bufferInv (logBuffer (run s acts))
  /\ LogBuffer.maxLines (logBuffer (run s acts)) = C.
Proof.
  induction acts as [|a acts IH]; intros s [Hinv Hmax]; [done|].
  cbn [run fold_left]. apply IH. rewrite step_logBuffer.
  destruct a; try (by split).
  - destruct (bufferInv_appendAll
                (map (fun l => (now0, l)) (nonBlankLines data))
                (logBuffer s) Hinv) as [H1 H2].
    split; [done | congruence].
  - split; [by apply bufferInv_clear | done].
  - split; [by apply bufferInv_clear | done].
Qed.

Lemma in_take {A} n (l : list A) x : In x (take n l) -> In x l.
Proof.
  intros H. rewrite <- (take_drop n l). apply in_or_app. by left.
Qed.

Lemma bufferInv_range b :
  bufferInv b ->
  Forall (fun e =>
            LogBuffer.currentIndex b - Z.of_nat (length (LogBuffer.logs b))
            <= LogBuffer.index e < LogBuffer.currentIndex b)
    (LogBuffer.logs b).
Proof.
  intros (_ & _ & _ & Hidx).
  assert (H : Forall (fun k =>
      LogBuffer.currentIndex b - Z.of_nat (length (LogBuffer.logs b))
      <= k < LogBuffer.currentIndex b) (map LogBuffer.index (LogBuffer.logs b))).
  { rewrite Hidx. apply Forall_seqZ. intros k Hk. lia. }
  by apply Forall_map in H.
Qed.

(** X16: the log page of a manager created with [maxLogLines = C >= 0],
    after any history: reading changes nothing; the page reports at most
    [C] stored lines; it holds at most [limit] entries (100 when no limit
    is given), each of them stored, with an index below the reported next
    index and not below [fromIndex]. *)
Theorem X16_manager_log_page C acts fromIndex limit page s' :
  0 <= C ->
  let s := run (create (Some C)) acts in
  getLogs fromIndex limit s = (Ret page, s') ->
  s' = s
  /\ 0 <= totalLines page <= C
  /\ totalLines page <= nextIndex page
  /\ Z.of_nat (length (page_logs page)) <= default 100 limit
  /\ Forall (fun e =>
               In e (LogBuffer.logs (logBuffer s))
               /\ nextIndex page - totalLines page <= LogBuffer.index e
                  < nextIndex page
               /\ (forall k, fromIndex = Some k -> k <= LogBuffer.index e))
       (page_logs page).
Proof.
  intros HC s.
  destruct (logInv_run C acts (create (Some C))) as [Hinv Hmax].
  { split; [by apply bufferInv_create | done]. }
  fold s in Hinv, Hmax.
  pose proof (bufferInv_range _ Hinv) as Hrange.
  destruct Hinv as (_ & Hlen & Hci & _). rewrite Hmax in Hlen.
  unfold getLogs. unfold_monad.
  destruct (LogBuffer.getLogs fromIndex limit (logBuffer s)) as [e|logs] eqn:Hl;
    [done|].
  intros [= <- <-]. cbn [totalLines nextIndex page_logs].
  unfold LogBuffer.getTotalLines, LogBuffer.getNextIndex.
  split; [done|]. split; [lia|]. split; [done|].
  unfold LogBuffer.getLogs in Hl.
  assert (Hr : forall e, In e (LogBuffer.logs (logBuffer s)) ->
    LogBuffer.currentIndex (logBuffer s)
    - Z.of_nat (length (LogBuffer.logs (logBuffer s)))
    <= LogBuffer.index e < LogBuffer.currentIndex (logBuffer s)).
  { intros e He. rewrite Forall_forall in Hrange. apply Hrange.
    by apply list_elem_of_In. }
  destruct fromIndex as [k|].
  - destruct (k <? 0); [done|].
    destruct (Z.leb_spec (default 100 limit) 0); [done|].
    injection Hl as <-. split.
    { rewrite length_take. lia. }
    apply Forall_forall. intros e He. apply list_elem_of_In, in_take in He.
    apply filter_In in He as [Hin Hge].
    split; [exact Hin|]. split; [by apply Hr|].
    intros k' [= <-]. lia.
  - destruct (Z.leb_spec (default 100 limit) 0); [done|].
    injection Hl as <-. split.
    { rewrite length_take. lia. }
    apply Forall_forall. intros e He. apply list_elem_of_In, in_take in He.
    split; [exact He|]. split; [by apply Hr | done].
Qed.

Lemma X16_manager_log_page_witness :
  let s := run (create (Some 2))
             [Output 1 ("a" +:+ String Js.LF ("b" +:+ String Js.LF "c"))] in
  snd (getLogs (Some 1) None s) = s.
Proof.
  cbv zeta.
  match goal with
  | |- snd (getLogs ?f ?l (run ?c ?acts)) = _ =>
      destruct (getLogs f l (run c acts)) as [[e|page] s'] eqn:Hrun;
        [vm_compute in Hrun; discriminate|];
      destruct (X16_manager_log_page 2 acts f l page s' ltac:(lia) Hrun)
        as (Hsame & _)
  end.
  exact Hsame.
Defined.

End CleanupFacts.

(** ** SessionManager: creation, configuration and the registry *)

Section SessionMore.
Import SessionManager.

(** X17: once the resolved path begins with the allowed prefix,
    [createSession] throws the does-not-exist error exactly when nothing
    is at the resolved path, the not-a-directory error exactly when
    something other than a directory is there, and the missing-pubspec
    error exactly when it is a directory without [pubspec.yaml]; the
    first two name the path as given, the third the resolved path. *)
Theorem X17_path_validation env params w :
  let worktreePath := param_worktreePath params in
  let resolvedPath := Path.resolve (cwd env) [worktreePath] in
  let result := fst (createSession env params w) in
  Js.startsWith resolvedPath (allowedPathPrefix w) = true ->
  (result = Throw (DirectoryDoesNotExist worktreePath)
   <-> existsSync (fs env) resolvedPath = false)
  /\ (result = Throw (NotADirectory worktreePath)
      <-> existsSync (fs env) resolvedPath = true
          /\ isDirectory (fs env) resolvedPath = false)
  /\ (result = Throw (MissingPubspec resolvedPath)
      <-> existsSync (fs env) resolvedPath = true
          /\ isDirectory (fs env) resolvedPath = true
          /\ existsSync (fs env) (Path.join [resolvedPath; "pubspec.yaml"])
             = false)
  /\ (forall e, result = Throw e ->
        match e with
        | AccessDenied _ _ | SessionNotFound _ => False
        | _ => True
        end).
Proof.
  cbv zeta. intros Hprefix. rewrite createSession_eq. cbv zeta.
  rewrite Hprefix. cbn [negb].
  assert (Hcases : forall r : Res Error SessionInfo,
    (r = Throw (DirectoryDoesNotExist (param_worktreePath params))
     \/ r = Throw (NotADirectory (param_worktreePath params))
     \/ r = Throw (MissingPubspec
                    (Path.resolve (cwd env) [param_worktreePath params]))
     \/ (exists reason, r = Throw (SimulatorFailure reason))
     \/ exists info, r = Ret info) ->
    forall e, r = Throw e ->
      match e with
      | AccessDenied _ _ | SessionNotFound _ => False
      | _ => True
      end).
  { intros r [->|[->|[->|[[reason ->]|[info ->]]]]] e [= <-]; exact I. }
  destruct (existsSync (fs env) (Path.resolve (cwd env) [param_worktreePath params]));
    cbn [negb fst].
  2:{ split; [|split; [|split]]; [split; intros; destruct_and?; by simplify_eq..|].
      apply Hcases. auto. }
  destruct (isDirectory (fs env) _); cbn [negb fst].
  2:{ split; [|split; [|split]]; [split; intros; destruct_and?; by simplify_eq..|].
      apply Hcases. auto. }
  destruct (existsSync (fs env) (Path.join _)); cbn [negb fst].
  2:{ split; [|split; [|split]]; [split; intros; destruct_and?; by simplify_eq..|].
      apply Hcases. auto. }
  destruct (createSimulator env _) as [reason|udid]; cbn [fst].
  { split; [|split; [|split]]; [split; intros; destruct_and?; by simplify_eq..|].
    apply Hcases. right. right. right. left. by eexists. }
  destruct (bootSimulator env udid) as [reason|[]]; cbn [fst].
  { split; [|split; [|split]]; [split; intros; destruct_and?; by simplify_eq..|].
    apply Hcases. right. right. right. left. by eexists. }
  split; [|split; [|split]]; [split; intros; destruct_and?; by simplify_eq..|].
  apply Hcases. right. right. right. right. by eexists.
Qed.

Lemma X17_path_validation_witness :
  let fs := fun p : string =>
    if String.eqb p "/Users/alice/notes.txt" then Some RegularFile else None in
  let env :=
    mkEnv "/" fs "id-1" 0 (fun _ => Ret "UDID-1") (fun _ => Ret tt)
      (fun _ => Ret tt) (fun _ => Ret tt)
      (fun _ => FlutterProcessManager.mkCleanupEnv true
                  FlutterProcessManager.WaitRejected) in
  fst (createSession env (mkParams "/Users/alice/notes.txt" None) (create None))
  = Throw (NotADirectory "/Users/alice/notes.txt").
Proof.
  cbv zeta.
  refine (proj2 (proj1 (proj2 (X17_path_validation
    (mkEnv "/"
       (fun p : string =>
          if String.eqb p "/Users/alice/notes.txt"
          then Some RegularFile else None)
       "id-1" 0 (fun _ => Ret "UDID-1") (fun _ => Ret tt)
       (fun _ => Ret tt) (fun _ => Ret tt)
       (fun _ => FlutterProcessManager.mkCleanupEnv true
                   FlutterProcessManager.WaitRejected))
    (mkParams "/Users/alice/notes.txt" None) (create None) eq_refl))) _).
  by split.
Defined.

(** X18: when the path is valid but the simulator cannot be created, the
    failure is passed on, booting is not attempted and no session is
    stored; when creation succeeds and booting fails, the failure is
    passed on and no session is stored, and the simulator that was created
    is neither shut down nor deleted. *)
Theorem X18_simulator_failure env params w :
  let resolvedPath := Path.resolve (cwd env) [param_worktreePath params] in
  let deviceType := default "iPhone 16 Pro" (param_deviceType params) in
  Js.startsWith resolvedPath (allowedPathPrefix w) = true ->
  isDirectory (fs env) resolvedPath = true ->
  existsSync (fs env) (Path.join [resolvedPath; "pubspec.yaml"]) = true ->
  (forall reason,
      createSimulator env deviceType = Throw reason ->
      createSession env params w
      = (Throw (SimulatorFailure reason),
         mk (allowedPathPrefix w) (sessionState w)
            (trace w ++ [CreateSimulatorCalled deviceType])))
  /\ (forall udid reason,
        createSimulator env deviceType = Ret udid ->
        bootSimulator env udid = Throw reason ->
        createSession env params w
        = (Throw (SimulatorFailure reason),
           mk (allowedPathPrefix w) (sessionState w)
              (trace w ++ [CreateSimulatorCalled deviceType;
                           BootSimulatorCalled udid]))).
Proof.
  cbv zeta. intros Hprefix Hdir Hpub.
  assert (Hex : existsSync (fs env)
                  (Path.resolve (cwd env) [param_worktreePath params]) = true).
  { unfold existsSync, isDirectory in *. by destruct (fs env _). }
  split.
  - intros reason Hc. rewrite createSession_eq. cbv zeta.
    by rewrite Hprefix, Hex, Hdir, Hpub, Hc.
  - intros udid reason Hc Hb. rewrite createSession_eq. cbv zeta.
    rewrite Hprefix, Hex, Hdir, Hpub, Hc, Hb. cbn. unfold emit. cbn.
    by rewrite <- app_assoc.
Qed.

Lemma X18_simulator_failure_witness :
  let fs := fun p : string =>
    if String.eqb p "/Users/alice/app" then Some Directory
    else if String.eqb p "/Users/alice/app/pubspec.yaml"
         then Some RegularFile else None in
  let env :=
    mkEnv "/" fs "id-1" 0 (fun _ => Ret "UDID-1")
      (fun _ => Throw "boot timed out")
      (fun _ => Ret tt) (fun _ => Ret tt)
      (fun _ => FlutterProcessManager.mkCleanupEnv true
                  FlutterProcessManager.WaitRejected) in
  createSession env (mkParams "/Users/alice/app" None) (create None)
  = (Throw (SimulatorFailure "boot timed out"),
     mk "/Users/" ∅
        [CreateSimulatorCalled "iPhone 16 Pro"; BootSimulatorCalled "UDID-1"]).
Proof.
  cbv zeta.
  exact (proj2 (X18_simulator_failure
    (mkEnv "/"
       (fun p : string =>
          if String.eqb p "/Users/alice/app" then Some Directory
          else if String.eqb p "/Users/alice/app/pubspec.yaml"
               then Some RegularFile else None)
       "id-1" 0 (fun _ => Ret "UDID-1") (fun _ => Throw "boot timed out")
       (fun _ => Ret tt) (fun _ => Ret tt)
       (fun _ => FlutterProcessManager.mkCleanupEnv true
                   FlutterProcessManager.WaitRejected))
    (mkParams "/Users/alice/app" None) (create None)
    eq_refl eq_refl eq_refl) "UDID-1" "boot timed out" eq_refl eq_refl).
Defined.

Lemma createSession_denied_iff env params w :
  (exists a r, fst (createSession env params w) = Throw (AccessDenied a r))
  <-> Js.startsWith (Path.resolve (cwd env) [param_worktreePath params])
        (allowedPathPrefix w) = false.
Proof.
  rewrite createSession_eq. cbv zeta.
  destruct (Js.startsWith _ (allowedPathPrefix w)); cbn [negb].
  - split; [|done]. intros (a & r & H). exfalso.
    repeat match type of H with
           | context [if ?c then _ else _] => destruct c; [discriminate|]
           end.
    destruct (createSimulator env _) as [reason|udid]; [discriminate|].
    by destruct (bootSimulator env udid) as [reason|[]].
  - split; [done|]. intros _. by eexists _, _.
Qed.

(** X19: [configure] replaces the allowed prefix and nothing else: the
    registered sessions and the trace stay, a later [createSession] is
    judged by the new prefix alone, and a session created under the old
    prefix is looked up and ended as before. *)
Theorem X19_configure prefix w env params sessionId :
  sessionState (configure prefix w) = sessionState w
  /\ trace (configure prefix w) = trace w
  /\ listSessions (configure prefix w) = listSessions w
  /\ getSession sessionId (configure prefix w) = getSession sessionId w
  /\ ((exists a r,
         fst (createSession env params (configure prefix w))
         = Throw (AccessDenied a r))
      <-> Js.startsWith (Path.resolve (cwd env) [param_worktreePath params])
            prefix = false)
  /\ fst (endSession env sessionId (configure prefix w))
     = fst (endSession env sessionId w)
  /\ sessionState (snd (endSession env sessionId (configure prefix w)))
     = sessionState (snd (endSession env sessionId w))
  /\ trace (snd (endSession env sessionId (configure prefix w)))
     = trace (snd (endSession env sessionId w)).
Proof.
  split; [done|]. split; [done|]. split; [done|]. split; [done|].
  split; [apply createSession_denied_iff|].
  destruct (sessionState w !! sessionId) as [session|] eqn:Hs.
  - rewrite (endSession_registered env sessionId session (configure prefix w))
      by done.
    by rewrite (endSession_registered env sessionId session w) by done.
  - rewrite (endSession_unknown env sessionId (configure prefix w)) by done.
    by rewrite (endSession_unknown env sessionId w) by done.
Qed.

(** X20: a successful [createSession] stores one session under the
    generated id and returns its summary: the session is found by
    [getSession] and listed by [listSessions], it carries the identifier
    of the simulator that was created and booted for the requested device
    type ([iPhone 16 Pro] when none is given), it has no process manager
    yet, and every session under another id is as before. *)
Theorem X20_created_session_is_registered env params w info w' :
  createSession env params w = (Ret info, w') ->
  let deviceType := default "iPhone 16 Pro" (param_deviceType params) in
  exists session,
    getSession (info_id info) w' = Some session
    /\ info = toInfo session
    /\ In info (listSessions w')
    /\ id session = uuidv4 env
    /\ createSimulator env deviceType = Ret (simulatorUdid session)
    /\ SessionManager.deviceType session = deviceType
    /\ createdAt session = now env
    /\ flutterProcessManager session = None
    /\ trace w'
       = trace w ++ [CreateSimulatorCalled deviceType;
                     BootSimulatorCalled (simulatorUdid session)]
    /\ allowedPathPrefix w' = allowedPathPrefix w
    /\ (forall k, k <> info_id info -> getSession k w' = getSession k w).
Proof.
  rewrite createSession_eq. cbv zeta.
  repeat match goal with
         | |- context [if ?c then _ else _] => destruct c; [done|]
         end.
  destruct (createSimulator env _) as [reason|udid] eqn:Hc; [done|].
  destruct (bootSimulator env udid) as [reason|[]]; [done|].
  intros [= <- <-]. eexists. unfold getSession, state_get. cbn.
  split; [apply lookup_insert_eq|]. split; [done|]. split.
  { unfold listSessions, state_list. apply in_map_iff. cbn.
    eexists (_, _). split; [|apply list_elem_of_In, elem_of_map_to_list,
      lookup_insert_eq]. done. }
  repeat split; try done.
  - by rewrite <- app_assoc.
  - intros k Hk. by apply lookup_insert_ne.
Qed.

Lemma X20_created_session_is_registered_witness :
  let fs := fun p : string =>
    if String.eqb p "/Users/alice/app" then Some Directory
    else if String.eqb p "/Users/alice/app/pubspec.yaml"
         then Some RegularFile else None in
  let env :=
    mkEnv "/" fs "id-1" 0 (fun _ => Ret "UDID-1") (fun _ => Ret tt)
      (fun _ => Ret tt) (fun _ => Ret tt)
      (fun _ => FlutterProcessManager.mkCleanupEnv true
                  FlutterProcessManager.WaitRejected) in
  let params := mkParams "/Users/alice/app" None in
  is_Some (getSession "id-1" (snd (createSession env params (create None)))).
Proof.
  cbv zeta.
  match goal with
  | |- is_Some (getSession _ (snd (createSession ?env ?params ?w))) =>
      assert (Hrun : createSession env params w
                = (Ret (mkInfo "id-1" "/Users/alice/app" "UDID-1"
                          "iPhone 16 Pro" 0),
                   snd (createSession env params w)))
        by (vm_compute; reflexivity);
      destruct (X20_created_session_is_registered env params w _ _ Hrun)
        as (session & Hget & _)
  end.
  cbn [info_id] in Hget. by eexists.
Defined.

(** X21: creating a session under a fresh id and ending it again gives
    back the registry as it was; the simulator that was created is shut
    down and deleted; ending the same id once more throws the
    session-not-found error. *)
Theorem X21_create_then_end env params w info w1 env' :
  createSession env params w = (Ret info, w1) ->
  sessionState w !! uuidv4 env = None ->
  exists w2,
    endSession env' (info_id info) w1 = (Ret tt, w2)
    /\ sessionState w2 = sessionState w
    /\ In (ShutdownSimulatorCalled (info_simulatorUdid info)) (trace w2)
    /\ In (DeleteSimulatorCalled (info_simulatorUdid info)) (trace w2)
    /\ endSession env' (info_id info) w2
       = (Throw (SessionNotFound (info_id info)), w2).
Proof.
  rewrite createSession_eq. cbv zeta.
  repeat match goal with
         | |- context [if ?c then _ else _] => destruct c; [done|]
         end.
  destruct (createSimulator env _) as [reason|udid] eqn:Hc; [done|].
  destruct (bootSimulator env udid) as [reason|[]]; [done|].
  intros [= <- <-] Hfresh. cbn [toInfo info_id info_simulatorUdid id
    simulatorUdid].
  eexists. split.
  { apply endSession_registered. cbn. apply lookup_insert_eq. }
  cbn [sessionState trace state_set emit].
  assert (Hback : delete (uuidv4 env)
            (<[uuidv4 env:=mkSession (uuidv4 env) (param_worktreePath params)
                 udid (default "iPhone 16 Pro" (param_deviceType params))
                 (now env) None]> (sessionState w)) = sessionState w).
  { rewrite delete_insert_eq. by apply delete_id. }
  split; [exact Hback|].
  match goal with
  | |- In _ (?tr ++ teardownEvents ?e ?k ?sess) /\ _ =>
      pose proof (teardownEvents_tornDown e k sess tr) as (Hsd & Hdel & _)
  end.
  split; [exact Hsd|]. split; [exact Hdel|].
  apply endSession_unknown. cbn [sessionState]. rewrite Hback. exact Hfresh.
Qed.

Lemma X21_create_then_end_witness :
  let fs := fun p : string =>
    if String.eqb p "/Users/alice/app" then Some Directory
    else if String.eqb p "/Users/alice/app/pubspec.yaml"
         then Some RegularFile else None in
  let env :=
    mkEnv "/" fs "id-1" 0 (fun _ => Ret "UDID-1") (fun _ => Ret tt)
      (fun _ => Throw "already shut down") (fun _ => Ret tt)
      (fun _ => FlutterProcessManager.mkCleanupEnv true
                  FlutterProcessManager.WaitRejected) in
  let params := mkParams "/Users/alice/app" None in
  exists w2,
    endSession env "id-1" (snd (createSession env params (create None)))
    = (Ret tt, w2)
    /\ sessionState w2 = ∅.
Proof.
  cbv zeta.
  match goal with
  | |- exists w2, endSession ?env _ (snd (createSession ?env ?params ?w)) = _ /\ _ =>
      assert (Hrun : createSession env params w
                = (Ret (mkInfo "id-1" "/Users/alice/app" "UDID-1"
                          "iPhone 16 Pro" 0),
                   snd (createSession env params w)))
        by (vm_compute; reflexivity);
      destruct (X21_create_then_end env params w _ _ env Hrun
                  (lookup_empty _))
        as (w2 & Hend & Hstate & _)
  end.
  exists w2. split; [exact Hend | exact Hstate].
Defined.

Lemma keyed_cleanup env w : keyed w -> keyed (snd (cleanup env w)).
Proof.
  intros Hk. unfold cleanup, mbind, M_bind, get.
  destruct (cleanupLoop_spec env (state_list w) w)
    as (w' & Hrun & Hin & Hout & _).
  rewrite Hrun. cbn [snd]. intros k s Hs.
  destruct (in_dec string_dec k (map info_id (state_list w))) as [Hi|Hi].
  - rewrite (Hin _ Hi) in Hs. done.
  - rewrite (Hout _ Hi) in Hs. by apply Hk.
Qed.

Lemma keyed_managerRun calls : forall w, keyed w -> keyed (managerRun w calls).
Proof.
  induction calls as [|c calls IH]; intros w Hw; [done|].
  cbn [managerRun fold_left]. apply IH.
  destruct c; cbn [managerStep];
    auto using keyed_createSession, keyed_endSession, keyed_cleanup.
Qed.

(** X22: in every manager reached from a new one by calls of [configure],
    [createSession], [endSession] and [cleanup], whatever their outcome,
    each session is registered under its own id, and [listSessions] lists
    exactly the summaries of the registered sessions. *)
Theorem X22_registry_is_keyed_by_session_id prefix calls :
  let w := managerRun (create prefix) calls in
  (forall k session, getSession k w = Some session -> id session = k)
  /\ (forall info,
        In info (listSessions w)
        <-> exists session,
              getSession (info_id info) w = Some session
              /\ info = toInfo session).
Proof.
  intros w.
  assert (Hk : keyed w) by apply keyed_managerRun, keyed_create.
  split; [exact Hk|].
  intros info. unfold listSessions, state_list, getSession, state_get. split.
  - intros Hin. apply in_map_iff in Hin as ([k session] & <- & Hin).
    apply list_elem_of_In, elem_of_map_to_list in Hin.
    exists session. split; [|done]. cbn. by rewrite (Hk _ _ Hin).
  - intros (session & Hs & ->). apply in_map_iff.
    exists (info_id (toInfo session), session). split; [done|].
    by apply list_elem_of_In, elem_of_map_to_list.
Qed.

End SessionMore.

(** ** index.ts: the command line *)

Section CliFacts.
Import Cli.

Lemma truthy_nonempty v : v <> "" -> Js.truthy v = true.
Proof. by destruct v. Qed.

(** Well-formed options in front are consumed one by one. *)
Lemma parseLoop_options opts : forall more acc,
  Forall wellFormedOption opts ->
  parseLoop (renderOptions opts ++ more) acc
  = parseLoop more (fold_left applyOption opts acc).
Proof.
  induction opts as [|o opts IH]; intros more acc Hwf; [done|].
  inversion Hwf as [|? ? Ho Hrest]; subst.
  cbn [renderOptions flat_map fold_left]. rewrite <- app_assoc.
  fold (renderOptions opts).
  destruct o as [short|short value|value|value]; cbn [renderOption app].
  - destruct short; cbn; by apply IH.
  - destruct Ho as [Hne [n Hn]].
    destruct short; cbn -[parseInt10];
      rewrite (truthy_nonempty _ Hne), Hn; cbn -[parseInt10];
      rewrite <- Hn; by apply IH.
  - cbn in Ho. cbn. rewrite (truthy_nonempty _ Ho). cbn. by apply IH.
  - cbn in Ho. cbn. rewrite (truthy_nonempty _ Ho). cbn. by apply IH.
Qed.

(** X23: a command line that spells a sequence of well-formed options is
    accepted, and the result is the starting values (environment or
    built-in) updated by the options from left to right: a later option
    overrides an earlier one, and any option overrides the environment. *)
Theorem X23_parse_rendered_options env opts :
  Forall wellFormedOption opts ->
  parseArgs env (renderOptions opts)
  = Ret (fold_left applyOption opts (initial env)).
Proof.
  intros Hwf. unfold parseArgs.
  rewrite <- (app_nil_r (renderOptions opts)).
  by rewrite parseLoop_options.
Qed.

Lemma X23_parse_rendered_options_witness :
  parseArgs (mkProcessEnv (Some "8080") None None)
    ["-p"; "3001"; "--allow-only"; "/Users/alice/"; "--port"; "9000"]
  = Ret (mkCliArgs (Some 9000) "127.0.0.1" false "/Users/alice/").
Proof.
  apply (X23_parse_rendered_options (mkProcessEnv (Some "8080") None None)
    [OptPort true "3001"; OptAllowOnly "/Users/alice/"; OptPort false "9000"]).
  repeat constructor; try discriminate; by eexists.
Defined.

Lemma parseLoop_accepts n : forall argv acc cli,
  (length argv <= n)%nat ->
  parseLoop argv acc = Ret cli ->
  exists opts,
    Forall wellFormedOption opts
    /\ argv = renderOptions opts
    /\ cli = fold_left applyOption opts acc.
Proof.
  induction n as [|n IH]; intros argv acc cli Hlen Hrun.
  { destruct argv; [|cbn in Hlen; lia]. cbn in Hrun. injection Hrun as <-.
    by exists []. }
  destruct argv as [|arg rest].
  { cbn in Hrun. injection Hrun as <-. by exists []. }
  cbn [parseLoop] in Hrun. cbn [length] in Hlen.
  destruct (String.eqb arg "--help") eqn:E1.
  { apply String.eqb_eq in E1 as ->. cbn [orb] in Hrun.
    destruct (IH rest _ cli ltac:(lia) Hrun) as (opts & Hwf & -> & ->).
    exists (OptHelp false :: opts). by repeat split; [constructor|..]. }
  destruct (String.eqb arg "-h") eqn:E2.
  { apply String.eqb_eq in E2 as ->. cbn [orb] in Hrun.
    destruct (IH rest _ cli ltac:(lia) Hrun) as (opts & Hwf & -> & ->).
    exists (OptHelp true :: opts). by repeat split; [constructor|..]. }
  cbn [orb] in Hrun.
  assert (Hport : forall short : bool,
    arg = (if short then "-p" else "--port") ->
    match rest with
    | portValue :: rest' =>
        if negb (Js.truthy portValue) || isNaN (parseInt10 portValue)
        then Throw PortRequiresNumber
        else parseLoop rest' (set_port (parseInt10 portValue) acc)
    | [] => Throw PortRequiresNumber
    end = Ret cli ->
    exists opts,
      Forall wellFormedOption opts
      /\ arg :: rest = renderOptions opts
      /\ cli = fold_left applyOption opts acc).
  { intros short -> Hrun'. destruct rest as [|v rest']; [done|].
    destruct (Js.truthy v) eqn:Hv; [|done]. cbn [negb orb] in Hrun'.
    destruct (parseInt10 v) as [p|] eqn:Hp; [|done]. cbn [isNaN] in Hrun'.
    cbn [length] in Hlen.
    destruct (IH rest' _ cli ltac:(lia) Hrun') as (opts & Hwf & -> & ->).
    exists (OptPort short v :: opts). split; [|split].
    - constructor; [|done]. split; [by destruct v | by rewrite Hp].
    - done.
    - cbn [fold_left applyOption]. by rewrite Hp. }
  destruct (String.eqb arg "--port") eqn:E3.
  { apply String.eqb_eq in E3. cbn [orb] in Hrun. by apply (Hport false). }
  destruct (String.eqb arg "-p") eqn:E4.
  { apply String.eqb_eq in E4. cbn [orb] in Hrun. by apply (Hport true). }
  cbn [orb] in Hrun. clear Hport.
  destruct (String.eqb arg "--host") eqn:E5.
  { apply String.eqb_eq in E5 as ->. destruct rest as [|v rest']; [done|].
    destruct (Js.truthy v) eqn:Hv; [|done]. cbn [negb] in Hrun.
    cbn [length] in Hlen.
    destruct (IH rest' _ cli ltac:(lia) Hrun) as (opts & Hwf & -> & ->).
    exists (OptHost v :: opts). split; [|by split].
    constructor; [|done]. by destruct v. }
  destruct (String.eqb arg "--allow-only") eqn:E6; [|done].
  apply String.eqb_eq in E6 as ->. destruct rest as [|v rest']; [done|].
  destruct (Js.truthy v) eqn:Hv; [|done]. cbn [negb] in Hrun.
  cbn [length] in Hlen.
  destruct (IH rest' _ cli ltac:(lia) Hrun) as (opts & Hwf & -> & ->).
  exists (OptAllowOnly v :: opts). split; [|by split].
  constructor; [|done]. by destruct v.
Qed.

(** X24: [parseArgs] accepts a command line only if it spells a sequence
    of well-formed options, each value-taking flag followed by its value;
    the result is then the one these options determine. *)
Theorem X24_accepted_command_lines env argv cli :
  parseArgs env argv = Ret cli ->
  exists opts,
    Forall wellFormedOption opts
    /\ argv = renderOptions opts
    /\ cli = fold_left applyOption opts (initial env).
Proof. intros Hrun. by apply (parseLoop_accepts (length argv)). Qed.

Lemma X24_accepted_command_lines_witness :
  exists opts,
    Forall wellFormedOption opts
    /\ ["--host"; "localhost"; "-h"] = renderOptions opts.
Proof.
  destruct (X24_accepted_command_lines (mkProcessEnv None None None)
              ["--host"; "localhost"; "-h"]
              (mkCliArgs (Some 3000) "localhost" true "/Users/") eq_refl)
    as (opts & Hwf & Hargv & _).
  by exists opts.
Defined.

(** X25: after any well-formed options, the first argument that is not a
    known flag ends the process with the unknown-argument error naming
    it; [--port] or [-p] ends it with the port error when it is the last
    argument or is followed by an empty text or by one that does not
    begin with a decimal number; [--host] and [--allow-only] end it with
    their error when they are last or followed by an empty text. Each
    value-taking flag consumes the argument after it even when that
    argument is itself a flag. *)
Theorem X25_rejected_command_lines env opts :
  Forall wellFormedOption opts ->
  (forall arg rest,
      ~ In arg knownFlags ->
      parseArgs env (renderOptions opts ++ arg :: rest)
      = Throw (UnknownArgument arg))
  /\ (forall flag more,
        flag = "--port" \/ flag = "-p" ->
        more = [] \/ (exists v rest, more = v :: rest
                                   /\ (v = "" \/ parseInt10 v = None)) ->
        parseArgs env (renderOptions opts ++ flag :: more)
        = Throw PortRequiresNumber)
  /\ (forall more,
        more = [] \/ (exists rest, more = "" :: rest) ->
        parseArgs env (renderOptions opts ++ "--host" :: more)
        = Throw HostRequiresValue
        /\ parseArgs env (renderOptions opts ++ "--allow-only" :: more)
           = Throw AllowOnlyRequiresPath)
  /\ (forall flag rest,
        In flag knownFlags ->
        parseArgs env (renderOptions opts ++ "--host" :: flag :: rest)
        = parseLoop rest
            (set_host flag (fold_left applyOption opts (initial env)))).
Proof.
  intros Hwf. unfold parseArgs.
  split; [|split; [|split]].
  - intros arg rest Hunknown. rewrite parseLoop_options by done.
    cbn [parseLoop].
    assert (Hne : forall f, In f knownFlags -> String.eqb arg f = false).
    { intros f Hf. apply String.eqb_neq. intros ->. done. }
    rewrite !Hne by (cbn; tauto). done.
  - intros flag more Hflag Hmore. rewrite parseLoop_options by done.
    assert (Hhead : forall acc,
      parseLoop (flag :: more) acc
      = match more with
        | portValue :: rest' =>
            if negb (Js.truthy portValue) || isNaN (parseInt10 portValue)
            then Throw PortRequiresNumber
            else parseLoop rest' (set_port (parseInt10 portValue) acc)
        | [] => Throw PortRequiresNumber
        end) by (by destruct Hflag as [-> | ->]).
    rewrite Hhead. destruct Hmore as [->|(v & rest & -> & Hv)]; [done|].
    destruct Hv as [->|Hnan]; [done|]. rewrite Hnan. cbn.
    by rewrite orb_true_r.
  - intros more Hmore. rewrite !parseLoop_options by done.
    by destruct Hmore as [->|(rest & ->)].
  - intros flag rest Hflag. rewrite parseLoop_options by done.
    cbn in Hflag. by destruct Hflag as [<-|[<-|[<-|[<-|[<-|[<-|[]]]]]]].
Qed.

Lemma X25_rejected_command_lines_witness :
  parseArgs (mkProcessEnv None None None) ["-h"; "--port"; "80"; "--verbose"]
  = Throw (UnknownArgument "--verbose").
Proof.
  destruct (X25_rejected_command_lines (mkProcessEnv None None None)
              [OptHelp true; OptPort false "80"]) as (Hunknown & _).
  - repeat constructor; [discriminate | by eexists].
  - apply (Hunknown "--verbose" []). cbn. intuition discriminate.
Defined.

(** X26: the [PORT] variable is not checked the way [--port] is. A text
    that is not empty and does not begin with a decimal number is taken
    from the environment without complaint and leaves the port [NaN],
    while the same text after [--port] ends the process; an empty or
    missing variable gives the built-in values 3000, [127.0.0.1] and
    [/Users/]. *)
Theorem X26_environment_port_unchecked v hostVar allowVar :
  v <> "" ->
  parseInt10 v = None ->
  parseArgs (mkProcessEnv (Some v) hostVar allowVar) []
  = Ret (mkCliArgs None (envOr hostVar "127.0.0.1") false
           (envOr allowVar "/Users/"))
  /\ parseArgs (mkProcessEnv (Some v) hostVar allowVar) ["--port"; v]
     = Throw PortRequiresNumber
  /\ parseArgs (mkProcessEnv (Some "") (Some "") (Some "")) []
     = Ret (mkCliArgs (Some 3000) "127.0.0.1" false "/Users/")
  /\ parseArgs (mkProcessEnv None None None) []
     = Ret (mkCliArgs (Some 3000) "127.0.0.1" false "/Users/").
Proof.
  intros Hne Hnan. unfold parseArgs, initial. cbn [PORT HOST ALLOW_ONLY].
  assert (Hv : envOr (Some v) "3000" = v) by (by destruct v).
  rewrite Hv, Hnan. split; [done|]. split; [|by split].
  cbn -[parseInt10]. by rewrite (truthy_nonempty _ Hne), Hnan.
Qed.

Lemma X26_environment_port_unchecked_witness :
  parseArgs (mkProcessEnv (Some "http") None None) []
  = Ret (mkCliArgs None "127.0.0.1" false "/Users/").
Proof.
  exact (proj1 (X26_environment_port_unchecked "http" None None
                  ltac:(discriminate) eq_refl)).
Defined.

(** X27: [main] configures the session manager only when the command
    line is accepted and does not ask for help, and then with the prefix
    the command line determines: the registered sessions stay, and from
    then on [createSession] denies access exactly to the paths whose
    resolved form does not begin with that prefix. With [--help] or a
    rejected command line the manager is not touched. *)
Theorem X27_main_configures_prefix env argv w :
  match main env argv w with
  | Serve cli w' =>
      parseArgs env argv = Ret cli
      /\ help cli = false
      /\ w' = SessionManager.configure (allowOnly cli) w
      /\ SessionManager.sessionState w' = SessionManager.sessionState w
      /\ (forall senv params,
            (exists a r,
                fst (SessionManager.createSession senv params w')
                = Throw (SessionManager.AccessDenied a r))
            <-> Js.startsWith
                  (Path.resolve (SessionManager.cwd senv)
                     [SessionManager.param_worktreePath params])
                  (allowOnly cli) = false)
  | ShowHelpAndExit =>
      exists cli, parseArgs env argv = Ret cli /\ help cli = true
  | ExitWithError e => parseArgs env argv = Throw e
  end.
Proof.
  unfold main. destruct (parseArgs env argv) as [e|cli]; [done|].
  destruct (help cli) eqn:Hh; [by exists cli|].
  split; [done|]. split; [done|]. split; [done|]. split; [done|].
  intros senv params. apply createSession_denied_iff.
Qed.

End CliFacts.

(** ** FlutterProcessManager: chunks of output *)

Section ChunkFacts.
Import FlutterProcessManager.

Lemma split_nonempty sep d : Js.split sep d <> [].
Proof.
  destruct d as [|c d]; cbn; [done|].
  destruct (Ascii.eqb c sep); [done|]. by destruct (Js.split sep d).
Qed.

Lemma split_join sep d1 d2 :
  Js.split sep (d1 +:+ String sep d2) = Js.split sep d1 ++ Js.split sep d2.
Proof.
  induction d1 as [|c d1 IH].
  - change ("" +:+ String sep d2) with (String sep d2). cbn.
    by rewrite Ascii.eqb_refl.
  - change (String c d1 +:+ String sep d2)
      with (String c (d1 +:+ String sep d2)).
    cbn [Js.split]. rewrite IH.
    destruct (Ascii.eqb c sep); [done|].
    pose proof (split_nonempty sep d1) as Hne.
    by destruct (Js.split sep d1).
Qed.

Lemma split_single sep d : ~ In sep (chars d) -> Js.split sep d = [d].
Proof.
  induction d as [|c d IH]; intros Hno; [done|].
  cbn [Js.split]. cbn [chars] in Hno.
  destruct (Ascii.eqb_spec c sep) as [->|Hne]; [exfalso; apply Hno; by left|].
  rewrite IH; [done|]. intros H. apply Hno. by right.
Qed.

(** X28: handling two chunks one after the other is the same as handling
    them joined by a line feed; the handler keeps nothing between calls,
    so a line that arrives cut in two chunks is logged, and delivered, as
    two lines. *)
Theorem X28_chunks_compose now d1 d2 s :
  handleOutput now (d1 +:+ String Js.LF d2) s
  = handleOutput now d2 (handleOutput now d1 s)
  /\ (~ In Js.LF (chars d1) -> ~ In Js.LF (chars d2) ->
      Js.trim_nonempty d1 = true -> Js.trim_nonempty d2 = true ->
      logBuffer (handleOutput now d2 (handleOutput now d1 s))
      = LogBuffer.append now d2 (LogBuffer.append now d1 (logBuffer s))).
Proof.
  split.
  - unfold handleOutput. by rewrite split_join, fold_left_app.
  - intros H1 H2 Hb1 Hb2.
    destruct (handleLines_spec now (Js.split Js.LF d2) (handleOutput now d1 s))
      as (Hl2 & _).
    destruct (handleLines_spec now (Js.split Js.LF d1) s) as (Hl1 & _).
    unfold handleOutput in *. rewrite Hl2, Hl1.
    rewrite (split_single _ _ H1), (split_single _ _ H2). cbn.
    by rewrite Hb1, Hb2.
Qed.

Lemma X28_chunks_compose_witness :
  logBuffer (handleOutput 1 "ded 3 libraries"
               (handleOutput 1 "Reloa" (create None)))
  = LogBuffer.append 1 "ded 3 libraries"
      (LogBuffer.append 1 "Reloa" (logBuffer (create None))).
Proof.
  apply (proj2 (X28_chunks_compose 1 "Reloa" "ded 3 libraries" (create None)));
    try reflexivity; cbn; intuition discriminate.
Defined.

End ChunkFacts.
